(** * ProfitFlow (app.py): profit calculator, money parsing and ledger CRUD

    A shallow embedding of the logic of [src/app.py]: the money and percent
    parsers and the [moeda] formatter, the fee and cost functions, the monthly
    dashboard, and the create / update / list handlers of the three ledgers
    (compras, vendas, boletos).

    Conventions of the embedding.
    - A Python [int] is a [Z]; a Python [float] is a binary64 [spec_float]
      (precision 53, emax 1024) with the operations of [SpecFloat].
    - A Python [str] is a [string] whose characters are read as code points
      below 256.
    - The library functions the source calls ([int], [float], [Decimal],
      [round], [strptime], [strftime], [isoformat], [str] methods, SQL
      [LIKE] and [ORDER BY]) are modelled by functions written after their
      documented behaviour.
    - Code either returns, raises a Python exception, or aborts with an HTTP
      status: type [result].
    - The database is a record of three tables (lists of rows in rowid
      order) and the singleton configuration row; handlers pass it
      explicitly.  The clock ([date.today()], [datetime.utcnow()]) is an
      argument of the handlers that read it.
    - A handler is followed up to the values it hands to its template or
      its redirect; of the templates only the date fields of the edit forms
      are modelled.  The CSV exports are followed up to their response. *)

From Stdlib Require Import ZArith String Ascii List Bool Lia.
From Stdlib Require Import Sorting.Sorted Sorting.Permutation.
From Stdlib Require Import QArith.
From Stdlib Require Import Floats.SpecFloat.
From stdpp Require Import base option gmap strings.

Import ListNotations.
Local Open Scope string_scope.
Local Open Scope Z_scope.

(** ** Outcomes of Python code *)

Inductive exn : Type :=
| ValueError
| OverflowError
| InvalidOperation
| DecimalOverflow
| StorageError.

Inductive result (A : Type) : Type :=
| Ok (a : A)
| Raise (e : exn)
| Abort (status : Z).

Arguments Ok {A} a.
Arguments Raise {A} e.
Arguments Abort {A} status.

#[global] Instance result_ret : MRet result := fun A a => Ok a.

#[global] Instance result_bind : MBind result := fun A B k r =>
  match r with
  | Ok a => k a
  | Raise e => Raise e
  | Abort c => Abort c
  end.

(** [try: ... except Exception: fallback] around an expression: any raised
    exception is replaced by the fallback.  ([abort] is never called inside
    a [try] in the source.) *)
Definition try_except {A : Type} (r : result A) (fallback : A) : result A :=
  match r with
  | Raise _ => Ok fallback
  | _ => r
  end.

Definition of_option {A : Type} (e : exn) (o : option A) : result A :=
  match o with
  | Some a => Ok a
  | None => Raise e
  end.

(** ** Python strings *)

Module PyStr.

(** [str.isspace] on code points below 256. *)
Definition is_space (c : ascii) : bool :=
  let n := N_of_ascii c in
  ((9 <=? n) && (n <=? 13) || (28 <=? n) && (n <=? 32)
   || (n =? 133) || (n =? 160))%N.

Fixpoint lstrip (s : string) : string :=
  match s with
  | EmptyString => EmptyString
  | String c s' => if is_space c then lstrip s' else s
  end.

Fixpoint rstrip (s : string) : string :=
  match s with
  | EmptyString => EmptyString
  | String c s' =>
      match rstrip s' with
      | EmptyString => if is_space c then EmptyString else String c EmptyString
      | r => String c r
      end
  end.

(** [s.strip()] *)
Definition strip (s : string) : string := rstrip (lstrip s).

Fixpoint starts_with (p s : string) : bool :=
  match p, s with
  | EmptyString, _ => true
  | String a p', String b s' => Ascii.eqb a b && starts_with p' s'
  | String _ _, EmptyString => false
  end.

(** [s.replace(old, new)] for a non-empty [old]: leftmost occurrences,
    not overlapping.  [skip] counts the characters of a matched occurrence
    still to be dropped. *)
Fixpoint replace_from (old new : string) (skip : nat) (s : string) : string :=
  match s with
  | EmptyString => EmptyString
  | String c s' =>
      match skip with
      | S k => replace_from old new k s'
      | O =>
          if starts_with old s
          then new ++ replace_from old new (Nat.pred (String.length old)) s'
          else String c (replace_from old new O s')
      end
  end.

Definition replace (old new s : string) : string := replace_from old new O s.

(** [s.count(sub)] for a non-empty [sub]. *)
Fixpoint count_from (sub : string) (skip : nat) (s : string) : Z :=
  match s with
  | EmptyString => 0
  | String c s' =>
      match skip with
      | S k => count_from sub k s'
      | O =>
          if starts_with sub s
          then 1 + count_from sub (Nat.pred (String.length sub)) s'
          else count_from sub O s'
      end
  end.

Definition count (sub s : string) : Z := count_from sub O s.

(** [s.split(sep)] for a one-character separator. *)
Fixpoint split (sep : ascii) (s : string) : list string :=
  match s with
  | EmptyString => [EmptyString]
  | String c s' =>
      if Ascii.eqb c sep then EmptyString :: split sep s'
      else match split sep s' with
           | [] => [String c EmptyString]
           | w :: ws => String c w :: ws
           end
  end.

(** SQLite's [lower()]: only the letters A-Z change. *)
Definition lower_char (c : ascii) : ascii :=
  let n := N_of_ascii c in
  if ((65 <=? n) && (n <=? 90))%N then ascii_of_N (n + 32) else c.

Fixpoint lower (s : string) : string :=
  match s with
  | EmptyString => EmptyString
  | String c s' => String (lower_char c) (lower s')
  end.

Definition is_digit (c : ascii) : bool :=
  let n := N_of_ascii c in ((48 <=? n) && (n <=? 57))%N.

Definition digit_val (c : ascii) : Z := Z.of_N (N_of_ascii c) - 48.

Definition digit_char (d : Z) : ascii := ascii_of_N (Z.to_N (48 + d)).

(** Decimal digits of a natural number, most significant first; [fuel]
    bounds the number of digits. *)
Fixpoint digits_fuel (fuel : nat) (n : Z) (acc : string) : string :=
  match fuel with
  | O => acc
  | S f =>
      let acc' := String (digit_char (n mod 10)) acc in
      if n <? 10 then acc' else digits_fuel f (n / 10) acc'
  end.

(** [str(n)] for [n >= 0]. *)
Definition of_nonneg (n : Z) : string :=
  digits_fuel (S (Z.to_nat (Z.log2 n))) n EmptyString.

(** [str(n)] *)
Definition of_int (n : Z) : string :=
  if n <? 0 then String "-" (of_nonneg (- n)) else of_nonneg n.

(** [f"{n:02d}"] for [n >= 0]. *)
Definition pad2 (n : Z) : string :=
  if n <? 10 then String "0" (of_nonneg n) else of_nonneg n.

(** Thousands separators of [f"{n:,}"] inserted into a digit string. *)
Fixpoint commas (s : string) : string :=
  match s with
  | EmptyString => EmptyString
  | String c s' =>
      String c
        (if negb (Nat.eqb (String.length s') 0)
            && Nat.eqb (Nat.modulo (String.length s') 3) 0
         then String "," (commas s')
         else commas s')
  end.

(** [f"{n:,}"] for [n >= 0]. *)
Definition grouped (n : Z) : string := commas (of_nonneg n).

(** A maximal run of digits: its value, its length and the rest. *)
Fixpoint take_digits (s : string) (acc : Z) (n : Z) : Z * Z * string :=
  match s with
  | String c s' =>
      if is_digit c then take_digits s' (10 * acc + digit_val c) (n + 1)
      else (acc, n, s)
  | EmptyString => (acc, n, s)
  end.

(** The exponent part [E[-+]?\d+] followed by the end of the string, or
    the end of the string at once. *)
Definition parse_exponent (s : string) : option Z :=
  match s with
  | EmptyString => Some 0
  | String c r =>
      if Ascii.eqb (lower_char c) "e" then
        let '(neg, r) :=
          match r with
          | String "-" r' => (true, r')
          | String "+" r' => (false, r')
          | _ => (false, r)
          end in
        match take_digits r 0 0 with
        | (v, n, EmptyString) =>
            if 0 <? n then Some (if neg then - v else v) else None
        | _ => None
        end
      else None
  end.

End PyStr.

(** ** Python [int(s)] *)

Module PyInt.
Import PyStr.

(** Digits with single underscores between them: [digit ("_"? digit)*].
    [after_digit] tells whether the previous character was a digit. *)
Fixpoint digits_us (s : string) (acc : Z) (after_digit : bool) : option Z :=
  match s with
  | EmptyString => if after_digit then Some acc else None
  | String c s' =>
      if is_digit c then digits_us s' (10 * acc + digit_val c) true
      else if Ascii.eqb c "_" && after_digit then digits_us s' acc false
      else None
  end.

(** [int(s)] on a string: surrounding whitespace is dropped, one sign is
    allowed; [None] stands for [ValueError]. *)
Definition of_string (s : string) : option Z :=
  match strip s with
  | String "+" r => digits_us r 0 false
  | String "-" r => Z.opp <$> digits_us r 0 false
  | r => digits_us r 0 false
  end.

End PyInt.

(** ** Python [decimal.Decimal] under the default context
    (precision 28, ROUND_HALF_EVEN, Emax 999999, traps on InvalidOperation
    and Overflow).  The payload of a NaN is not kept: no operation used by
    the source looks at it. *)

Module PyDecimal.
Import PyStr.

Inductive t : Type :=
| Finite (neg : bool) (coef : Z) (exp : Z)
| Infinity (neg : bool)
| NaN (neg : bool) (signaling : bool).

Definition prec : Z := 28.
Definition Emax : Z := 999999.
Definition Etiny : Z := - 999999 - prec + 1.
Definition Etop : Z := Emax - prec + 1.

(** The numeric alternative: digits, an optional fraction, an optional
    exponent, with at least one digit before the exponent. *)
Definition parse_number (neg : bool) (s : string) : option t :=
  let '(i, ni, r) := take_digits s 0 0 in
  let '(f, nf, r) :=
    match r with
    | String "." r' => take_digits r' 0 0
    | _ => (0, 0, r)
    end in
  if 0 <? ni + nf then
    e ← parse_exponent r;
    Some (Finite neg (i * 10 ^ nf + f) (e - nf))
  else None.

(** [Inf], [Infinity], [NaN] and [sNaN] (any case), a NaN with optional
    diagnostic digits. *)
Definition parse_special (neg : bool) (s : string) : option t :=
  let l := lower s in
  if String.eqb l "inf" || String.eqb l "infinity" then Some (Infinity neg)
  else if starts_with "nan" l then
    match take_digits (String.substring 3 (String.length l) l) 0 0 with
    | (_, _, EmptyString) => Some (NaN neg false)
    | _ => None
    end
  else if starts_with "snan" l then
    match take_digits (String.substring 4 (String.length l) l) 0 0 with
    | (_, _, EmptyString) => Some (NaN neg true)
    | _ => None
    end
  else None.

(** [Decimal(s)]: whitespace around [s] and every underscore are dropped
    first; [None] stands for InvalidOperation.  The constructor is exact:
    it does not round to the context. *)
Definition of_string (s : string) : option t :=
  let s := replace "_" "" (strip s) in
  let '(neg, r) :=
    match s with
    | String "-" r => (true, r)
    | String "+" r => (false, r)
    | _ => (false, s)
    end in
  match r with
  | EmptyString => None
  | String c _ =>
      if is_digit c || Ascii.eqb c "." then parse_number neg r
      else parse_special neg r
  end.

(** [len(str(c))] for a coefficient [c >= 0]. *)
Definition ndigits (c : Z) : Z := Z.of_nat (String.length (of_nonneg c)).

(** Rounding of a finite, non-zero result to the context ([_fix]). *)
Definition fix_finite (neg : bool) (c e : Z) : result t :=
  if c =? 0 then Ok (Finite neg 0 (Z.min (Z.max e Etiny) Emax))
  else
    let exp_min := ndigits c + e - prec in
    if Etop <? exp_min then Raise DecimalOverflow
    else
      let exp_min := Z.max exp_min Etiny in
      if e <? exp_min then
        let k := exp_min - e in
        let q := c / 10 ^ k in
        let r := c mod 10 ^ k in
        let up :=
          match 2 * r ?= 10 ^ k with
          | Gt => true
          | Eq => Z.odd q
          | Lt => false
          end in
        let q' := if up then q + 1 else q in
        let '(q', exp_min) :=
          if prec <? ndigits q' then (q' / 10, exp_min + 1) else (q', exp_min) in
        if Etop <? exp_min then Raise DecimalOverflow
        else Ok (Finite neg q' exp_min)
      else Ok (Finite neg c e).

(** [d * n] for a Python int [n] (converted exactly to a Decimal). *)
Definition mul_int (d : t) (n : Z) : result t :=
  match d with
  | NaN neg true => Raise InvalidOperation
  | NaN neg false => Ok (NaN neg false)
  | Infinity neg =>
      if n =? 0 then Raise InvalidOperation
      else Ok (Infinity (xorb neg (n <? 0)))
  | Finite neg c e => fix_finite (xorb neg (n <? 0)) (c * Z.abs n) e
  end.

(** [int(d)]: truncation towards zero. *)
Definition to_int (d : t) : result Z :=
  match d with
  | NaN _ _ => Raise ValueError
  | Infinity _ => Raise OverflowError
  | Finite neg c e =>
      let a := if 0 <=? e then c * 10 ^ e else c / 10 ^ (- e) in
      Ok (if neg then - a else a)
  end.

Definition zero : t := Finite false 0 0.

End PyDecimal.

(** ** Python [float]: IEEE 754 binary64 *)

Module PyFloat.
Import PyStr.

Definition prec : Z := 53.
Definition emax : Z := 1024.

Definition mul : spec_float -> spec_float -> spec_float := SFmul prec emax.
Definition div : spec_float -> spec_float -> spec_float := SFdiv prec emax.

(** The float nearest to [m * 2^e] (ties to even), infinite on overflow. *)
Definition nearest (m e : Z) : spec_float := binary_normalize prec emax m e false.

(** Conversion of an int operand of a float operation; a value that would
    round to an infinity raises OverflowError. *)
Definition of_int (n : Z) : result spec_float :=
  match nearest n 0 with
  | S754_infinity _ => Raise OverflowError
  | f => Ok f
  end.

(** The literal [100.0]. *)
Definition hundred : spec_float := nearest 100 0.

(** [round(x)] with one argument: the nearest int, ties to the even one;
    ValueError on a NaN, OverflowError on an infinity. *)
Definition round (x : spec_float) : result Z :=
  match x with
  | S754_nan => Raise ValueError
  | S754_infinity _ => Raise OverflowError
  | S754_zero _ => Ok 0
  | S754_finite s m e =>
      let a :=
        if 0 <=? e then Z.pos m * 2 ^ e
        else
          let d := 2 ^ (- e) in
          let q := Z.pos m / d in
          let r := Z.pos m mod d in
          match 2 * r ?= d with
          | Lt => q
          | Eq => if Z.even q then q else q + 1
          | Gt => q + 1
          end in
      Ok (if s then - a else a)
  end.

(** The float nearest to the rational [n / d], for [n >= 0] and [d > 0]:
    the quotient is taken with at least 55 bits and a sticky bit, then
    rounded once. *)
Definition nearest_ratio (neg : bool) (n d : Z) : spec_float :=
  if n =? 0 then S754_zero neg
  else
    let sh := Z.max 0 (56 + Z.log2 d - Z.log2 n) in
    let q := (n * 2 ^ sh) / d in
    let sticky := if (n * 2 ^ sh) mod d =? 0 then 0 else 1 in
    let f := nearest (2 * q + sticky) (- sh - 1) in
    if neg then SFopp f else f.

(** The float nearest to [m * 10^e], for [m >= 0]. *)
Definition of_decimal (neg : bool) (m e : Z) : spec_float :=
  if 0 <=? e then nearest_ratio neg (m * 10 ^ e) 1
  else nearest_ratio neg m (10 ^ (- e)).

(** Underscores may only stand between two digits ([prev] is the
    previous character). *)
Fixpoint underscores_ok (prev : ascii) (s : string) : bool :=
  match s with
  | EmptyString => negb (Ascii.eqb prev "_")
  | String c s' =>
      (if Ascii.eqb c "_" then is_digit prev
       else negb (Ascii.eqb prev "_") || is_digit c)
      && underscores_ok c s'
  end.

(** [float(s)]: whitespace around [s] is dropped, underscores between
    digits are dropped, then the text is a signed [inf], [infinity], [nan]
    or a decimal number with an optional exponent, converted with one
    rounding.  [None] stands for ValueError. *)
Definition of_string (s : string) : option spec_float :=
  let s := strip s in
  if underscores_ok "000" s then
    let s := replace "_" "" s in
    let '(neg, r) :=
      match s with
      | String "-" r => (true, r)
      | String "+" r => (false, r)
      | _ => (false, s)
      end in
    let l := lower r in
    if String.eqb l "inf" || String.eqb l "infinity" then Some (S754_infinity neg)
    else if String.eqb l "nan" then Some S754_nan
    else
      let '(i, ni, r1) := take_digits r 0 0 in
      let '(f, nf, r2) :=
        match r1 with
        | String "." r' => take_digits r' 0 0
        | _ => (0, 0, r1)
        end in
      if 0 <? ni + nf then
        e ← parse_exponent r2;
        Some (of_decimal neg (i * 10 ^ nf + f) (e - nf))
      else None
  else None.



(** The rounding rule in words: [n] is an integer nearest to [q], and the
    even one when [q] lies half-way between two integers. *)
Definition nearest_even (q : Q) (n : Z) : Prop :=
  (q - (1 # 2) <= inject_Z n <= q + (1 # 2))%Q
  /\ ((inject_Z n == q - (1 # 2) \/ inject_Z n == q + (1 # 2))%Q -> Z.even n = true).

End PyFloat.

(** ** Python [datetime.date] *)

Module PyDate.
Import PyStr.

Record date : Type := mk { year : Z; month : Z; day : Z }.

Definition is_leap (y : Z) : bool :=
  (y mod 4 =? 0) && (negb (y mod 100 =? 0) || (y mod 400 =? 0)).

Definition days_in_month (y m : Z) : Z :=
  if m =? 2 then (if is_leap y then 29 else 28)
  else if (m =? 4) || (m =? 6) || (m =? 9) || (m =? 11) then 30
  else 31.

(** The arguments of [date] are C ints. *)
Definition fits_c_int (z : Z) : bool := (- 2 ^ 31 <=? z) && (z <? 2 ^ 31).

(** [date(y, m, d)]: OverflowError for an argument that is no C int,
    ValueError outside the calendar. *)
Definition make (y m d : Z) : result date :=
  if negb (fits_c_int y && fits_c_int m && fits_c_int d) then Raise OverflowError
  else if (1 <=? y) && (y <=? 9999) && (1 <=? m) && (m <=? 12)
          && (1 <=? d) && (d <=? days_in_month y m)
  then Ok (mk y m d)
  else Raise ValueError.

(** Chronological order, as the order of the stored ISO texts. *)
Definition ltb (a b : date) : bool :=
  (year a <? year b)
  || (year a =? year b) && ((month a <? month b)
                            || (month a =? month b) && (day a <? day b)).

Definition eqb (a b : date) : bool :=
  (year a =? year b) && (month a =? month b) && (day a =? day b).

Definition leb (a b : date) : bool := ltb a b || eqb a b.

Definition in_range (lo hi : Z) (c : ascii) : bool :=
  is_digit c && (lo <=? digit_val c) && (digit_val c <=? hi).

(** The field [%Y]: exactly four digits. *)
Definition year_field (s : string) : option (Z * string) :=
  match s with
  | String a (String b (String c (String d r))) =>
      if is_digit a && is_digit b && is_digit c && is_digit d
      then Some (1000 * digit_val a + 100 * digit_val b
                 + 10 * digit_val c + digit_val d, r)
      else None
  | _ => None
  end.

(** The field [%m] followed by the literal "-": [1[0-2]|0[1-9]|[1-9]]. *)
Definition month_field (s : string) : option (Z * string) :=
  match s with
  | String a (String "-" r) =>
      if in_range 1 9 a then Some (digit_val a, r) else None
  | String a (String b (String "-" r)) =>
      if (Ascii.eqb a "1" && in_range 0 2 b) || (Ascii.eqb a "0" && in_range 1 9 b)
      then Some (10 * digit_val a + digit_val b, r)
      else None
  | _ => None
  end.

(** The field [%d] at the end of the text:
    [3[01]|[12]\d|0[1-9]|[1-9]| [1-9]], first alternative that matches,
    and nothing may remain after it. *)
Definition day_field (s : string) : option Z :=
  match s with
  | String a (String b r) =>
      if (Ascii.eqb a "3" && in_range 0 1 b) || (in_range 1 2 a && is_digit b)
         || (Ascii.eqb a "0" && in_range 1 9 b)
      then (if String.eqb r "" then Some (10 * digit_val a + digit_val b) else None)
      else if in_range 1 9 a then None
      else if Ascii.eqb a " " && in_range 1 9 b
      then (if String.eqb r "" then Some (digit_val b) else None)
      else None
  | String a EmptyString =>
      if in_range 1 9 a then Some (digit_val a) else None
  | EmptyString => None
  end.

(** [datetime.strptime(s, '%Y-%m-%d').date()]; [None] stands for
    ValueError. *)
Definition strptime (s : string) : option date :=
  '(y, r) ← year_field s;
  match r with
  | String "-" r =>
      '(m, r) ← month_field r;
      d ← day_field r;
      match make y m d with
      | Ok dt => Some dt
      | _ => None
      end
  | _ => None
  end.

(** [f"{d.year}-{d.month:02d}"] *)
Definition year_month (d : date) : string :=
  of_int (year d) ++ "-" ++ pad2 (month d).

End PyDate.

(** ** Money and percent texts (Utilitários) *)

(** [moeda(centavos)] *)
Definition moeda (centavos : Z) : string :=
  let sign := if centavos <? 0 then "-" else "" in
  let reais := Z.abs centavos / 100 in
  let c := Z.abs centavos mod 100 in
  PyStr.replace "X" "."
    (PyStr.replace "." ","
       (PyStr.replace "," "X"
          (sign ++ "R$ " ++ PyStr.grouped reais ++ "," ++ PyStr.pad2 c))).

(** [parse_valor_to_centavos(s)]: only the construction of the Decimal is
    inside the [try]; the product and the conversion to int are not. *)
Definition parse_valor_to_centavos (s : string) : result Z :=
  let s := PyStr.strip s in
  let s := PyStr.replace " " "" (PyStr.replace "R$" "" s) in
  let s :=
    if (PyStr.count "," s =? 1) && (1 <=? PyStr.count "." s)
    then PyStr.replace "," "." (PyStr.replace "." "" s)
    else PyStr.replace "," "." s in
  dec ← try_except (of_option InvalidOperation (PyDecimal.of_string s)) PyDecimal.zero;
  p ← PyDecimal.mul_int dec 100;
  PyDecimal.to_int p.

(** [parse_percent(s)]: the whole conversion is inside the [try]. *)
Definition parse_percent (s : string) : spec_float :=
  let s := PyStr.replace "," "." (PyStr.replace "%" "" (PyStr.strip s)) in
  match PyFloat.of_string s with
  | Some x => x
  | None => S754_zero false
  end.

(** ** The tables (Modelos) *)

Module Compra.
Record t : Type := mk {
  id : Z;
  produto : string;
  custo_unitario_cent : Z;
  quantidade : Z;
  data : PyDate.date;
  created_at : Z
}.
End Compra.

Module Venda.
Record t : Type := mk {
  id : Z;
  produto : string;
  preco_unitario_cent : Z;
  quantidade : Z;
  data : PyDate.date;
  custo_unitario_override_cent : option Z;
  created_at : Z
}.
End Venda.

Module Boleto.
Record t : Type := mk {
  id : Z;
  descricao : string;
  valor_centavos : Z;
  vencimento : option PyDate.date;
  status : string;
  created_at : Z
}.
End Boleto.

Module Config.
Record t : Type := mk {
  marketplace_percent : spec_float;
  imposto_percent : spec_float;
  taxa_fixa_cent : Z
}.

(** The column defaults: 20.0, 8.0 and 400. *)
Definition default : t :=
  mk (PyFloat.nearest 20 0) (PyFloat.nearest 8 0) 400.
End Config.

(** The database: each table in rowid order, and the configuration row of
    id 1 when it exists.  [created_at] is a UTC time stamp in
    microseconds. *)
Record db : Type := mkdb {
  compras_t : list Compra.t;
  vendas_t : list Venda.t;
  boletos_t : list Boleto.t;
  config_t : option Config.t
}.

(** Code that reads and writes the database and may raise or abort. *)
Definition M (A : Type) : Type := db -> result (A * db).

#[global] Instance M_ret : MRet M := fun A a st => Ok (a, st).

#[global] Instance M_bind : MBind M := fun A B k m st =>
  match m st with
  | Ok (a, st') => k a st'
  | Raise e => Raise e
  | Abort c => Abort c
  end.

Definition lift {A : Type} (r : result A) : M A := fun st =>
  match r with
  | Ok a => Ok (a, st)
  | Raise e => Raise e
  | Abort c => Abort c
  end.

(** [abort(status)] *)
Definition abort {A : Type} (status : Z) : M A := fun _ => Abort status.

(** ** Queries *)

(** [ORDER BY]: rows are inserted one by one, each before the first row it
    may precede.  SQL leaves the order of rows with equal keys open; here
    they keep their rowid order. *)
Fixpoint insert_by {A : Type} (before : A -> A -> bool) (x : A) (l : list A) : list A :=
  match l with
  | [] => [x]
  | y :: l' => if before x y then x :: l else y :: insert_by before x l'
  end.

Fixpoint order_by {A : Type} (before : A -> A -> bool) (l : list A) : list A :=
  match l with
  | [] => []
  | x :: l' => insert_by before x (order_by before l')
  end.

(** Descending order on (date, creation time): [a] may precede [b]. *)
Definition desc_key (da : PyDate.date) (ca : Z) (db_ : PyDate.date) (cb : Z) : bool :=
  PyDate.ltb db_ da || PyDate.eqb da db_ && (cb <=? ca).

Definition compra_desc (a b : Compra.t) : bool :=
  desc_key (Compra.data a) (Compra.created_at a) (Compra.data b) (Compra.created_at b).

Definition venda_desc (a b : Venda.t) : bool :=
  desc_key (Venda.data a) (Venda.created_at a) (Venda.data b) (Venda.created_at b).

Definition boleto_desc (a b : Boleto.t) : bool :=
  Boleto.created_at b <=? Boleto.created_at a.

(** SQL [LIKE]: in the pattern, [%] stands for any run of characters and
    [_] for any one character. *)
Fixpoint like (pat : string) : string -> bool :=
  match pat with
  | EmptyString => fun s => String.eqb s ""
  | String c pat' =>
      if Ascii.eqb c "%" then
        fix any (s : string) : bool :=
          like pat' s
          || match s with
             | EmptyString => false
             | String _ s' => any s'
             end
      else if Ascii.eqb c "_" then
        fun s => match s with
                 | EmptyString => false
                 | String _ s' => like pat' s'
                 end
      else
        fun s => match s with
                 | EmptyString => false
                 | String d s' => Ascii.eqb c d && like pat' s'
                 end
  end.

(** [column.ilike(pat)], which SQLite runs as
    [lower(column) LIKE lower(pat)]. *)
Definition ilike (column pat : string) : bool :=
  like (PyStr.lower pat) (PyStr.lower column).

(** [Model.query.get_or_404(id)] *)
Definition get_or_404 {A : Type} (key : A -> Z) (table : db -> list A) (id : Z) : M A :=
  fun st =>
    match List.find (fun r => key r =? id) (table st) with
    | Some r => Ok (r, st)
    | None => Abort 404
    end.

(** The rowid given to a new row: one more than the largest in use. *)
Definition fresh_id {A : Type} (key : A -> Z) (table : list A) : Z :=
  1 + fold_right (fun r acc => Z.max (key r) acc) 0 table.

(** An INTEGER column holds a signed 64-bit value; the driver refuses to
    bind any other int when the session is committed ([StorageError]). *)
Definition fits_integer (z : Z) : bool := (- 2 ^ 63 <=? z) && (z <? 2 ^ 63).

(** Replace the row of the given id, in place. *)
Definition put_row {A : Type} (key : A -> Z) (r : A) (table : list A) : list A :=
  map (fun x => if key x =? key r then r else x) table.

(** ** Request forms *)

(** [x or d] on an optional text: [None] and the empty text give [d]. *)
Definition or_str (x : option string) (d : string) : string :=
  match x with
  | Some (String c r) => String c r
  | _ => d
  end.

(** [int(request.form.get('quantidade') or 1)] *)
Definition int_or_1 (x : option string) : result Z :=
  match x with
  | Some (String c r) => of_option ValueError (PyInt.of_string (String c r))
  | _ => Ok 1
  end.

(** A pending change of the session. *)
Definition modify (f : db -> db) : M unit := fun st => Ok (tt, f st).

(** [db.session.commit()] binding the given INTEGER values; when it raises,
    the pending changes are lost with the failed outcome. *)
Definition commit (ints : list Z) : M unit := fun st =>
  if forallb fits_integer ints then Ok (tt, st) else Raise StorageError.

(** The date of a create form: [today] when the field is absent, empty or
    not a date ([today.isoformat()] parses back to [today]). *)
Definition date_or_today (today : PyDate.date) (x : option string) : PyDate.date :=
  match x with
  | Some (String c r) =>
      match PyDate.strptime (String c r) with
      | Some d => d
      | None => today
      end
  | _ => today
  end.

(** The date of an update form: the stored date is kept when the field is
    absent, empty or not a date. *)
Definition date_or_keep (old : PyDate.date) (x : option string) : PyDate.date :=
  match x with
  | Some (String c r) =>
      match PyDate.strptime (String c r) with
      | Some d => d
      | None => old
      end
  | _ => old
  end.

(** ** Funções de cálculo *)

Definition _get_config : M Config.t := fun st =>
  match config_t st with
  | Some cfg => Ok (cfg, st)
  | None =>
      Ok (Config.default,
          mkdb (compras_t st) (vendas_t st) (boletos_t st) (Some Config.default))
  end.

Definition calc_taxas (receita_cent : Z) : M Z :=
  cfg ← _get_config;
  r ← lift (PyFloat.of_int receita_cent);
  mk ← lift (PyFloat.round
               (PyFloat.mul r (PyFloat.div (Config.marketplace_percent cfg) PyFloat.hundred)));
  imp ← lift (PyFloat.round
                (PyFloat.mul r (PyFloat.div (Config.imposto_percent cfg) PyFloat.hundred)));
  mret (mk + imp).

Definition latest_compra_custo (produto : string) : M Z := fun st =>
  let c :=
    head (order_by compra_desc
            (List.filter (fun c => ilike (Compra.produto c) produto) (compras_t st))) in
  Ok (match c with
      | Some c => Compra.custo_unitario_cent c
      | None => 0
      end, st).

Definition custo_para_venda (venda : Venda.t) : M Z :=
  match Venda.custo_unitario_override_cent venda with
  | Some c => mret c
  | None => latest_compra_custo (Venda.produto venda)
  end.

(** [month_bounds(ym)]; [today] is [date.today()]. *)
Definition month_bounds (today : PyDate.date) (ym : string) : result (PyDate.date * PyDate.date) :=
  let ym := if String.eqb ym "" then PyDate.year_month today else ym in
  '(y, m) ← match PyStr.split "-" ym with
            | [a; b] =>
                y ← of_option ValueError (PyInt.of_string a);
                m ← of_option ValueError (PyInt.of_string b);
                Ok (y, m)
            | _ => Raise ValueError
            end;
  start ← PyDate.make y m 1;
  end_ ← (if m =? 12 then PyDate.make (y + 1) 1 1 else PyDate.make y (m + 1) 1);
  Ok (start, end_).

(** ** Dashboard *)

(** One entry of [linhas]; [custo] holds the unit cost, as in the source. *)
Record linha : Type := mk_linha {
  l_venda : Venda.t;
  l_preco_unitario : Z;
  l_receita : Z;
  l_custo : Z;
  l_taxas : Z;
  l_lucro : Z
}.

(** What [dashboard] hands to its template. *)
Record painel : Type := mk_painel {
  linhas : list linha;
  tot_receita : Z;
  tot_taxas : Z;
  tot_custo : Z;
  tot_lucro : Z
}.

(** The body of [for v in vendas], run over the rows in order. *)
Fixpoint dashboard_loop (cfg : Config.t) (vendas : list Venda.t) (acc : painel) : M painel :=
  match vendas with
  | [] => mret acc
  | v :: rest =>
      let receita := Venda.preco_unitario_cent v * Venda.quantidade v in
      custo_u ← custo_para_venda v;
      let custo := custo_u * Venda.quantidade v in
      t ← calc_taxas receita;
      let taxas := t + Config.taxa_fixa_cent cfg * Venda.quantidade v in
      let lucro := receita - taxas - custo in
      dashboard_loop cfg rest
        (mk_painel
           (linhas acc ++ [mk_linha v (Venda.preco_unitario_cent v) receita custo_u taxas lucro])
           (tot_receita acc + receita)
           (tot_taxas acc + taxas)
           (tot_custo acc + custo)
           (tot_lucro acc + lucro))
  end.

(** The sales of [dashboard]'s query, before ordering. *)
Definition vendas_between (start end_ : PyDate.date) (st : db) : list Venda.t :=
  List.filter (fun v => PyDate.leb start (Venda.data v) && PyDate.ltb (Venda.data v) end_)
    (vendas_t st).

(** [dashboard()]; [m] is [request.args.get('m')]. *)
Definition dashboard (today : PyDate.date) (m : option string) : M painel :=
  let ym := or_str m (PyDate.year_month today) in
  '(start, end_) ← lift (month_bounds today ym);
  vendas ← (fun st => Ok (order_by venda_desc (vendas_between start end_ st), st));
  cfg ← _get_config;
  dashboard_loop cfg vendas (mk_painel [] 0 0 0 0).

(** ** Compras (CRUD) *)

Definition set_compras (f : list Compra.t -> list Compra.t) (st : db) : db :=
  mkdb (f (compras_t st)) (vendas_t st) (boletos_t st) (config_t st).

Definition set_vendas (f : list Venda.t -> list Venda.t) (st : db) : db :=
  mkdb (compras_t st) (f (vendas_t st)) (boletos_t st) (config_t st).

Definition set_boletos (f : list Boleto.t -> list Boleto.t) (st : db) : db :=
  mkdb (compras_t st) (vendas_t st) (f (boletos_t st)) (config_t st).

(** [compras()]: the rows handed to the template. *)
Definition compras : M (list Compra.t) := fun st =>
  Ok (order_by compra_desc (compras_t st), st).

(** [create_compra()]; [today] and [now] are the clock. *)
Definition create_compra (today : PyDate.date) (now : Z) (form : gmap string string)
  : M Compra.t :=
  let prod := PyStr.strip (or_str (form !! "produto") "") in
  let custo := or_str (form !! "custo") "0" in
  qtd ← lift (int_or_1 (form !! "quantidade"));
  if String.eqb prod "" then abort 400
  else
    c_cent ← lift (parse_valor_to_centavos custo);
    let data := date_or_today today (form !! "data") in
    st ← (fun st => Ok (st, st));
    let c := Compra.mk (fresh_id Compra.id (compras_t st)) prod c_cent qtd data now in
    _ ← modify (set_compras (fun t => (t ++ [c])%list));
    _ ← commit [c_cent; qtd];
    mret c.

(** [update_compra(id)] *)
Definition update_compra (id : Z) (form : gmap string string) : M Compra.t :=
  c ← get_or_404 Compra.id compras_t id;
  let produto := PyStr.strip (or_str (form !! "produto") "") in
  custo ← lift (parse_valor_to_centavos (or_str (form !! "custo") "0"));
  qtd ← lift (int_or_1 (form !! "quantidade"));
  let data := date_or_keep (Compra.data c) (form !! "data") in
  let c' := Compra.mk (Compra.id c) produto custo qtd data (Compra.created_at c) in
  _ ← modify (set_compras (put_row Compra.id c'));
  _ ← commit [custo; qtd];
  mret c'.

(** ** Vendas (CRUD) *)

(** [vendas()]: the rows handed to the template. *)
Definition vendas : M (list Venda.t) :=
  rows ← (fun st => Ok (order_by venda_desc (vendas_t st), st));
  _ ← _get_config;
  mret rows.

(** The cost field of a sale form: absent or empty means no override. *)
Definition custo_override (x : option string) : result (option Z) :=
  match or_str x "" with
  | EmptyString => Ok None
  | custo => c ← parse_valor_to_centavos custo; Ok (Some c)
  end.

(** [create_venda()]; [hx_request] tells whether the request carries the
    header HX-Request, in which case the row is rendered at once, with the
    configuration among the values handed to the template. *)
Definition create_venda (today : PyDate.date) (now : Z) (hx_request : bool)
    (form : gmap string string) : M Venda.t :=
  let prod := PyStr.strip (or_str (form !! "produto") "") in
  let preco := or_str (form !! "preco") "0" in
  qtd ← lift (int_or_1 (form !! "quantidade"));
  if String.eqb prod "" then abort 400
  else
    preco_cent ← lift (parse_valor_to_centavos preco);
    custo_cent ← lift (custo_override (form !! "custo"));
    let data := date_or_today today (form !! "data") in
    st ← (fun st => Ok (st, st));
    let v := Venda.mk (fresh_id Venda.id (vendas_t st)) prod preco_cent qtd data
               custo_cent now in
    _ ← modify (set_vendas (fun t => (t ++ [v])%list));
    _ ← commit (preco_cent :: qtd :: match custo_cent with Some c => [c] | None => [] end);
    _ ← (if hx_request then _ ← _get_config; mret tt else mret tt);
    mret v.

(** [update_venda(id)] *)
Definition update_venda (id : Z) (form : gmap string string) : M Venda.t :=
  v ← get_or_404 Venda.id vendas_t id;
  let produto := PyStr.strip (or_str (form !! "produto") "") in
  preco ← lift (parse_valor_to_centavos (or_str (form !! "preco") "0"));
  qtd ← lift (int_or_1 (form !! "quantidade"));
  override ← lift (custo_override (form !! "custo"));
  let data := date_or_keep (Venda.data v) (form !! "data") in
  let v' := Venda.mk (Venda.id v) produto preco qtd data override (Venda.created_at v) in
  _ ← modify (set_vendas (put_row Venda.id v'));
  _ ← commit (preco :: qtd :: match override with Some c => [c] | None => [] end);
  _ ← _get_config;
  mret v'.

(** ** Boletos *)

(** [index()]: the rows handed to the template. *)
Definition index : M (list Boleto.t) := fun st =>
  Ok (order_by boleto_desc (boletos_t st), st).

(** The due date of an invoice form: absent when the field is absent,
    empty or not a date. *)
Definition vencimento_of (x : option string) : option PyDate.date :=
  match x with
  | Some (String c r) => PyDate.strptime (String c r)
  | _ => None
  end.

(** [create_boleto()] *)
Definition create_boleto (now : Z) (form : gmap string string) : M Boleto.t :=
  let desc := PyStr.strip (or_str (form !! "descricao") "") in
  let valor := or_str (form !! "valor") "0" in
  let status := PyStr.strip (or_str (form !! "status") "aberto") in
  if String.eqb desc "" then abort 400
  else
    cent ← lift (parse_valor_to_centavos valor);
    let venc_date := vencimento_of (form !! "vencimento") in
    st ← (fun st => Ok (st, st));
    let b := Boleto.mk (fresh_id Boleto.id (boletos_t st)) desc cent venc_date status now in
    _ ← modify (set_boletos (fun t => (t ++ [b])%list));
    _ ← commit [cent];
    mret b.

(** [update_boleto(id)] *)
Definition update_boleto (id : Z) (form : gmap string string) : M Boleto.t :=
  b ← get_or_404 Boleto.id boletos_t id;
  let desc := PyStr.strip (or_str (form !! "descricao") "") in
  let valor := or_str (form !! "valor") "0" in
  let status := PyStr.strip (or_str (form !! "status") "aberto") in
  if String.eqb desc "" then abort 400
  else
    cent ← lift (parse_valor_to_centavos valor);
    let b' := Boleto.mk (Boleto.id b) desc cent (vencimento_of (form !! "vencimento"))
                status (Boleto.created_at b) in
    _ ← modify (set_boletos (put_row Boleto.id b'));
    _ ← commit [cent];
    mret b'.

(** ** Row views, deletions, status toggle and settings *)

(** [compra_row(id)] and [edit_compra(id)]: the row handed to the
    template. *)
Definition compra_row (id : Z) : M Compra.t := get_or_404 Compra.id compras_t id.

Definition edit_compra (id : Z) : M Compra.t := get_or_404 Compra.id compras_t id.

(** [delete_compra(id)] *)
Definition delete_compra (id : Z) : M unit :=
  c ← get_or_404 Compra.id compras_t id;
  _ ← modify (set_compras (List.filter (fun r => negb (Compra.id r =? Compra.id c))));
  commit [].

(** [venda_row(id)]: the row and the configuration go to the template. *)
Definition venda_row (id : Z) : M Venda.t :=
  v ← get_or_404 Venda.id vendas_t id;
  _ ← _get_config;
  mret v.

Definition edit_venda (id : Z) : M Venda.t := get_or_404 Venda.id vendas_t id.

(** [delete_venda(id)] *)
Definition delete_venda (id : Z) : M unit :=
  v ← get_or_404 Venda.id vendas_t id;
  _ ← modify (set_vendas (List.filter (fun r => negb (Venda.id r =? Venda.id v))));
  commit [].

(** [boleto_row(id)] and [edit_boleto(id)] *)
Definition boleto_row (id : Z) : M Boleto.t := get_or_404 Boleto.id boletos_t id.

Definition edit_boleto (id : Z) : M Boleto.t := get_or_404 Boleto.id boletos_t id.

(** [toggle_status(id)] *)
Definition toggle_status (id : Z) : M Boleto.t :=
  b ← get_or_404 Boleto.id boletos_t id;
  let status :=
    if String.eqb (Boleto.status b) "aberto" then "pago"
    else if String.eqb (Boleto.status b) "pago" then "aberto"
    else "aberto" in
  let b' := Boleto.mk (Boleto.id b) (Boleto.descricao b) (Boleto.valor_centavos b)
              (Boleto.vencimento b) status (Boleto.created_at b) in
  _ ← modify (set_boletos (put_row Boleto.id b'));
  _ ← commit [];
  mret b'.

(** [delete_boleto(id)] *)
Definition delete_boleto (id : Z) : M unit :=
  b ← get_or_404 Boleto.id boletos_t id;
  _ ← modify (set_boletos (List.filter (fun r => negb (Boleto.id r =? Boleto.id b))));
  commit [].

(** [configuracoes()] *)
Definition configuracoes : M Config.t := _get_config.

(** A REAL column that may not be NULL: SQLite stores a NaN as NULL, so the
    commit of a NaN fails. *)
Definition fits_real (x : spec_float) : bool :=
  match x with
  | S754_nan => false
  | _ => true
  end.

(** [save_config()] *)
Definition save_config (form : gmap string string) : M unit :=
  cfg ← _get_config;
  let marketplace := parse_percent (or_str (form !! "marketplace") "") in
  let imposto := parse_percent (or_str (form !! "imposto") "") in
  fixo ← lift (parse_valor_to_centavos (or_str (form !! "fixo") "0"));
  _ ← modify (fun st =>
                mkdb (compras_t st) (vendas_t st) (boletos_t st)
                  (Some (Config.mk marketplace imposto fixo)));
  _ ← (fun st => if fits_real marketplace && fits_real imposto
                 then Ok (tt, st) else Raise StorageError);
  commit [fixo].

(** ** Dates and times as text *)

Module PyDateText.
Import PyStr.

Fixpoint zeros (k : nat) : string :=
  match k with
  | O => EmptyString
  | S k' => String "0" (zeros k')
  end.

(** [str(n).zfill(w)], the text of [f"{n:0wd}"] for [n >= 0]. *)
Definition zfill (w : nat) (n : Z) : string :=
  let s := of_nonneg n in zeros (w - String.length s) ++ s.

(** [d.isoformat()] of a date: ["%04d-%02d-%02d"]. *)
Definition isoformat (d : PyDate.date) : string :=
  zfill 4 (PyDate.year d) ++ "-" ++ zfill 2 (PyDate.month d)
  ++ "-" ++ zfill 2 (PyDate.day d).

(** [d.strftime(fmt)] for the directives the templates use.  The year of
    [%Y] is written as the C library of Linux writes it, without leading
    zeros. *)
Fixpoint strftime (fmt : string) (d : PyDate.date) : string :=
  match fmt with
  | EmptyString => EmptyString
  | String "%" (String "Y" r) => of_int (PyDate.year d) ++ strftime r d
  | String "%" (String "m" r) => zfill 2 (PyDate.month d) ++ strftime r d
  | String "%" (String "d" r) => zfill 2 (PyDate.day d) ++ strftime r d
  | String c r => String c (strftime r d)
  end.

End PyDateText.

Module PyDateTime.
Import PyStr.

(** The date of a day counted from 1970-01-01, in the proleptic Gregorian
    calendar. *)
Definition civil_from_days (z : Z) : PyDate.date :=
  let z := z + 719468 in
  let era := z / 146097 in
  let doe := z mod 146097 in
  let yoe := (doe - doe / 1460 + doe / 36524 - doe / 146096) / 365 in
  let doy := doe - (365 * yoe + yoe / 4 - yoe / 100) in
  let mp := (5 * doy + 2) / 153 in
  let d := doy - (153 * mp + 2) / 5 + 1 in
  let m := if mp <? 10 then mp + 3 else mp - 9 in
  PyDate.mk (yoe + era * 400 + (if m <=? 2 then 1 else 0)) m d.

(** [t.isoformat()] of the datetime of a time stamp in microseconds: the
    microseconds are written only when they are not zero. *)
Definition isoformat (t : Z) : string :=
  let s := t mod 86400000000 / 1000000 in
  let us := t mod 1000000 in
  PyDateText.isoformat (civil_from_days (t / 86400000000))
  ++ "T" ++ PyDateText.zfill 2 (s / 3600)
  ++ ":" ++ PyDateText.zfill 2 (s / 60 mod 60)
  ++ ":" ++ PyDateText.zfill 2 (s mod 60)
  ++ (if us =? 0 then "" else "." ++ PyDateText.zfill 6 us).

End PyDateTime.

(** ** The date fields of the edit forms (templates) *)

(** [_compra_edit_row.html]: [c.data.strftime('%Y-%m-%d')]. *)
Definition compra_edit_data (c : Compra.t) : string :=
  PyDateText.strftime "%Y-%m-%d" (Compra.data c).

(** [_venda_edit_row.html]: [v.data.strftime('%Y-%m-%m')]. *)
Definition venda_edit_data (v : Venda.t) : string :=
  PyDateText.strftime "%Y-%m-%m" (Venda.data v).

(** [_boleto_edit_row.html]:
    [b.vencimento.strftime('%Y-%m-%d') if b.vencimento else '']. *)
Definition boleto_edit_vencimento (b : Boleto.t) : string :=
  match Boleto.vencimento b with
  | Some d => PyDateText.strftime "%Y-%m-%d" d
  | None => ""
  end.

(** ** Exportações CSV *)

(** The line feed. *)
Definition newline : ascii := "010"%char.

(** [sep.join(parts)] *)
Fixpoint join (sep : string) (parts : list string) : string :=
  match parts with
  | [] => EmptyString
  | p :: ps =>
      match ps with
      | [] => p
      | _ :: _ => p ++ sep ++ join sep ps
      end
  end.

Record response : Type := mk_response {
  body : string;
  content_type : string;
  content_disposition : string
}.

(** [_csv_response(csv_data, filename)] *)
Definition _csv_response (csv_data filename : string) : response :=
  mk_response csv_data "text/csv; charset=utf-8" ("attachment; filename=" ++ filename).

Definition boleto_csv_row (b : Boleto.t) : string :=
  let venc :=
    match Boleto.vencimento b with
    | Some d => PyDateText.isoformat d
    | None => ""
    end in
  join "," [PyStr.of_int (Boleto.id b); PyStr.replace "," " " (Boleto.descricao b);
            PyStr.of_int (Boleto.valor_centavos b); venc; Boleto.status b;
            PyDateTime.isoformat (Boleto.created_at b)].

(** [export_boletos_csv()] *)
Definition export_boletos_csv : M response := fun st =>
  let lines :=
    "id,descricao,valor_centavos,vencimento,status,created_at"
    :: map boleto_csv_row (order_by boleto_desc (boletos_t st)) in
  Ok (_csv_response (join (String newline "") lines) "boletos.csv", st).

Definition compra_csv_row (c : Compra.t) : string :=
  join "," [PyStr.of_int (Compra.id c); PyStr.replace "," " " (Compra.produto c);
            PyStr.of_int (Compra.custo_unitario_cent c);
            PyStr.of_int (Compra.quantidade c);
            PyDateText.isoformat (Compra.data c);
            PyDateTime.isoformat (Compra.created_at c)].

(** [export_compras_csv()] *)
Definition export_compras_csv : M response := fun st =>
  let lines :=
    "id,produto,custo_unitario_cent,quantidade,data,created_at"
    :: map compra_csv_row (order_by compra_desc (compras_t st)) in
  Ok (_csv_response (join (String newline "") lines) "compras.csv", st).

(** [str(x or '')] for an optional int: 0 is falsy as [None] is. *)
Definition str_or_empty (x : option Z) : string :=
  match x with
  | Some n => if n =? 0 then "" else PyStr.of_int n
  | None => ""
  end.

Definition venda_csv_row (v : Venda.t) : string :=
  join "," [PyStr.of_int (Venda.id v); PyStr.replace "," " " (Venda.produto v);
            PyStr.of_int (Venda.preco_unitario_cent v);
            PyStr.of_int (Venda.quantidade v);
            PyDateText.isoformat (Venda.data v);
            str_or_empty (Venda.custo_unitario_override_cent v);
            PyDateTime.isoformat (Venda.created_at v)].

(** [export_vendas_csv()] *)
Definition export_vendas_csv : M response := fun st =>
  let lines :=
    "id,produto,preco_unitario_cent,quantidade,data,custo_unitario_override_cent,created_at"
    :: map venda_csv_row (order_by venda_desc (vendas_t st)) in
  Ok (_csv_response (join (String newline "") lines) "vendas.csv", st).

(** ** Vocabulary of the properties *)

(** The configuration in force: the stored row, or the defaults that
    [_get_config] creates when there is none. *)
Definition config_of (st : db) : Config.t :=
  match config_t st with
  | Some cfg => cfg
  | None => Config.default
  end.

(** A line of the dashboard is the profit computation of its sale, read in
    the state [st]. *)
Definition line_ok (cfg : Config.t) (st : db) (l : linha) : Prop :=
  let v := l_venda l in
  l_preco_unitario l = Venda.preco_unitario_cent v
  /\ l_receita l = Venda.preco_unitario_cent v * Venda.quantidade v
  /\ custo_para_venda v st = Ok (l_custo l, st)
  /\ (exists t, calc_taxas (l_receita l) st = Ok (t, st)
                /\ l_taxas l = t + Config.taxa_fixa_cent cfg * Venda.quantidade v)
  /\ l_lucro l = l_receita l - l_taxas l - l_custo l * Venda.quantidade v.

Definition sum_of {A : Type} (f : A -> Z) (l : list A) : Z :=
  fold_right (fun x acc => f x + acc) 0 l.

(** Chronological order of dates, and the order "later date first, then
    later creation first" on (date, creation time) keys. *)
Definition date_lt (a b : PyDate.date) : Prop :=
  PyDate.year a < PyDate.year b
  \/ PyDate.year a = PyDate.year b
     /\ (PyDate.month a < PyDate.month b
         \/ PyDate.month a = PyDate.month b /\ PyDate.day a < PyDate.day b).

Definition date_le (a b : PyDate.date) : Prop := date_lt a b \/ a = b.

Definition later_first (da : PyDate.date) (ca : Z) (db_ : PyDate.date) (cb : Z) : Prop :=
  date_lt db_ da \/ da = db_ /\ cb <= ca.

Definition compra_order (a b : Compra.t) : Prop :=
  later_first (Compra.data a) (Compra.created_at a) (Compra.data b) (Compra.created_at b).

Definition venda_order (a b : Venda.t) : Prop :=
  later_first (Venda.data a) (Venda.created_at a) (Venda.data b) (Venda.created_at b).




(** A text without the wildcard characters of [LIKE]. *)
Fixpoint no_wildcard (s : string) : bool :=
  match s with
  | EmptyString => true
  | String c s' => negb (Ascii.eqb c "%") && negb (Ascii.eqb c "_") && no_wildcard s'
  end.

(** ** The application as a state machine *)

(** The requests the routes accept. *)
Inductive request : Type :=
| GetDashboard (m : option string)
| GetCompras
| PostCompra (form : gmap string string)
| GetCompraRow (id : Z)
| GetCompraEdit (id : Z)
| PostCompraUpdate (id : Z) (form : gmap string string)
| DeleteCompra (id : Z)
| GetVendas
| PostVenda (hx_request : bool) (form : gmap string string)
| GetVendaRow (id : Z)
| GetVendaEdit (id : Z)
| PostVendaUpdate (id : Z) (form : gmap string string)
| DeleteVenda (id : Z)
| GetBoletos
| PostBoleto (form : gmap string string)
| GetBoletoRow (id : Z)
| GetBoletoEdit (id : Z)
| PostBoletoUpdate (id : Z) (form : gmap string string)
| PostBoletoToggle (id : Z)
| DeleteBoleto (id : Z)
| GetConfig
| PostConfig (form : gmap string string).

(** The handler of a request, its response dropped; [today] and [now] are
    the clock at the time of the request. *)
Definition handle (today : PyDate.date) (now : Z) (r : request) : M unit :=
  match r with
  | GetDashboard m => _ ← dashboard today m; mret tt
  | GetCompras => _ ← compras; mret tt
  | PostCompra form => _ ← create_compra today now form; mret tt
  | GetCompraRow id => _ ← compra_row id; mret tt
  | GetCompraEdit id => _ ← edit_compra id; mret tt
  | PostCompraUpdate id form => _ ← update_compra id form; mret tt
  | DeleteCompra id => delete_compra id
  | GetVendas => _ ← vendas; mret tt
  | PostVenda hx form => _ ← create_venda today now hx form; mret tt
  | GetVendaRow id => _ ← venda_row id; mret tt
  | GetVendaEdit id => _ ← edit_venda id; mret tt
  | PostVendaUpdate id form => _ ← update_venda id form; mret tt
  | DeleteVenda id => delete_venda id
  | GetBoletos => _ ← index; mret tt
  | PostBoleto form => _ ← create_boleto now form; mret tt
  | GetBoletoRow id => _ ← boleto_row id; mret tt
  | GetBoletoEdit id => _ ← edit_boleto id; mret tt
  | PostBoletoUpdate id form => _ ← update_boleto id form; mret tt
  | PostBoletoToggle id => _ ← toggle_status id; mret tt
  | DeleteBoleto id => delete_boleto id
  | GetConfig => _ ← configuracoes; mret tt
  | PostConfig form => save_config form
  end.

(** The states the application can be in: the empty database, the state a
    request that returned leaves, and the state a request that failed
    leaves, in which at most the default configuration row, committed by
    [_get_config] on its own, has been added. *)
Inductive reachable : db -> Prop :=
| reach_empty : reachable (mkdb [] [] [] None)
| reach_ok (st st' : db) (today : PyDate.date) (now : Z) (r : request) (u : unit) :
    reachable st -> handle today now r st = Ok (u, st') -> reachable st'
| reach_failed (st : db) :
    reachable st ->
    reachable (mkdb (compras_t st) (vendas_t st) (boletos_t st) (Some (config_of st))).

(** What every reachable state satisfies. *)
Record well_formed (st : db) : Prop := mk_well_formed {
  wf_compra_ids : List.NoDup (map Compra.id (compras_t st));
  wf_venda_ids : List.NoDup (map Venda.id (vendas_t st));
  wf_boleto_ids : List.NoDup (map Boleto.id (boletos_t st));
  wf_compras :
    Forall (fun c => 0 < Compra.id c
                     /\ fits_integer (Compra.custo_unitario_cent c) = true
                     /\ fits_integer (Compra.quantidade c) = true) (compras_t st);
  wf_vendas :
    Forall (fun v => 0 < Venda.id v
                     /\ fits_integer (Venda.preco_unitario_cent v) = true
                     /\ fits_integer (Venda.quantidade v) = true
                     /\ (forall c, Venda.custo_unitario_override_cent v = Some c ->
                                   fits_integer c = true)) (vendas_t st);
  wf_boletos :
    Forall (fun b => 0 < Boleto.id b
                     /\ Boleto.descricao b <> ""
                     /\ fits_integer (Boleto.valor_centavos b) = true) (boletos_t st);
  wf_config :
    forall cfg, config_t st = Some cfg ->
                fits_real (Config.marketplace_percent cfg) = true
                /\ fits_real (Config.imposto_percent cfg) = true
                /\ fits_integer (Config.taxa_fixa_cent cfg) = true
}.

(** ** Texts of digits *)

(** Every character is a decimal digit. *)
Fixpoint all_digits (s : string) : bool :=
  match s with
  | EmptyString => true
  | String c s' => PyStr.is_digit c && all_digits s'
  end.

(** The number a text of digits denotes, read after the digits of [a]. *)
Fixpoint digits_value (s : string) (a : Z) : Z :=
  match s with
  | EmptyString => a
  | String c s' => digits_value s' (10 * a + PyStr.digit_val c)
  end.

(** The character [c] occurs in [s]. *)
Fixpoint has_char (c : ascii) (s : string) : bool :=
  match s with
  | EmptyString => false
  | String d s' => Ascii.eqb c d || has_char c s'
  end.

(** The text [s] with every [a] turned into [b]. *)
Fixpoint subst_char (a b : ascii) (s : string) : string :=
  match s with
  | EmptyString => EmptyString
  | String c s' => String (if Ascii.eqb a c then b else c) (subst_char a b s')
  end.

(** A date of the calendar, as [date(y, m, d)] builds it. *)
Definition valid_date (d : PyDate.date) : Prop :=
  PyDate.make (PyDate.year d) (PyDate.month d) (PyDate.day d) = Ok d.

(** The text of an amount as it is written in Brazil: periods between the
    groups of three digits of the reais, a comma before the cents; with
    the currency symbol or without it. *)
Definition amount_text (symbol : bool) (n : Z) : string :=
  (if n <? 0 then "-" else "") ++ (if symbol then "R$ " else "")
  ++ subst_char "," "." (PyStr.grouped (Z.abs n / 100))
  ++ "," ++ PyStr.pad2 (Z.abs n mod 100).

(** ** Sample data *)

Module Sample.

Definition today : PyDate.date := PyDate.mk 2024 12 15.

Definition compra_chaleira : Compra.t :=
  Compra.mk 1 "Chaleira" 3590 10 (PyDate.mk 2024 12 1) 1000.

(** The sale of the specification's example: 2 units at R$ 99,90. *)
Definition venda_chaleira : Venda.t :=
  Venda.mk 1 "chaleira" 9990 2 today None 2000.

(** A sale below cost. *)
Definition venda_cabo : Venda.t :=
  Venda.mk 2 "Cabo" 1000 1 (PyDate.mk 2024 12 31) (Some 5000) 3000.

Definition venda_novembro : Venda.t :=
  Venda.mk 3 "Filtro" 2500 1 (PyDate.mk 2024 11 30) (Some 0) 4000.

Definition venda_janeiro : Venda.t :=
  Venda.mk 4 "Filtro" 2500 1 (PyDate.mk 2025 1 1) (Some 0) 5000.

Definition ledger : db :=
  mkdb [compra_chaleira] [venda_chaleira] [] None.

Definition ledger_loss : db :=
  mkdb [compra_chaleira] [venda_cabo] [] None.

(** A ledger whose marketplace rate is 7. *)
Definition ledger_sete : db :=
  mkdb [] [] [] (Some (Config.mk (PyFloat.nearest 7 0) (PyFloat.nearest 8 0) 400)).

Definition ledger_year_end : db :=
  mkdb [compra_chaleira]
       [venda_novembro; venda_chaleira; venda_cabo; venda_janeiro] [] None.

(** A purchase and a sale whose names differ in one character, the
    sale's having an underscore there. *)
Definition compra_kit : Compra.t :=
  Compra.mk 2 "Kit-10" 1500 1 (PyDate.mk 2024 12 2) 1500.

Definition venda_kit : Venda.t :=
  Venda.mk 5 "Kit_10" 4000 1 today None 6000.

Definition ledger_kit : db :=
  mkdb [compra_chaleira; compra_kit] [venda_kit] [] None.

(** Two invoices: the one created first falls due last. *)
Definition boleto_luz : Boleto.t :=
  Boleto.mk 1 "Conta de luz" 12000 (Some (PyDate.mk 2025 2 10)) "aberto" 1000.

Definition boleto_agua : Boleto.t :=
  Boleto.mk 2 "Conta de agua" 8000 (Some (PyDate.mk 2025 1 10)) "aberto" 2000.

Definition ledger_boletos : db :=
  mkdb [] [] [boleto_luz; boleto_agua] None.

(** An update of the sale 1 with a negative quantity. *)
Definition form_menos_tres : gmap string string :=
  {[ "produto" := "Chaleira"; "preco" := "99,90"; "quantidade" := "-3" ]}.

Definition venda_menos_tres : Venda.t :=
  Venda.mk 1 "Chaleira" 9990 (-3) today None 2000.

Definition ledger_menos_tres : db :=
  mkdb [compra_chaleira] [venda_menos_tres] [] (Some Config.default).

(** An update of the sale 2, which has an override, with no cost field. *)
Definition form_sem_custo : gmap string string :=
  {[ "produto" := "Cabo"; "preco" := "10,00" ]}.

Definition venda_cabo_sem_custo : Venda.t :=
  Venda.mk 2 "Cabo" 1000 1 (PyDate.mk 2024 12 31) None 3000.

Definition ledger_cabo_sem_custo : db :=
  mkdb [compra_chaleira] [venda_cabo_sem_custo] [] (Some Config.default).

Definition ledger_full : db :=
  mkdb [compra_chaleira; compra_kit]
       [venda_novembro; venda_chaleira; venda_cabo; venda_janeiro]
       [boleto_luz; boleto_agua] None.

End Sample.

(** ** Sample requests and their results *)

Module Scenario.

(** A purchase form, and the purchase it creates in [Sample.ledger_full]
    at the time 7000. *)
Definition form_filtro : gmap string string :=
  {[ "produto" := "Filtro"; "custo" := "12,50"; "quantidade" := "3";
     "data" := "2024-12-10" ]}.

Definition compra_filtro : Compra.t :=
  Compra.mk 3 "Filtro" 1250 3 (PyDate.mk 2024 12 10) 7000.

Definition ledger_filtro : db :=
  mkdb [Sample.compra_chaleira; Sample.compra_kit; compra_filtro]
       [Sample.venda_novembro; Sample.venda_chaleira; Sample.venda_cabo;
        Sample.venda_janeiro]
       [Sample.boleto_luz; Sample.boleto_agua] None.

(** [Sample.ledger_full] without the purchase 2. *)
Definition ledger_sem_kit : db :=
  mkdb [Sample.compra_chaleira]
       [Sample.venda_novembro; Sample.venda_chaleira; Sample.venda_cabo;
        Sample.venda_janeiro]
       [Sample.boleto_luz; Sample.boleto_agua] None.

(** The invoice 1 of [Sample.ledger_boletos], toggled. *)
Definition boleto_luz_pago : Boleto.t :=
  Boleto.mk 1 "Conta de luz" 12000 (Some (PyDate.mk 2025 2 10)) "pago" 1000.

Definition ledger_luz_paga : db :=
  mkdb [] [] [boleto_luz_pago; Sample.boleto_agua] None.

(** The purchase 1 of [Sample.ledger] after an update with [form_filtro]. *)
Definition compra_editada : Compra.t :=
  Compra.mk 1 "Filtro" 1250 3 (PyDate.mk 2024 12 10) 1000.

Definition ledger_editado : db :=
  mkdb [compra_editada] [Sample.venda_chaleira] [] None.

(** The first purchase of an empty database. *)
Definition compra_primeira : Compra.t :=
  Compra.mk 1 "Filtro" 1250 3 (PyDate.mk 2024 12 10) 7000.

Definition ledger_primeira : db := mkdb [compra_primeira] [] [] None.

(** The dashboard of December 2024 over [Sample.ledger_year_end]. *)
Definition painel_dezembro : painel :=
  mk_painel [mk_linha Sample.venda_cabo 1000 1000 5000 680 (-4680);
             mk_linha Sample.venda_chaleira 9990 19980 3590 6394 6406]
            20980 7074 12180 1726.

Definition ledger_dezembro : db :=
  mkdb [Sample.compra_chaleira]
       [Sample.venda_novembro; Sample.venda_chaleira; Sample.venda_cabo;
        Sample.venda_janeiro] [] (Some Config.default).

(** The sale 1 of [Sample.ledger] sent back with the date its edit form
    shows. *)
Definition form_venda_reenviada : gmap string string :=
  {[ "produto" := "chaleira"; "preco" := "99,90"; "quantidade" := "2";
     "data" := venda_edit_data Sample.venda_chaleira ]}.

Definition venda_dia_doze : Venda.t :=
  Venda.mk 1 "chaleira" 9990 2 (PyDate.mk 2024 12 12) None 2000.

Definition ledger_dia_doze : db :=
  mkdb [Sample.compra_chaleira] [venda_dia_doze] [] (Some Config.default).




End Scenario.

(** * Properties *)

(** ** The runtime model on known values *)

Example strip_ex : PyStr.strip "  R$ 1,50 " = "R$ 1,50".
Proof. reflexivity. Qed.

Example replace_ex : PyStr.replace "R$" "" "R$ 1R$2R" = " 12R".
Proof. reflexivity. Qed.

Example count_ex : PyStr.count "." "1.234.567,89" = 2.
Proof. reflexivity. Qed.

Example split_ex : PyStr.split "-" "2024-05" = ["2024"; "05"].
Proof. reflexivity. Qed.

Example grouped_ex : PyStr.grouped 1234567 = "1,234,567" /\ PyStr.grouped 0 = "0"
  /\ PyStr.grouped 999 = "999" /\ PyStr.grouped 1000 = "1,000".
Proof. repeat split; vm_compute; reflexivity. Qed.

Example of_int_ex : PyStr.of_int (-1050) = "-1050" /\ PyStr.pad2 5 = "05".
Proof. split; vm_compute; reflexivity. Qed.

Example int_ex :
  PyInt.of_string " 7 " = Some 7 /\ PyInt.of_string "1_000" = Some 1000
  /\ PyInt.of_string "-5" = Some (-5) /\ PyInt.of_string "0" = Some 0
  /\ PyInt.of_string "1.5" = None /\ PyInt.of_string "" = None
  /\ PyInt.of_string "_1" = None /\ PyInt.of_string "1__0" = None.
Proof. repeat split; vm_compute; reflexivity. Qed.

Example decimal_ex :
  PyDecimal.of_string "1234.56" = Some (PyDecimal.Finite false 123456 (-2))
  /\ PyDecimal.of_string "-0.05" = Some (PyDecimal.Finite true 5 (-2))
  /\ PyDecimal.of_string "+.5e+3" = Some (PyDecimal.Finite false 5 2)
  /\ PyDecimal.of_string "1__2" = Some (PyDecimal.Finite false 12 0)
  /\ PyDecimal.of_string "nan" = Some (PyDecimal.NaN false false)
  /\ PyDecimal.of_string "-sNaN12" = Some (PyDecimal.NaN true true)
  /\ PyDecimal.of_string "iNfInItY" = Some (PyDecimal.Infinity false)
  /\ PyDecimal.of_string "1.234.56" = None /\ PyDecimal.of_string "." = None
  /\ PyDecimal.of_string "1e" = None /\ PyDecimal.of_string "" = None.
Proof. repeat split; vm_compute; reflexivity. Qed.

(** A product of more than 28 digits is rounded to 28. *)
Example decimal_mul_ex :
  PyDecimal.mul_int (PyDecimal.Finite false (10 ^ 28 + 1) (-2)) 100
  = Ok (PyDecimal.Finite false (10 ^ 27) 1)
  /\ PyDecimal.mul_int (PyDecimal.Finite false 1 999998) 100 = Raise DecimalOverflow.
Proof. split; vm_compute; reflexivity. Qed.

Example float_ex :
  PyFloat.of_string "0.1" = Some (S754_finite false 7205759403792794 (-56))
  /\ PyFloat.of_string "1_0.5" = Some (S754_finite false 5910974510923776 (-49))
  /\ PyFloat.of_string "1e400" = Some (S754_infinity false)
  /\ PyFloat.of_string "-1e-400" = Some (S754_zero true)
  /\ PyFloat.of_string "4.9e-324" = Some (S754_finite false 1 (-1074))
  /\ PyFloat.of_string "1.7976931348623157e308"
     = Some (S754_finite false 9007199254740991 971)
  /\ PyFloat.of_string "-nan" = Some S754_nan
  /\ PyFloat.of_string "1._5" = None /\ PyFloat.of_string "_1" = None
  /\ PyFloat.of_string "nan1" = None /\ PyFloat.of_string "" = None.
Proof. repeat split; vm_compute; reflexivity. Qed.

Example round_ex :
  PyFloat.round (PyFloat.nearest 1 (-1)) = Ok 0
  /\ PyFloat.round (PyFloat.nearest 3 (-1)) = Ok 2
  /\ PyFloat.round (PyFloat.nearest 5 (-1)) = Ok 2
  /\ PyFloat.round (PyFloat.nearest (-3) (-1)) = Ok (-2)
  /\ PyFloat.round S754_nan = Raise ValueError
  /\ PyFloat.round (S754_infinity true) = Raise OverflowError.
Proof. repeat split; vm_compute; reflexivity. Qed.

Example strptime_ex :
  PyDate.strptime "2024-01-05" = Some (PyDate.mk 2024 1 5)
  /\ PyDate.strptime "2024-1-5" = Some (PyDate.mk 2024 1 5)
  /\ PyDate.strptime "2024-02-29" = Some (PyDate.mk 2024 2 29)
  /\ PyDate.strptime "2023-02-29" = None /\ PyDate.strptime "2024-13-05" = None
  /\ PyDate.strptime "2024-01-32" = None /\ PyDate.strptime "0000-01-01" = None
  /\ PyDate.strptime "24-01-01" = None /\ PyDate.strptime "2024-01-01 " = None.
Proof. repeat split; vm_compute; reflexivity. Qed.

Example month_bounds_ex :
  month_bounds Sample.today "2024-05" = Ok (PyDate.mk 2024 5 1, PyDate.mk 2024 6 1)
  /\ month_bounds Sample.today "2024-12" = Ok (PyDate.mk 2024 12 1, PyDate.mk 2025 1 1)
  /\ month_bounds Sample.today "" = Ok (PyDate.mk 2024 12 1, PyDate.mk 2025 1 1)
  /\ month_bounds Sample.today "9999-12" = Raise ValueError
  /\ month_bounds Sample.today "2024-13" = Raise ValueError
  /\ month_bounds Sample.today "2024" = Raise ValueError.
Proof. repeat split; vm_compute; reflexivity. Qed.

Example like_ex :
  like "a_c%" "abcdef" = true /\ like "%" "" = true /\ like "a_c" "abcd" = false
  /\ ilike "Chaleira" "CHALEIRA" = true /\ ilike "Chaleira" "chaleir" = false.
Proof. repeat split; vm_compute; reflexivity. Qed.

Example parse_valor_ex :
  parse_valor_to_centavos "R$ 1.234,56" = Ok 123456
  /\ parse_valor_to_centavos " 35,90 " = Ok 3590
  /\ parse_valor_to_centavos "35.9" = Ok 3590
  /\ parse_valor_to_centavos "1,234.56" = Ok 123
  /\ parse_valor_to_centavos "-0.019" = Ok (-1)
  /\ parse_valor_to_centavos "" = Ok 0.
Proof. repeat split; vm_compute; reflexivity. Qed.

(** ** The monad of handlers *)

Lemma bind_Ok {A B : Type} (m : M A) (k : A -> M B) (st st' : db) (b : B) :
  (m ≫= k) st = Ok (b, st') <->
  exists a st1, m st = Ok (a, st1) /\ k a st1 = Ok (b, st').
Proof.
  unfold mbind, M_bind. split.
  - destruct (m st) as [[a st1] | e | c]; try discriminate.
    intros H. exists a, st1. auto.
  - intros (a & st1 & Hm & Hk). rewrite Hm. exact Hk.
Qed.

Lemma lift_Ok {A : Type} (r : result A) (st st' : db) (a : A) :
  lift r st = Ok (a, st') <-> r = Ok a /\ st' = st.
Proof.
  unfold lift. destruct r; split; intros H; try discriminate;
    try (destruct H; discriminate).
  - inversion H; subst. auto.
  - destruct H as [H ->]. inversion H; subst. reflexivity.
Qed.

Lemma ret_Ok {A : Type} (a b : A) (st st' : db) :
  (mret a : M A) st = Ok (b, st') <-> b = a /\ st' = st.
Proof.
  unfold mret, M_ret. split.
  - intros H; inversion H; auto.
  - intros [-> ->]; reflexivity.
Qed.

(** ** [round] is round-half-even *)





(** ** The calculation functions *)

Lemma get_config_Ok (st : db) :
  _get_config st = Ok (config_of st,
                       mkdb (compras_t st) (vendas_t st) (boletos_t st) (Some (config_of st))).
Proof.
  unfold _get_config, config_of. destruct st as [c v b [cfg|]]; reflexivity.
Qed.

Lemma get_config_Some (st : db) (cfg : Config.t) :
  config_t st = Some cfg -> _get_config st = Ok (cfg, st).
Proof. unfold _get_config. intros ->. reflexivity. Qed.

Lemma calc_taxas_unfold (R : Z) (st : db) (cfg : Config.t) :
  config_t st = Some cfg ->
  calc_taxas R st =
  (r ← PyFloat.of_int R;
   mk ← PyFloat.round
          (PyFloat.mul r (PyFloat.div (Config.marketplace_percent cfg) PyFloat.hundred));
   imp ← PyFloat.round
           (PyFloat.mul r (PyFloat.div (Config.imposto_percent cfg) PyFloat.hundred));
   Ok (mk + imp, st)).
Proof.
  intros Hc. unfold calc_taxas, mbind at 1, M_bind. rewrite (get_config_Some _ _ Hc).
  unfold mbind, M_bind, result_bind, lift, mret, M_ret.
  destruct (PyFloat.of_int R) as [r | e | c]; try reflexivity.
  destruct (PyFloat.round _) as [mk | e | c]; try reflexivity.
  destruct (PyFloat.round _) as [imp | e | c]; reflexivity.
Qed.

Lemma calc_taxas_state (R : Z) (st st' : db) (cfg : Config.t) (t : Z) :
  config_t st = Some cfg -> calc_taxas R st = Ok (t, st') -> st' = st.
Proof.
  intros Hc. rewrite (calc_taxas_unfold _ _ _ Hc).
  unfold mbind, result_bind.
  destruct (PyFloat.of_int R); try discriminate.
  destruct (PyFloat.round _); try discriminate.
  destruct (PyFloat.round _); try discriminate.
  intros H; inversion H; reflexivity.
Qed.

Lemma custo_para_venda_total (v : Venda.t) (st : db) :
  exists c, custo_para_venda v st = Ok (c, st).
Proof.
  unfold custo_para_venda. destruct (Venda.custo_unitario_override_cent v).
  - eexists; reflexivity.
  - unfold latest_compra_custo. eexists; reflexivity.
Qed.

Lemma custo_para_venda_state (v : Venda.t) (st st' : db) (c : Z) :
  custo_para_venda v st = Ok (c, st') -> st' = st.
Proof.
  destruct (custo_para_venda_total v st) as [c' H]. rewrite H.
  intros E; inversion E; reflexivity.
Qed.

Lemma sum_of_app {A : Type} (f : A -> Z) (l1 l2 : list A) :
  sum_of f (l1 ++ l2) = sum_of f l1 + sum_of f l2.
Proof. induction l1 as [|x l1 IH]; simpl; [reflexivity | rewrite IH; lia]. Qed.

(** The loop adds one well-formed line per sale, in order, and adds each
    figure to its total. *)
Lemma dashboard_loop_spec (cfg : Config.t) (vs : list Venda.t) :
  forall (acc p : painel) (st st' : db),
    config_t st = Some cfg ->
    dashboard_loop cfg vs acc st = Ok (p, st') ->
    st' = st
    /\ exists ls,
        linhas p = (linhas acc ++ ls)%list
        /\ map l_venda ls = vs
        /\ Forall (line_ok cfg st) ls
        /\ tot_receita p = tot_receita acc + sum_of l_receita ls
        /\ tot_taxas p = tot_taxas acc + sum_of l_taxas ls
        /\ tot_custo p = tot_custo acc
                         + sum_of (fun l => l_custo l * Venda.quantidade (l_venda l)) ls
        /\ tot_lucro p = tot_lucro acc + sum_of l_lucro ls.
Proof.
  induction vs as [|v vs IH]; intros acc p st st' Hc H.
  - apply ret_Ok in H as [-> ->]. split; [reflexivity|].
    exists []. rewrite app_nil_r. simpl. repeat split; try lia. constructor.
  - simpl in H.
    apply bind_Ok in H as (cu & st1 & Hcu & H).
    pose proof (custo_para_venda_state _ _ _ _ Hcu); subst st1.
    apply bind_Ok in H as (t & st1 & Ht & H).
    pose proof (calc_taxas_state _ _ _ _ _ Hc Ht); subst st1.
    apply IH in H as (-> & ls & Hl & Hm & Hok & Hr & Htx & Hcs & Hlu); [|exact Hc].
    split; [reflexivity|]. simpl in *.
    eexists (_ :: ls). rewrite <- app_assoc in Hl. simpl in Hl.
    split; [exact Hl|]. simpl.
    split; [rewrite Hm; reflexivity|].
    split.
    { constructor; [|exact Hok].
      unfold line_ok; simpl. repeat split; try assumption; try reflexivity.
      exists t. split; [exact Ht | reflexivity]. }
    repeat split; lia.
Qed.

(** ** [ORDER BY] *)

Lemma insert_by_perm {A : Type} (before : A -> A -> bool) (x : A) (l : list A) :
  Permutation (insert_by before x l) (x :: l).
Proof.
  induction l as [|y l IH]; simpl; [reflexivity|].
  destruct (before x y); [reflexivity|].
  rewrite IH. apply perm_swap.
Qed.

Lemma order_by_perm {A : Type} (before : A -> A -> bool) (l : list A) :
  Permutation (order_by before l) l.
Proof.
  induction l as [|x l IH]; simpl; [reflexivity|].
  rewrite insert_by_perm. constructor. exact IH.
Qed.

Section Ordered.
Context {A : Type} (before : A -> A -> bool) (R : A -> A -> Prop).
Hypothesis before_R : forall a b, before a b = true -> R a b.
Hypothesis R_total : forall a b, before a b = false -> R b a.
Hypothesis R_trans : forall a b c, R a b -> R b c -> R a c.

Lemma insert_by_sorted (x : A) (l : list A) :
  StronglySorted R l -> StronglySorted R (insert_by before x l).
Proof.
  induction 1 as [|y l Hs IH Hy]; simpl.
  - repeat constructor.
  - destruct (before x y) eqn:Hxy.
    + constructor; [constructor; assumption|].
      constructor; [auto|].
      apply before_R in Hxy.
      eapply List.Forall_impl; [|exact Hy]. intros z Hz. eauto.
    + constructor; [exact IH|].
      apply R_total in Hxy.
      rewrite List.Forall_forall. intros z Hz.
      apply (Permutation_in _ (insert_by_perm before x l)) in Hz.
      destruct Hz as [<- | Hz]; [exact Hxy|].
      rewrite List.Forall_forall in Hy. auto.
Qed.

Lemma order_by_sorted (l : list A) : StronglySorted R (order_by before l).
Proof.
  induction l as [|x l IH]; simpl; [constructor|].
  apply insert_by_sorted. exact IH.
Qed.
End Ordered.

Lemma date_ltb_lt (a b : PyDate.date) : PyDate.ltb a b = true <-> date_lt a b.
Proof.
  unfold PyDate.ltb, date_lt.
  rewrite !orb_true_iff, !andb_true_iff, !orb_true_iff, !andb_true_iff,
    !Z.ltb_lt, !Z.eqb_eq. tauto.
Qed.

Lemma date_eqb_eq (a b : PyDate.date) : PyDate.eqb a b = true <-> a = b.
Proof.
  unfold PyDate.eqb. rewrite !andb_true_iff, !Z.eqb_eq.
  destruct a, b; simpl. split.
  - intros [[-> ->] ->]. reflexivity.
  - intros H; inversion H; auto.
Qed.

Lemma date_leb_le (a b : PyDate.date) : PyDate.leb a b = true <-> date_le a b.
Proof.
  unfold PyDate.leb, date_le. rewrite orb_true_iff, date_ltb_lt, date_eqb_eq.
  tauto.
Qed.

Lemma date_trichotomy (a b : PyDate.date) : date_lt a b \/ a = b \/ date_lt b a.
Proof.
  destruct a as [ya ma da], b as [yb mb db_]. unfold date_lt; simpl.
  destruct (Z.lt_total ya yb) as [H | [H | H]]; [lia | | lia].
  destruct (Z.lt_total ma mb) as [H1 | [H1 | H1]]; [lia | | lia].
  destruct (Z.lt_total da db_) as [H2 | [H2 | H2]]; [lia | | lia].
  subst. right; left; reflexivity.
Qed.

Lemma date_lt_trans (a b c : PyDate.date) : date_lt a b -> date_lt b c -> date_lt a c.
Proof. unfold date_lt. lia. Qed.

Lemma desc_key_later_first (da : PyDate.date) (ca : Z) (db_ : PyDate.date) (cb : Z) :
  desc_key da ca db_ cb = true <-> later_first da ca db_ cb.
Proof.
  unfold desc_key, later_first.
  rewrite orb_true_iff, andb_true_iff, date_ltb_lt, date_eqb_eq, Z.leb_le. tauto.
Qed.

Lemma later_first_total (da : PyDate.date) (ca : Z) (db_ : PyDate.date) (cb : Z) :
  desc_key da ca db_ cb = false -> later_first db_ cb da ca.
Proof.
  intros H. unfold later_first.
  destruct (date_trichotomy da db_) as [Hl | [-> | Hl]].
  - left; exact Hl.
  - right. split; [reflexivity|].
    destruct (Z.le_gt_cases cb ca) as [Hc | Hc]; [|lia].
    exfalso. assert (desc_key db_ ca db_ cb = true); [|congruence].
    apply desc_key_later_first. right; auto.
  - exfalso. assert (desc_key da ca db_ cb = true); [|congruence].
    apply desc_key_later_first. left; exact Hl.
Qed.

Lemma later_first_trans (d1 : PyDate.date) (c1 : Z) (d2 : PyDate.date) (c2 : Z)
      (d3 : PyDate.date) (c3 : Z) :
  later_first d1 c1 d2 c2 -> later_first d2 c2 d3 c3 -> later_first d1 c1 d3 c3.
Proof.
  unfold later_first.
  intros [H1 | [-> H1]] [H2 | [-> H2]].
  - left. eapply date_lt_trans; eauto.
  - left; exact H1.
  - left; exact H2.
  - right; split; [reflexivity | lia].
Qed.

(** ** The dashboard *)

Lemma make_Ok (y m d : Z) (dt : PyDate.date) :
  PyDate.make y m d = Ok dt ->
  dt = PyDate.mk y m d /\ 1 <= y <= 9999 /\ 1 <= m <= 12.
Proof.
  unfold PyDate.make.
  destruct (negb _); [discriminate|].
  destruct (_ && _) eqn:H; [|discriminate].
  intros E; inversion E; subst.
  rewrite !andb_true_iff, !Z.leb_le in H. repeat split; lia.
Qed.

Lemma month_bounds_Ok (today : PyDate.date) (ym : string) (start end_ : PyDate.date) :
  month_bounds today ym = Ok (start, end_) ->
  exists y mo,
    1 <= y <= 9999 /\ 1 <= mo <= 12
    /\ start = PyDate.mk y mo 1
    /\ end_ = (if mo =? 12 then PyDate.mk (y + 1) 1 1 else PyDate.mk y (mo + 1) 1).
Proof.
  unfold month_bounds.
  set (ym' := if String.eqb ym "" then _ else _).
  destruct (PyStr.split "-" ym') as [|a [|b [|c l]]]; try discriminate.
  unfold mbind, result_bind.
  destruct (of_option ValueError (PyInt.of_string a)) as [y | |]; try discriminate.
  destruct (of_option ValueError (PyInt.of_string b)) as [mo | |]; try discriminate.
  destruct (PyDate.make y mo 1) as [s | |] eqn:Hs; try discriminate.
  apply make_Ok in Hs as (-> & Hy & Hm).
  destruct (mo =? 12) eqn:H12.
  - destruct (PyDate.make (y + 1) 1 1) as [e | |] eqn:He; try discriminate.
    apply make_Ok in He as (-> & _ & _).
    intros E; inversion E; subst. exists y, mo. rewrite H12. auto.
  - destruct (PyDate.make y (mo + 1) 1) as [e | |] eqn:He; try discriminate.
    apply make_Ok in He as (-> & _ & _).
    intros E; inversion E; subst. exists y, mo. rewrite H12. auto.
Qed.

Lemma vendas_between_In (start end_ : PyDate.date) (st : db) (v : Venda.t) :
  In v (vendas_between start end_ st) <->
  In v (vendas_t st) /\ date_le start (Venda.data v) /\ date_lt (Venda.data v) end_.
Proof.
  unfold vendas_between. rewrite filter_In, andb_true_iff, date_leb_le, date_ltb_lt.
  tauto.
Qed.

Lemma dashboard_Ok (today : PyDate.date) (m : option string) (st st' : db) (p : painel) :
  dashboard today m st = Ok (p, st') ->
  exists start end_,
    month_bounds today (or_str m (PyDate.year_month today)) = Ok (start, end_)
    /\ config_t st' = Some (config_of st)
    /\ compras_t st' = compras_t st
    /\ dashboard_loop (config_of st) (order_by venda_desc (vendas_between start end_ st))
         (mk_painel [] 0 0 0 0) st' = Ok (p, st').
Proof.
  unfold dashboard. intros H.
  apply bind_Ok in H as ([start end_] & st1 & Hb & H).
  apply lift_Ok in Hb as [Hb ->].
  apply bind_Ok in H as (vs & st1 & Hv & H).
  inversion Hv; subst; clear Hv.
  apply bind_Ok in H as (cfg & st2 & Hc & H).
  rewrite get_config_Ok in Hc. inversion Hc; subst; clear Hc.
  exists start, end_. split; [exact Hb|].
  pose proof H as H'.
  apply dashboard_loop_spec in H' as [-> _]; [|reflexivity].
  split; [reflexivity|]. split; [reflexivity|].
  exact H.
Qed.

(** C1. Every line of the dashboard carries the profit of its sale:
    revenue is unit price times quantity, the unit cost is the one
    [custo_para_venda] resolves, the fees are [calc_taxas] of the revenue
    plus the fixed fee times the quantity, and the profit is revenue minus
    fees minus unit cost times quantity, with no clamping.  On the
    specification's example (price 9990, quantity 2, unit cost 3590, rates
    20 and 8, fixed fee 400) the figures are revenue 19980, fees 6394, cost
    7180 and profit 6406; a sale below cost shows a negative profit. *)
Theorem dashboard_line_profit :
  (forall today m st p st',
      dashboard today m st = Ok (p, st') ->
      Forall (line_ok (config_of st) st') (linhas p))
  /\ (exists st',
         dashboard Sample.today None Sample.ledger
         = Ok (mk_painel [mk_linha Sample.venda_chaleira 9990 19980 3590 6394 6406]
                 19980 6394 7180 6406, st'))
  /\ (exists st',
         dashboard Sample.today None Sample.ledger_loss
         = Ok (mk_painel [mk_linha Sample.venda_cabo 1000 1000 5000 680 (-4680)]
                 1000 680 5000 (-4680), st')).
Proof.
  split; [|split].
  - intros today m st p st' H.
    apply dashboard_Ok in H as (start & end_ & _ & Hc & _ & H).
    apply dashboard_loop_spec with (1 := Hc) in H as (_ & ls & Hl & _ & Hok & _).
    simpl in Hl. rewrite Hl. exact Hok.
  - eexists. vm_compute. reflexivity.
  - eexists. vm_compute. reflexivity.
Qed.

Lemma dashboard_line_profit_witness :
  Forall (line_ok (config_of Sample.ledger_year_end)
            (mkdb (compras_t Sample.ledger_year_end) (vendas_t Sample.ledger_year_end)
               [] (Some Config.default)))
    [mk_linha Sample.venda_cabo 1000 1000 5000 680 (-4680);
     mk_linha Sample.venda_chaleira 9990 19980 3590 6394 6406].
Proof.
  apply (proj1 dashboard_line_profit Sample.today (Some "2024-12") Sample.ledger_year_end
           (mk_painel [mk_linha Sample.venda_cabo 1000 1000 5000 680 (-4680);
                       mk_linha Sample.venda_chaleira 9990 19980 3590 6394 6406]
              20980 7074 12180 1726)).
  vm_compute. reflexivity.
Defined.



(** ** Conversion of an int to a float *)






(** ** Fees *)


(** The products are those of the floats: with the rate 7 a revenue of 150
    has the exact fee 10.5, whose nearest even integer is 10, but the float
    product lies just above 10.5 and [round] gives 11. *)
Lemma calc_taxas_tie_follows_float :
  calc_taxas 150 Sample.ledger_sete = Ok (11 + 12, Sample.ledger_sete)
  /\ PyFloat.round (PyFloat.mul (PyFloat.nearest 150 0)
                      (PyFloat.div (PyFloat.nearest 7 0) PyFloat.hundred)) = Ok 11
  /\ PyFloat.nearest_even (150 * 7 # 100) 10.
Proof.
  split; [vm_compute; reflexivity|]. split; [vm_compute; reflexivity|].
  unfold PyFloat.nearest_even, Qle, Qeq; simpl. repeat split; lia.
Qed.


(** ** Unit cost of a sale *)

Lemma custo_para_venda_override (v : Venda.t) (c : Z) (st : db) :
  Venda.custo_unitario_override_cent v = Some c ->
  custo_para_venda v st = Ok (c, st).
Proof. unfold custo_para_venda. intros ->. reflexivity. Qed.

Lemma like_no_wildcard (pat s : string) :
  no_wildcard pat = true -> like pat s = String.eqb pat s.
Proof.
  revert s. induction pat as [|c pat IH]; intros s Hw.
  - simpl. destruct s; reflexivity.
  - simpl in Hw. apply andb_true_iff in Hw as [Hc Hw].
    apply andb_true_iff in Hc as [Hp Hu].
    apply negb_true_iff in Hp, Hu.
    simpl. rewrite Hp, Hu.
    destruct s as [|d s]; [reflexivity|].
    rewrite IH by exact Hw. reflexivity.
Qed.

Lemma lower_char_keeps_wildcards (c : ascii) :
  Ascii.eqb (PyStr.lower_char c) "%" = Ascii.eqb c "%"
  /\ Ascii.eqb (PyStr.lower_char c) "_" = Ascii.eqb c "_".
Proof.
  destruct c as [[] [] [] [] [] [] [] []]; split; reflexivity.
Qed.

Lemma no_wildcard_lower (s : string) : no_wildcard (PyStr.lower s) = no_wildcard s.
Proof.
  induction s as [|c s IH]; [reflexivity|]. simpl.
  destruct (lower_char_keeps_wildcards c) as [-> ->]. rewrite IH. reflexivity.
Qed.

(** Without wildcards in the pattern, [ilike] is equality up to the case
    of the letters A-Z. *)
Lemma ilike_no_wildcard (column pat : string) :
  no_wildcard pat = true ->
  ilike column pat = true <-> PyStr.lower pat = PyStr.lower column.
Proof.
  intros Hw. unfold ilike. rewrite like_no_wildcard by (rewrite no_wildcard_lower; exact Hw).
  apply String.eqb_eq.
Qed.

(** Without an override, the unit cost is that of a matching purchase
    that no matching purchase comes strictly before, and 0 when no purchase
    matches. *)
Lemma latest_compra_custo_spec (produto : string) (st : db) :
  exists n,
    latest_compra_custo produto st = Ok (n, st)
    /\ ((forall c, In c (compras_t st) -> ilike (Compra.produto c) produto = false) /\ n = 0
        \/ exists c,
            In c (compras_t st) /\ ilike (Compra.produto c) produto = true
            /\ n = Compra.custo_unitario_cent c
            /\ forall c', In c' (compras_t st) -> ilike (Compra.produto c') produto = true ->
                          compra_order c c').
Proof.
  unfold latest_compra_custo.
  set (ms := List.filter (fun c => ilike (Compra.produto c) produto) (compras_t st)).
  pose proof (order_by_perm compra_desc ms) as Hp.
  assert (Hs : StronglySorted compra_order (order_by compra_desc ms)).
  { apply order_by_sorted.
    - intros a b. apply desc_key_later_first.
    - intros a b. apply later_first_total.
    - intros a b c. apply later_first_trans. }
  destruct (order_by compra_desc ms) as [|c rest] eqn:E; simpl.
  - exists 0. split; [reflexivity|]. left. split; [|reflexivity].
    intros c Hc. destruct (ilike (Compra.produto c) produto) eqn:Hi; [|reflexivity].
    exfalso. assert (Hin : In c ms) by (apply filter_In; auto).
    apply (Permutation_in _ (Permutation_sym Hp)) in Hin. destruct Hin.
  - exists (Compra.custo_unitario_cent c). split; [reflexivity|]. right.
    exists c.
    assert (Hin : In c ms) by (apply (Permutation_in _ Hp); left; reflexivity).
    apply filter_In in Hin as [Hin Hi].
    repeat split; try assumption.
    intros c' Hc' Hi'.
    assert (Hin' : In c' (c :: rest)).
    { apply (Permutation_in _ (Permutation_sym Hp)). apply filter_In; auto. }
    inversion Hs as [|? ? _ Hall]; subst.
    destruct Hin' as [<- | Hin'].
    + right. split; [reflexivity | lia].
    + rewrite List.Forall_forall in Hall. auto.
Qed.

(** C3 (the code departs from the claim). A sale of "Kit_10" without an
    override takes the unit cost of the purchase "Kit-10": the underscore of
    the sale's name is a wildcard of the query, though the two names differ
    in more than the case of their letters. *)
Theorem custo_para_venda_wildcard :
  custo_para_venda Sample.venda_kit Sample.ledger_kit = Ok (1500, Sample.ledger_kit)
  /\ PyStr.lower (Venda.produto Sample.venda_kit)
     <> PyStr.lower (Compra.produto Sample.compra_kit)
  /\ forall c, In c (compras_t Sample.ledger_kit) ->
               PyStr.lower (Compra.produto c) <> PyStr.lower (Venda.produto Sample.venda_kit).
Proof.
  split; [vm_compute; reflexivity|].
  split; [vm_compute; discriminate|].
  intros c [<- | [<- | []]]; vm_compute; discriminate.
Qed.

(** ** Money and percent texts *)

(** C5 (the code departs from the claim). [moeda] writes the cents after a
    period, not a comma, so from R$ 1.000 on its text has two or more
    periods and parses back to 0: the amount 100000 becomes "R$ 1.000.00"
    and then 0.  Below R$ 1.000 the text has one period and parses back. *)
Theorem moeda_round_trip_breaks :
  moeda 100000 = "R$ 1.000.00"
  /\ parse_valor_to_centavos (moeda 100000) = Ok 0
  /\ moeda (-123456789) = "-R$ 1.234.567.89"
  /\ parse_valor_to_centavos (moeda (-123456789)) = Ok 0
  /\ moeda 99999 = "R$ 999.99"
  /\ parse_valor_to_centavos (moeda 99999) = Ok 99999
  /\ parse_valor_to_centavos "R$ 1.000,00" = Ok 100000.
Proof. repeat split; vm_compute; reflexivity. Qed.

(** C6 (the code departs from the claim). The text "NaN" is accepted by the
    Decimal constructor, so the fallback of the [try] is not taken, and the
    conversion to int raises; likewise for an infinity and a signaling
    NaN.  A text that the constructor refuses does parse to 0. *)
Theorem parse_valor_raises_on_nan :
  parse_valor_to_centavos "NaN" = Raise ValueError
  /\ parse_valor_to_centavos "Infinity" = Raise OverflowError
  /\ parse_valor_to_centavos "sNaN" = Raise InvalidOperation
  /\ parse_valor_to_centavos "abc" = Ok 0.
Proof. repeat split; vm_compute; reflexivity. Qed.


Example parse_percent_ex :
  parse_percent "20" = PyFloat.nearest 20 0
  /\ parse_percent " 8,5 %" = PyFloat.nearest 17 (-1)
  /\ parse_percent "oito" = S754_zero false
  /\ parse_percent "nan" = S754_nan.
Proof. repeat split; vm_compute; reflexivity. Qed.

(** ** Ledger updates *)

Lemma find_put_row {A : Type} (key : A -> Z) (id : Z) (r r' : A) (table : list A) :
  List.find (fun x => key x =? id) table = Some r ->
  key r' = key r ->
  List.find (fun x => key x =? id) (put_row key r' table) = Some r'
  /\ In r' (put_row key r' table).
Proof.
  intros Hf Hk. induction table as [|x table IH]; simpl in *; [discriminate|].
  destruct (key x =? id) eqn:Hx.
  - inversion Hf; subst x. rewrite Hk, Z.eqb_refl, Hk, Hx. auto.
  - destruct (IH Hf) as [IH1 IH2].
    destruct (key x =? key r') eqn:Hxr.
    + apply find_some in Hf as [_ Hr]. apply Z.eqb_eq in Hxr, Hr. lia.
    + rewrite Hx. auto.
Qed.

Lemma get_or_404_Ok {A : Type} (key : A -> Z) (table : db -> list A) (id : Z)
      (st st' : db) (r : A) :
  get_or_404 key table id st = Ok (r, st') ->
  st' = st /\ List.find (fun x => key x =? id) (table st) = Some r.
Proof.
  unfold get_or_404. destruct (List.find _ _); [|discriminate].
  intros H; inversion H; auto.
Qed.

Lemma commit_Ok (ints : list Z) (st st' : db) (u : unit) :
  commit ints st = Ok (u, st') -> st' = st.
Proof.
  unfold commit. destruct (forallb _ _); [|discriminate].
  intros H; inversion H; reflexivity.
Qed.

(** [update_boleto] checks the description before it changes anything. *)
Lemma update_boleto_requires_descricao (id : Z) (form : gmap string string) (st : db) :
  PyStr.strip (or_str (form !! "descricao") "") = "" ->
  update_boleto id form st = Abort 404 \/ update_boleto id form st = Abort 400.
Proof.
  intros Hd. unfold update_boleto. rewrite Hd.
  unfold mbind, M_bind, get_or_404.
  destruct (List.find _ _); [right | left]; reflexivity.
Qed.

(** C7 (the code departs from the claim). [update_compra] and
    [update_venda] do not check the product: an update with an empty
    product returns, and the stored row then has an empty product.
    [create_compra] and [create_venda] refuse the same form with status
    400, and so does [update_boleto] for an empty description. *)
Theorem update_accepts_empty_produto :
  (exists c st',
      update_compra 1 {[ "produto" := ""; "custo" := "35,90" ]} Sample.ledger_full
      = Ok (c, st')
      /\ Compra.produto c = ""
      /\ List.find (fun r => Compra.id r =? 1) (compras_t st') = Some c)
  /\ (exists v st',
         update_venda 1 {[ "produto" := "  "; "preco" := "99,90" ]} Sample.ledger_full
         = Ok (v, st')
         /\ Venda.produto v = ""
         /\ List.find (fun r => Venda.id r =? 1) (vendas_t st') = Some v)
  /\ create_compra Sample.today 0 {[ "produto" := ""; "custo" := "35,90" ]}
       Sample.ledger_full = Abort 400
  /\ create_venda Sample.today 0 true {[ "produto" := "  "; "preco" := "99,90" ]}
       Sample.ledger_full = Abort 400
  /\ update_boleto 1 {[ "descricao" := ""; "valor" := "120,00" ]} Sample.ledger_full
     = Abort 400.
Proof.
  split; [|split; [|split; [|split]]].
  - eexists; eexists. split; [vm_compute; reflexivity|].
    split; vm_compute; reflexivity.
  - eexists; eexists. split; [vm_compute; reflexivity|].
    split; vm_compute; reflexivity.
  - vm_compute; reflexivity.
  - vm_compute; reflexivity.
  - vm_compute; reflexivity.
Qed.

(** Inversion of a handler that returned: one step per bind. *)
Ltac step_bind H :=
  let a := fresh "a" in
  let st1 := fresh "st" in
  let Ha := fresh "Ha" in
  apply bind_Ok in H as (a & st1 & Ha & H).

Lemma modify_Ok (f : db -> db) (st st' : db) (u : unit) :
  modify f st = Ok (u, st') -> st' = f st.
Proof. unfold modify. intros H; inversion H; reflexivity. Qed.




Lemma get_config_tables (st st' : db) (cfg : Config.t) :
  _get_config st = Ok (cfg, st') ->
  compras_t st' = compras_t st /\ vendas_t st' = vendas_t st
  /\ boletos_t st' = boletos_t st.
Proof.
  rewrite get_config_Ok. intros H; inversion H; subst. auto.
Qed.


Lemma update_venda_Ok (id : Z) (form : gmap string string) (st st' : db) (v : Venda.t) :
  update_venda id form st = Ok (v, st') ->
  int_or_1 (form !! "quantidade") = Ok (Venda.quantidade v)
  /\ custo_override (form !! "custo") = Ok (Venda.custo_unitario_override_cent v)
  /\ List.find (fun r => Venda.id r =? id) (vendas_t st') = Some v.
Proof.
  unfold update_venda. intros H.
  step_bind H. apply get_or_404_Ok in Ha as [-> Hf].
  step_bind H. apply lift_Ok in Ha as [Hc ->].
  step_bind H. apply lift_Ok in Ha as [Hq ->].
  step_bind H. apply lift_Ok in Ha as [Ho ->].
  step_bind H. apply modify_Ok in Ha as ->.
  step_bind H. apply commit_Ok in Ha as ->.
  step_bind H. apply get_config_tables in Ha as (_ & Hv & _).
  apply ret_Ok in H as [-> ->]. simpl.
  split; [exact Hq|]. split; [exact Ho|].
  rewrite Hv. simpl.
  eapply find_put_row; [exact Hf | reflexivity].
Qed.




(** ** Lists *)



(** ** The cost override of a sale *)

Lemma custo_override_spec (x : option string) (o : option Z) :
  custo_override x = Ok o ->
  (or_str x "" = "" -> o = None)
  /\ (forall s, x = Some s -> s <> "" ->
                exists c, parse_valor_to_centavos s = Ok c /\ o = Some c).
Proof.
  unfold custo_override. destruct x as [[|ch r]|]; simpl.
  - intros H; inversion H. split; [reflexivity|]. intros s E; inversion E; congruence.
  - unfold mbind, result_bind.
    destruct (parse_valor_to_centavos (String ch r)) as [c | |] eqn:Hp; try discriminate.
    intros H; inversion H; subst. split; [discriminate|].
    intros s E _. inversion E; subst. exists c. auto.
  - intros H; inversion H. split; [reflexivity|]. discriminate.
Qed.

(** C10. After an update of a sale that returned, the stored override is a
    function of the submitted cost field alone: absent when the field is
    absent or empty, and the parsed value when it is not; two updates with
    the same form leave the same override, whatever the sales held
    before. *)
Theorem update_venda_override_from_form (form : gmap string string) (id : Z)
    (st st' : db) (v : Venda.t) :
  update_venda id form st = Ok (v, st') ->
  List.find (fun r => Venda.id r =? id) (vendas_t st') = Some v
  /\ (or_str (form !! "custo") "" = "" -> Venda.custo_unitario_override_cent v = None)
  /\ (forall s, form !! "custo" = Some s -> s <> "" ->
                exists c, parse_valor_to_centavos s = Ok c
                          /\ Venda.custo_unitario_override_cent v = Some c)
  /\ (forall id2 st2 st2' v2,
         update_venda id2 form st2 = Ok (v2, st2') ->
         Venda.custo_unitario_override_cent v2 = Venda.custo_unitario_override_cent v).
Proof.
  intros H. apply update_venda_Ok in H as (_ & Ho & Hf).
  split; [exact Hf|].
  destruct (custo_override_spec _ _ Ho) as [Hnone Hsome].
  split; [exact Hnone|]. split; [exact Hsome|].
  intros id2 st2 st2' v2 H2.
  apply update_venda_Ok in H2 as (_ & Ho2 & _).
  rewrite Ho in Ho2. inversion Ho2. reflexivity.
Qed.

Lemma update_venda_override_from_form_witness :
  List.find (fun r => Venda.id r =? 2) (vendas_t Sample.ledger_cabo_sem_custo)
  = Some Sample.venda_cabo_sem_custo
  /\ Venda.custo_unitario_override_cent Sample.venda_cabo = Some 5000
  /\ Venda.custo_unitario_override_cent Sample.venda_cabo_sem_custo = None.
Proof.
  assert (H : update_venda 2 Sample.form_sem_custo Sample.ledger_loss
              = Ok (Sample.venda_cabo_sem_custo, Sample.ledger_cabo_sem_custo))
    by (vm_compute; reflexivity).
  destruct (update_venda_override_from_form _ _ _ _ _ H) as (Hf & Hnone & _).
  split; [exact Hf|]. split; [reflexivity|].
  apply Hnone. vm_compute. reflexivity.
Defined.

(** ** Tables: row ids *)

Lemma fresh_id_above {A : Type} (key : A -> Z) (table : list A) :
  0 < fresh_id key table /\ forall r, In r table -> key r < fresh_id key table.
Proof.
  unfold fresh_id. induction table as [|x table [IH0 IH]]; simpl.
  - split; [lia | intros r []].
  - split; [lia|]. intros r [<- | Hr]; [lia|]. specialize (IH r Hr). lia.
Qed.

Lemma find_fresh_row {A : Type} (key : A -> Z) (table : list A) (r : A) :
  key r = fresh_id key table ->
  List.find (fun x => key x =? key r) (table ++ [r]) = Some r.
Proof.
  intros Hk.
  assert (Hnone : forall l, (forall x, In x l -> key x < key r) ->
                            List.find (fun x => key x =? key r) (l ++ [r]) = Some r).
  { induction l as [|x l IH]; intros Hl; simpl.
    - rewrite Z.eqb_refl. reflexivity.
    - destruct (Z.eqb_spec (key x) (key r)) as [E | _].
      + specialize (Hl x (or_introl eq_refl)). lia.
      + apply IH. intros y Hy. apply Hl. right. exact Hy. }
  apply Hnone. intros x Hx. rewrite Hk. apply fresh_id_above. exact Hx.
Qed.

Lemma NoDup_keys_snoc {A : Type} (key : A -> Z) (table : list A) (r : A) :
  List.NoDup (map key table) -> key r = fresh_id key table ->
  List.NoDup (map key (table ++ [r])).
Proof.
  intros Hn Hk.
  assert (Hlt : forall x, In x table -> key x <> key r).
  { intros x Hx. pose proof (proj2 (fresh_id_above key table) x Hx). lia. }
  clear Hk. induction table as [|x table IH]; simpl.
  - constructor; [intros [] | constructor].
  - inversion Hn as [|? ? Hx Hn']; subst. constructor.
    + rewrite map_app, in_app_iff. intros [Hin | [E | []]].
      * exact (Hx Hin).
      * exact (Hlt x (or_introl eq_refl) (eq_sym E)).
    + apply IH; [exact Hn'|]. intros y Hy. apply Hlt. right. exact Hy.
Qed.

Lemma put_row_keys {A : Type} (key : A -> Z) (r : A) (table : list A) :
  map key (put_row key r table) = map key table.
Proof.
  unfold put_row. rewrite map_map. apply map_ext_in. intros x _.
  destruct (Z.eqb_spec (key x) (key r)) as [E | _]; [symmetry; exact E | reflexivity].
Qed.

Lemma put_row_In {A : Type} (key : A -> Z) (r x : A) (table : list A) :
  In x (put_row key r table) -> x = r \/ In x table /\ key x <> key r.
Proof.
  unfold put_row. rewrite in_map_iff. intros (y & Hy & Hin).
  destruct (Z.eqb_spec (key y) (key r)) as [E | NE]; subst; auto.
Qed.

Lemma put_row_other {A : Type} (key : A -> Z) (r : A) (table : list A) (id : Z) :
  id <> key r ->
  List.find (fun x => key x =? id) (put_row key r table)
  = List.find (fun x => key x =? id) table.
Proof.
  intros Hne. induction table as [|x table IH]; simpl; [reflexivity|].
  destruct (Z.eqb_spec (key x) (key r)) as [E | NE].
  - destruct (Z.eqb_spec (key r) id) as [E' | _]; [congruence|].
    destruct (Z.eqb_spec (key x) id) as [E' | _]; [congruence|]. exact IH.
  - destruct (key x =? id); [reflexivity | exact IH].
Qed.

Lemma put_row_same {A : Type} (key : A -> Z) (r : A) (table : list A) :
  put_row key r (put_row key r table) = put_row key r table.
Proof.
  unfold put_row. rewrite map_map. apply map_ext. intros x.
  destruct (Z.eqb_spec (key x) (key r)) as [E | NE].
  - rewrite Z.eqb_refl. reflexivity.
  - destruct (Z.eqb_spec (key x) (key r)); [contradiction | reflexivity].
Qed.

Lemma put_row_length {A : Type} (key : A -> Z) (r : A) (table : list A) :
  length (put_row key r table) = length table.
Proof. unfold put_row. apply length_map. Qed.

Lemma NoDup_keys_filter {A : Type} (key : A -> Z) (f : A -> bool) (table : list A) :
  List.NoDup (map key table) -> List.NoDup (map key (List.filter f table)).
Proof.
  induction table as [|x table IH]; simpl; intros Hn; [constructor|].
  inversion Hn as [|? ? Hx Hn']; subst.
  destruct (f x); simpl; [|auto].
  constructor; [|auto].
  intros Hin. apply Hx.
  apply in_map_iff in Hin as (y & Hy & Hin). apply filter_In in Hin as [Hin _].
  apply in_map_iff. eauto.
Qed.

Lemma find_deleted {A : Type} (key : A -> Z) (id : Z) (table : list A) :
  List.find (fun x => key x =? id)
    (List.filter (fun x => negb (key x =? id)) table) = None.
Proof.
  induction table as [|x table IH]; simpl; [reflexivity|].
  destruct (key x =? id) eqn:E; simpl; [exact IH|]. rewrite E. exact IH.
Qed.

Lemma find_not_deleted {A : Type} (key : A -> Z) (id id' : Z) (table : list A) :
  id' <> id ->
  List.find (fun x => key x =? id')
    (List.filter (fun x => negb (key x =? id)) table)
  = List.find (fun x => key x =? id') table.
Proof.
  intros Hne. induction table as [|x table IH]; simpl; [reflexivity|].
  destruct (Z.eqb_spec (key x) id) as [E | NE]; simpl.
  - destruct (Z.eqb_spec (key x) id') as [E' | _]; [congruence | exact IH].
  - destruct (key x =? id'); [reflexivity | exact IH].
Qed.

Lemma find_key {A : Type} (key : A -> Z) (id : Z) (table : list A) (r : A) :
  List.find (fun x => key x =? id) table = Some r -> key r = id /\ In r table.
Proof.
  intros H. apply find_some in H as [Hin Hk]. apply Z.eqb_eq in Hk. auto.
Qed.

Lemma commit_fits (ints : list Z) (st st' : db) (u : unit) :
  commit ints st = Ok (u, st') ->
  st' = st /\ Forall (fun z => fits_integer z = true) ints.
Proof.
  unfold commit. destruct (forallb _ _) eqn:H; [|discriminate].
  intros E; inversion E; subst. split; [reflexivity|].
  apply List.Forall_forall. intros z Hz.
  rewrite forallb_forall in H. auto.
Qed.

(** ** What a handler that returned has done *)

Lemma create_compra_inv (today : PyDate.date) (now : Z) (form : gmap string string)
      (st st' : db) (c : Compra.t) :
  create_compra today now form st = Ok (c, st') ->
  c = Compra.mk (fresh_id Compra.id (compras_t st))
        (PyStr.strip (or_str (form !! "produto") ""))
        (Compra.custo_unitario_cent c) (Compra.quantidade c)
        (date_or_today today (form !! "data")) now
  /\ parse_valor_to_centavos (or_str (form !! "custo") "0")
     = Ok (Compra.custo_unitario_cent c)
  /\ Compra.produto c <> ""
  /\ fits_integer (Compra.custo_unitario_cent c) = true
  /\ fits_integer (Compra.quantidade c) = true
  /\ st' = set_compras (fun t => (t ++ [c])%list) st.
Proof.
  unfold create_compra. intros H.
  step_bind H. apply lift_Ok in Ha as [Hq ->].
  destruct (String.eqb _ "") eqn:Hp; [discriminate|].
  step_bind H. apply lift_Ok in Ha as [Hc ->].
  step_bind H. inversion Ha; subst; clear Ha.
  step_bind H. apply modify_Ok in Ha as ->.
  step_bind H. apply commit_fits in Ha as [-> Hfit].
  apply ret_Ok in H as [-> ->]. simpl.
  inversion Hfit as [|? ? Hf1 Hfit']; subst. inversion Hfit' as [|? ? Hf2 _]; subst.
  repeat split; try assumption.
  intros E. rewrite E in Hp. discriminate.
Qed.

Lemma update_compra_inv (id : Z) (form : gmap string string) (st st' : db) (c : Compra.t) :
  update_compra id form st = Ok (c, st') ->
  exists c0,
    List.find (fun r => Compra.id r =? id) (compras_t st) = Some c0
    /\ c = Compra.mk (Compra.id c0) (PyStr.strip (or_str (form !! "produto") ""))
             (Compra.custo_unitario_cent c) (Compra.quantidade c)
             (date_or_keep (Compra.data c0) (form !! "data")) (Compra.created_at c0)
    /\ parse_valor_to_centavos (or_str (form !! "custo") "0")
       = Ok (Compra.custo_unitario_cent c)
    /\ int_or_1 (form !! "quantidade") = Ok (Compra.quantidade c)
    /\ fits_integer (Compra.custo_unitario_cent c) = true
    /\ fits_integer (Compra.quantidade c) = true
    /\ st' = set_compras (put_row Compra.id c) st.
Proof.
  unfold update_compra. intros H.
  step_bind H. apply get_or_404_Ok in Ha as [-> Hf].
  step_bind H. apply lift_Ok in Ha as [Hc ->].
  step_bind H. apply lift_Ok in Ha as [Hq ->].
  step_bind H. apply modify_Ok in Ha as ->.
  step_bind H. apply commit_fits in Ha as [-> Hfit].
  apply ret_Ok in H as [-> ->]. simpl.
  inversion Hfit as [|? ? Hf1 Hfit']; subst. inversion Hfit' as [|? ? Hf2 _]; subst.
  eexists. repeat split; try eassumption.
Qed.

Lemma delete_compra_inv (id : Z) (st st' : db) (u : unit) :
  delete_compra id st = Ok (u, st') ->
  (exists c, List.find (fun r => Compra.id r =? id) (compras_t st) = Some c)
  /\ st' = set_compras (List.filter (fun r => negb (Compra.id r =? id))) st.
Proof.
  unfold delete_compra. intros H.
  step_bind H. apply get_or_404_Ok in Ha as [-> Hf].
  step_bind H. apply modify_Ok in Ha as ->.
  apply commit_fits in H as [-> _].
  destruct (find_key _ _ _ _ Hf) as [-> _].
  split; [eauto | reflexivity].
Qed.

Lemma get_config_inv (st st' : db) (cfg : Config.t) :
  _get_config st = Ok (cfg, st') ->
  cfg = config_of st
  /\ st' = mkdb (compras_t st) (vendas_t st) (boletos_t st) (Some (config_of st)).
Proof. rewrite get_config_Ok. intros H; inversion H; auto. Qed.

Lemma override_fits (o : option Z) :
  Forall (fun z => fits_integer z = true) (match o with Some c => [c] | None => [] end) ->
  forall c, o = Some c -> fits_integer c = true.
Proof.
  intros H c ->. inversion H; assumption.
Qed.

Lemma create_venda_inv (today : PyDate.date) (now : Z) (hx : bool)
      (form : gmap string string) (st st' : db) (v : Venda.t) :
  create_venda today now hx form st = Ok (v, st') ->
  v = Venda.mk (fresh_id Venda.id (vendas_t st))
        (PyStr.strip (or_str (form !! "produto") ""))
        (Venda.preco_unitario_cent v) (Venda.quantidade v)
        (date_or_today today (form !! "data"))
        (Venda.custo_unitario_override_cent v) now
  /\ parse_valor_to_centavos (or_str (form !! "preco") "0")
     = Ok (Venda.preco_unitario_cent v)
  /\ Venda.produto v <> ""
  /\ fits_integer (Venda.preco_unitario_cent v) = true
  /\ fits_integer (Venda.quantidade v) = true
  /\ (forall c, Venda.custo_unitario_override_cent v = Some c -> fits_integer c = true)
  /\ compras_t st' = compras_t st
  /\ vendas_t st' = (vendas_t st ++ [v])%list
  /\ boletos_t st' = boletos_t st
  /\ config_t st' = (if hx then Some (config_of st) else config_t st).
Proof.
  unfold create_venda. intros H.
  step_bind H. apply lift_Ok in Ha as [Hq ->].
  destruct (String.eqb _ "") eqn:Hp; [discriminate|].
  step_bind H. apply lift_Ok in Ha as [Hc ->].
  step_bind H. apply lift_Ok in Ha as [Ho ->].
  step_bind H. inversion Ha; subst; clear Ha.
  step_bind H. apply modify_Ok in Ha as ->.
  step_bind H. apply commit_fits in Ha as [-> Hfit].
  apply bind_Ok in H as (u & st_r & Hr & H).
  apply ret_Ok in H as [-> ->]. simpl.
  inversion Hfit as [|? ? Hf1 Hfit']; subst. inversion Hfit' as [|? ? Hf2 Hfit'']; subst.
  split; [reflexivity|]. split; [exact Hc|].
  split; [intros E; rewrite E in Hp; discriminate|].
  split; [exact Hf1|]. split; [exact Hf2|].
  split; [apply override_fits; exact Hfit''|].
  destruct hx.
  - apply bind_Ok in Hr as (cfg & st_c & Hg & Hr).
    apply get_config_inv in Hg as [_ ->].
    apply ret_Ok in Hr as [_ ->]. simpl. auto.
  - apply ret_Ok in Hr as [_ ->]. simpl. auto.
Qed.

Lemma update_venda_inv (id : Z) (form : gmap string string) (st st' : db) (v : Venda.t) :
  update_venda id form st = Ok (v, st') ->
  exists v0,
    List.find (fun r => Venda.id r =? id) (vendas_t st) = Some v0
    /\ v = Venda.mk (Venda.id v0) (PyStr.strip (or_str (form !! "produto") ""))
             (Venda.preco_unitario_cent v) (Venda.quantidade v)
             (date_or_keep (Venda.data v0) (form !! "data"))
             (Venda.custo_unitario_override_cent v) (Venda.created_at v0)
    /\ parse_valor_to_centavos (or_str (form !! "preco") "0")
       = Ok (Venda.preco_unitario_cent v)
    /\ int_or_1 (form !! "quantidade") = Ok (Venda.quantidade v)
    /\ custo_override (form !! "custo") = Ok (Venda.custo_unitario_override_cent v)
    /\ fits_integer (Venda.preco_unitario_cent v) = true
    /\ fits_integer (Venda.quantidade v) = true
    /\ (forall c, Venda.custo_unitario_override_cent v = Some c -> fits_integer c = true)
    /\ st' = mkdb (compras_t st) (put_row Venda.id v (vendas_t st)) (boletos_t st)
               (Some (config_of st)).
Proof.
  unfold update_venda. intros H.
  step_bind H. apply get_or_404_Ok in Ha as [-> Hf].
  step_bind H. apply lift_Ok in Ha as [Hc ->].
  step_bind H. apply lift_Ok in Ha as [Hq ->].
  step_bind H. apply lift_Ok in Ha as [Ho ->].
  step_bind H. apply modify_Ok in Ha as ->.
  step_bind H. apply commit_fits in Ha as [-> Hfit].
  step_bind H. apply get_config_inv in Ha as [_ ->].
  apply ret_Ok in H as [-> ->]. simpl.
  inversion Hfit as [|? ? Hf1 Hfit']; subst. inversion Hfit' as [|? ? Hf2 Hfit'']; subst.
  eexists. split; [exact Hf|]. split; [reflexivity|].
  split; [exact Hc|]. split; [exact Hq|]. split; [exact Ho|].
  split; [exact Hf1|]. split; [exact Hf2|].
  split; [apply override_fits; exact Hfit''|]. reflexivity.
Qed.

Lemma delete_venda_inv (id : Z) (st st' : db) (u : unit) :
  delete_venda id st = Ok (u, st') ->
  (exists v, List.find (fun r => Venda.id r =? id) (vendas_t st) = Some v)
  /\ st' = set_vendas (List.filter (fun r => negb (Venda.id r =? id))) st.
Proof.
  unfold delete_venda. intros H.
  step_bind H. apply get_or_404_Ok in Ha as [-> Hf].
  step_bind H. apply modify_Ok in Ha as ->.
  apply commit_fits in H as [-> _].
  destruct (find_key _ _ _ _ Hf) as [-> _].
  split; [eauto | reflexivity].
Qed.

Lemma create_boleto_inv (now : Z) (form : gmap string string) (st st' : db) (b : Boleto.t) :
  create_boleto now form st = Ok (b, st') ->
  b = Boleto.mk (fresh_id Boleto.id (boletos_t st))
        (PyStr.strip (or_str (form !! "descricao") ""))
        (Boleto.valor_centavos b) (vencimento_of (form !! "vencimento"))
        (PyStr.strip (or_str (form !! "status") "aberto")) now
  /\ parse_valor_to_centavos (or_str (form !! "valor") "0") = Ok (Boleto.valor_centavos b)
  /\ Boleto.descricao b <> ""
  /\ fits_integer (Boleto.valor_centavos b) = true
  /\ st' = set_boletos (fun t => (t ++ [b])%list) st.
Proof.
  unfold create_boleto. intros H.
  destruct (String.eqb _ "") eqn:Hp; [discriminate|].
  step_bind H. apply lift_Ok in Ha as [Hc ->].
  step_bind H. inversion Ha; subst; clear Ha.
  step_bind H. apply modify_Ok in Ha as ->.
  step_bind H. apply commit_fits in Ha as [-> Hfit].
  apply ret_Ok in H as [-> ->]. simpl.
  inversion Hfit as [|? ? Hf1 _]; subst.
  repeat split; try assumption.
  intros E. rewrite E in Hp. discriminate.
Qed.

Lemma update_boleto_inv (id : Z) (form : gmap string string) (st st' : db) (b : Boleto.t) :
  update_boleto id form st = Ok (b, st') ->
  exists b0,
    List.find (fun r => Boleto.id r =? id) (boletos_t st) = Some b0
    /\ b = Boleto.mk (Boleto.id b0) (PyStr.strip (or_str (form !! "descricao") ""))
             (Boleto.valor_centavos b) (vencimento_of (form !! "vencimento"))
             (PyStr.strip (or_str (form !! "status") "aberto")) (Boleto.created_at b0)
    /\ parse_valor_to_centavos (or_str (form !! "valor") "0") = Ok (Boleto.valor_centavos b)
    /\ Boleto.descricao b <> ""
    /\ fits_integer (Boleto.valor_centavos b) = true
    /\ st' = set_boletos (put_row Boleto.id b) st.
Proof.
  unfold update_boleto. intros H.
  step_bind H. apply get_or_404_Ok in Ha as [-> Hf].
  destruct (String.eqb _ "") eqn:Hp; [discriminate|].
  step_bind H. apply lift_Ok in Ha as [Hc ->].
  step_bind H. apply modify_Ok in Ha as ->.
  step_bind H. apply commit_fits in Ha as [-> Hfit].
  apply ret_Ok in H as [-> ->]. simpl.
  inversion Hfit as [|? ? Hf1 _]; subst.
  eexists. repeat split; try eassumption.
  intros E. rewrite E in Hp. discriminate.
Qed.

Lemma toggle_status_inv (id : Z) (st st' : db) (b : Boleto.t) :
  toggle_status id st = Ok (b, st') ->
  exists b0,
    List.find (fun r => Boleto.id r =? id) (boletos_t st) = Some b0
    /\ b = Boleto.mk (Boleto.id b0) (Boleto.descricao b0) (Boleto.valor_centavos b0)
             (Boleto.vencimento b0)
             (if String.eqb (Boleto.status b0) "aberto" then "pago" else "aberto")
             (Boleto.created_at b0)
    /\ st' = set_boletos (put_row Boleto.id b) st.
Proof.
  unfold toggle_status. intros H.
  step_bind H. apply get_or_404_Ok in Ha as [-> Hf].
  step_bind H. apply modify_Ok in Ha as ->.
  step_bind H. apply commit_fits in Ha as [-> _].
  apply ret_Ok in H as [-> ->].
  eexists. split; [exact Hf|]. split; [|reflexivity].
  destruct (String.eqb (Boleto.status a) "aberto"); [reflexivity|].
  destruct (String.eqb (Boleto.status a) "pago"); reflexivity.
Qed.

Lemma delete_boleto_inv (id : Z) (st st' : db) (u : unit) :
  delete_boleto id st = Ok (u, st') ->
  (exists b, List.find (fun r => Boleto.id r =? id) (boletos_t st) = Some b)
  /\ st' = set_boletos (List.filter (fun r => negb (Boleto.id r =? id))) st.
Proof.
  unfold delete_boleto. intros H.
  step_bind H. apply get_or_404_Ok in Ha as [-> Hf].
  step_bind H. apply modify_Ok in Ha as ->.
  apply commit_fits in H as [-> _].
  destruct (find_key _ _ _ _ Hf) as [-> _].
  split; [eauto | reflexivity].
Qed.

Lemma save_config_inv (form : gmap string string) (st st' : db) (u : unit) :
  save_config form st = Ok (u, st') ->
  exists fixo,
    parse_valor_to_centavos (or_str (form !! "fixo") "0") = Ok fixo
    /\ fits_integer fixo = true
    /\ fits_real (parse_percent (or_str (form !! "marketplace") "")) = true
    /\ fits_real (parse_percent (or_str (form !! "imposto") "")) = true
    /\ st' = mkdb (compras_t st) (vendas_t st) (boletos_t st)
               (Some (Config.mk (parse_percent (or_str (form !! "marketplace") ""))
                        (parse_percent (or_str (form !! "imposto") "")) fixo)).
Proof.
  unfold save_config. intros H.
  step_bind H. apply get_config_inv in Ha as [_ ->].
  step_bind H. apply lift_Ok in Ha as [Hc ->].
  step_bind H. apply modify_Ok in Ha as ->.
  step_bind H.
  destruct (fits_real _ && fits_real _) eqn:Hr; [|discriminate].
  inversion Ha; subst; clear Ha.
  apply commit_fits in H as [-> Hfit].
  inversion Hfit as [|? ? Hf1 _]; subst.
  apply andb_true_iff in Hr as [Hr1 Hr2].
  eexists. repeat split; try eassumption.
Qed.

(** ** Create, look up, update, delete *)

Lemma date_or_keep_twice (d : PyDate.date) (x : option string) :
  date_or_keep (date_or_keep d x) x = date_or_keep d x.
Proof.
  unfold date_or_keep. destruct x as [[|c r]|]; try reflexivity.
  destruct (PyDate.strptime (String c r)); reflexivity.
Qed.

Lemma fits_forallb (ints : list Z) :
  Forall (fun z => fits_integer z = true) ints -> forallb fits_integer ints = true.
Proof.
  intros H. apply forallb_forall. rewrite List.Forall_forall in H. exact H.
Qed.

(** X1. A row that [create_compra], [create_venda] or [create_boleto]
    returns is appended to its table under an id larger than every id in
    use, the other tables are left as they were, and the row view of that
    id then returns this very row. *)
Theorem create_then_row (today : PyDate.date) (now : Z) (form : gmap string string)
    (st : db) :
  (forall c st',
      create_compra today now form st = Ok (c, st') ->
      compras_t st' = (compras_t st ++ [c])%list
      /\ vendas_t st' = vendas_t st /\ boletos_t st' = boletos_t st
      /\ (forall r, In r (compras_t st) -> Compra.id r < Compra.id c)
      /\ Compra.created_at c = now
      /\ compra_row (Compra.id c) st' = Ok (c, st'))
  /\ (forall hx v st',
         create_venda today now hx form st = Ok (v, st') ->
         vendas_t st' = (vendas_t st ++ [v])%list
         /\ compras_t st' = compras_t st /\ boletos_t st' = boletos_t st
         /\ (forall r, In r (vendas_t st) -> Venda.id r < Venda.id v)
         /\ Venda.created_at v = now
         /\ edit_venda (Venda.id v) st' = Ok (v, st'))
  /\ (forall b st',
         create_boleto now form st = Ok (b, st') ->
         boletos_t st' = (boletos_t st ++ [b])%list
         /\ compras_t st' = compras_t st /\ vendas_t st' = vendas_t st
         /\ (forall r, In r (boletos_t st) -> Boleto.id r < Boleto.id b)
         /\ Boleto.created_at b = now
         /\ boleto_row (Boleto.id b) st' = Ok (b, st')).
Proof.
  split; [|split].
  - intros c st' H. apply create_compra_inv in H as (Hc & _ & _ & _ & _ & ->).
    assert (Hid : Compra.id c = fresh_id Compra.id (compras_t st))
      by (rewrite Hc; reflexivity).
    simpl. repeat split.
    + intros r Hr. rewrite Hid. apply fresh_id_above. exact Hr.
    + rewrite Hc. reflexivity.
    + unfold compra_row, get_or_404. simpl. rewrite (find_fresh_row _ _ _ Hid).
      reflexivity.
  - intros hx v st' H.
    apply create_venda_inv in H as (Hv & _ & _ & _ & _ & _ & Hc & Hvs & Hb & _).
    assert (Hid : Venda.id v = fresh_id Venda.id (vendas_t st))
      by (rewrite Hv; reflexivity).
    repeat split; try assumption.
    + intros r Hr. rewrite Hid. apply fresh_id_above. exact Hr.
    + rewrite Hv. reflexivity.
    + unfold edit_venda, get_or_404. rewrite Hvs, (find_fresh_row _ _ _ Hid).
      reflexivity.
  - intros b st' H. apply create_boleto_inv in H as (Hb & _ & _ & _ & ->).
    assert (Hid : Boleto.id b = fresh_id Boleto.id (boletos_t st))
      by (rewrite Hb; reflexivity).
    simpl. repeat split.
    + intros r Hr. rewrite Hid. apply fresh_id_above. exact Hr.
    + rewrite Hb. reflexivity.
    + unfold boleto_row, get_or_404. simpl. rewrite (find_fresh_row _ _ _ Hid).
      reflexivity.
Qed.

(** X2. After a delete that returned, the id is gone: the row view, an
    update and a second delete of it all abort with 404; rows of other ids
    are found as before, and the other tables are untouched (deleting a
    purchase removes no sale). *)
Theorem delete_then_404 (id : Z) (st st' : db) (u : unit) :
  (delete_compra id st = Ok (u, st') ->
   compra_row id st' = Abort 404
   /\ delete_compra id st' = Abort 404
   /\ (forall form, update_compra id form st' = Abort 404)
   /\ (forall id', id' <> id ->
                   List.find (fun r => Compra.id r =? id') (compras_t st')
                   = List.find (fun r => Compra.id r =? id') (compras_t st))
   /\ vendas_t st' = vendas_t st /\ boletos_t st' = boletos_t st
   /\ config_t st' = config_t st)
  /\ (delete_venda id st = Ok (u, st') ->
      edit_venda id st' = Abort 404
      /\ delete_venda id st' = Abort 404
      /\ (forall form, update_venda id form st' = Abort 404)
      /\ (forall id', id' <> id ->
                      List.find (fun r => Venda.id r =? id') (vendas_t st')
                      = List.find (fun r => Venda.id r =? id') (vendas_t st))
      /\ compras_t st' = compras_t st /\ boletos_t st' = boletos_t st
      /\ config_t st' = config_t st)
  /\ (delete_boleto id st = Ok (u, st') ->
      boleto_row id st' = Abort 404
      /\ delete_boleto id st' = Abort 404
      /\ (forall form, update_boleto id form st' = Abort 404)
      /\ toggle_status id st' = Abort 404
      /\ (forall id', id' <> id ->
                      List.find (fun r => Boleto.id r =? id') (boletos_t st')
                      = List.find (fun r => Boleto.id r =? id') (boletos_t st))
      /\ compras_t st' = compras_t st /\ vendas_t st' = vendas_t st
      /\ config_t st' = config_t st).
Proof.
  split; [|split]; intros H.
  - apply delete_compra_inv in H as [_ ->].
    assert (Hg : forall A (k : Compra.t -> M A),
               (get_or_404 Compra.id compras_t id ≫= k)
                 (set_compras (List.filter (fun r => negb (Compra.id r =? id))) st)
               = Abort 404).
    { intros A k. unfold mbind, M_bind, get_or_404. simpl.
      rewrite find_deleted. reflexivity. }
    repeat split; try reflexivity.
    + unfold compra_row, get_or_404. simpl. rewrite find_deleted. reflexivity.
    + apply Hg.
    + intros form. apply Hg.
    + intros id' Hne. simpl. apply find_not_deleted. exact Hne.
  - apply delete_venda_inv in H as [_ ->].
    assert (Hg : forall A (k : Venda.t -> M A),
               (get_or_404 Venda.id vendas_t id ≫= k)
                 (set_vendas (List.filter (fun r => negb (Venda.id r =? id))) st)
               = Abort 404).
    { intros A k. unfold mbind, M_bind, get_or_404. simpl.
      rewrite find_deleted. reflexivity. }
    repeat split; try reflexivity.
    + unfold edit_venda, get_or_404. simpl. rewrite find_deleted. reflexivity.
    + apply Hg.
    + intros form. apply Hg.
    + intros id' Hne. simpl. apply find_not_deleted. exact Hne.
  - apply delete_boleto_inv in H as [_ ->].
    assert (Hg : forall A (k : Boleto.t -> M A),
               (get_or_404 Boleto.id boletos_t id ≫= k)
                 (set_boletos (List.filter (fun r => negb (Boleto.id r =? id))) st)
               = Abort 404).
    { intros A k. unfold mbind, M_bind, get_or_404. simpl.
      rewrite find_deleted. reflexivity. }
    repeat split; try reflexivity.
    + unfold boleto_row, get_or_404. simpl. rewrite find_deleted. reflexivity.
    + apply Hg.
    + intros form. apply Hg.
    + apply Hg.
    + intros id' Hne. simpl. apply find_not_deleted. exact Hne.
Qed.

(** X3. [toggle_status] changes nothing but the status of the one invoice:
    "aberto" becomes "pago" and every other status becomes "aberto", so
    the result is never "cancelado"; toggling twice restores a status that
    was "aberto" or "pago", and the invoices of other ids are found as
    before. *)
Theorem toggle_status_spec (id : Z) (st st' : db) (b : Boleto.t) :
  toggle_status id st = Ok (b, st') ->
  exists b0,
    boleto_row id st = Ok (b0, st)
    /\ boleto_row id st' = Ok (b, st')
    /\ Boleto.id b = Boleto.id b0 /\ Boleto.descricao b = Boleto.descricao b0
    /\ Boleto.valor_centavos b = Boleto.valor_centavos b0
    /\ Boleto.vencimento b = Boleto.vencimento b0
    /\ Boleto.created_at b = Boleto.created_at b0
    /\ (Boleto.status b0 = "aberto" -> Boleto.status b = "pago")
    /\ (Boleto.status b0 <> "aberto" -> Boleto.status b = "aberto")
    /\ Boleto.status b <> "cancelado"
    /\ (forall id', id' <> id ->
                    List.find (fun r => Boleto.id r =? id') (boletos_t st')
                    = List.find (fun r => Boleto.id r =? id') (boletos_t st))
    /\ compras_t st' = compras_t st /\ vendas_t st' = vendas_t st
    /\ exists b2 st2,
        toggle_status id st' = Ok (b2, st2)
        /\ (Boleto.status b0 = "aberto" \/ Boleto.status b0 = "pago" ->
            Boleto.status b2 = Boleto.status b0).
Proof.
  intros H. apply toggle_status_inv in H as (b0 & Hf & Hb & ->).
  destruct (find_key _ _ _ _ Hf) as [Hid _].
  assert (Hkey : Boleto.id b = Boleto.id b0) by (rewrite Hb; reflexivity).
  destruct (find_put_row Boleto.id id b0 b (boletos_t st) Hf Hkey) as [Hf' _].
  exists b0. split; [unfold boleto_row, get_or_404; rewrite Hf; reflexivity|].
  split; [unfold boleto_row, get_or_404; simpl; rewrite Hf'; reflexivity|].
  rewrite Hb at 1 2 3 4 5 6 7 8. simpl.
  repeat (split; [reflexivity|]).
  split; [intros E; rewrite E; reflexivity|].
  split.
  { intros NE. destruct (String.eqb_spec (Boleto.status b0) "aberto"); [contradiction|].
    reflexivity. }
  split.
  { destruct (String.eqb (Boleto.status b0) "aberto"); discriminate. }
  split.
  { intros id' Hne. apply put_row_other. rewrite Hkey, Hid. exact Hne. }
  split; [reflexivity|]. split; [reflexivity|].
  unfold toggle_status, mbind, M_bind, get_or_404. simpl. rewrite Hf'.
  unfold modify, commit. simpl. eexists; eexists. split; [reflexivity|].
  simpl. rewrite Hb. simpl.
  intros [E | E]; rewrite E; reflexivity.
Qed.

(** X4. An update that returned can be repeated: the same form applied
    again to the resulting state returns the same row and leaves that
    state unchanged, for purchases, sales and invoices. *)
Theorem update_twice (id : Z) (form : gmap string string) (st st' : db) :
  (forall c, update_compra id form st = Ok (c, st') ->
             update_compra id form st' = Ok (c, st'))
  /\ (forall v, update_venda id form st = Ok (v, st') ->
                update_venda id form st' = Ok (v, st'))
  /\ (forall b, update_boleto id form st = Ok (b, st') ->
                update_boleto id form st' = Ok (b, st')).
Proof.
  split; [|split].
  - intros c H.
    apply update_compra_inv in H as (c0 & Hf & Hc & Hp & Hq & Hf1 & Hf2 & ->).
    assert (Hkey : Compra.id c = Compra.id c0) by (rewrite Hc; reflexivity).
    destruct (find_put_row Compra.id id c0 c (compras_t st) Hf Hkey) as [Hf' _].
    unfold update_compra, mbind, M_bind, get_or_404. simpl. rewrite Hf'.
    unfold lift. rewrite Hp, Hq. unfold modify, commit. simpl.
    rewrite Hf1, Hf2. simpl. unfold mret, M_ret, set_compras. simpl.
    assert (Hrow : Compra.mk (Compra.id c) (PyStr.strip (or_str (form !! "produto") ""))
                     (Compra.custo_unitario_cent c) (Compra.quantidade c)
                     (date_or_keep (Compra.data c) (form !! "data")) (Compra.created_at c)
                   = c).
    { clear - Hc. destruct c as [i p cu q d ca]. simpl in *.
      inversion Hc as [[Hi Hpr Hd Hca]].
      rewrite date_or_keep_twice. reflexivity. }
    rewrite Hrow, put_row_same. reflexivity.
  - intros v H.
    apply update_venda_inv in H
      as (v0 & Hf & Hv & Hp & Hq & Ho & Hf1 & Hf2 & Hf3 & ->).
    assert (Hkey : Venda.id v = Venda.id v0) by (rewrite Hv; reflexivity).
    destruct (find_put_row Venda.id id v0 v (vendas_t st) Hf Hkey) as [Hf' _].
    unfold update_venda, mbind, M_bind, get_or_404. simpl. rewrite Hf'.
    unfold lift. rewrite Hp, Hq, Ho. unfold modify, commit. simpl.
    rewrite Hf1, Hf2. simpl.
    assert (Hfo : forallb fits_integer
                    (match Venda.custo_unitario_override_cent v with
                     | Some c => [c] | None => [] end) = true).
    { destruct (Venda.custo_unitario_override_cent v) as [c|] eqn:E; simpl; [|reflexivity].
      rewrite (Hf3 c eq_refl). reflexivity. }
    rewrite Hfo. unfold _get_config, mret, M_ret, set_vendas. simpl.
    assert (Hrow : Venda.mk (Venda.id v) (PyStr.strip (or_str (form !! "produto") ""))
                     (Venda.preco_unitario_cent v) (Venda.quantidade v)
                     (date_or_keep (Venda.data v) (form !! "data"))
                     (Venda.custo_unitario_override_cent v) (Venda.created_at v)
                   = v).
    { clear - Hv. destruct v as [i p pr q d o ca]. simpl in *.
      inversion Hv as [[Hi Hpr Hd Hca]].
      rewrite date_or_keep_twice. reflexivity. }
    rewrite Hrow, put_row_same. reflexivity.
  - intros b H.
    apply update_boleto_inv in H as (b0 & Hf & Hb & Hp & Hd & Hf1 & ->).
    assert (Hkey : Boleto.id b = Boleto.id b0) by (rewrite Hb; reflexivity).
    destruct (find_put_row Boleto.id id b0 b (boletos_t st) Hf Hkey) as [Hf' _].
    assert (Hdesc : PyStr.strip (or_str (form !! "descricao") "") = Boleto.descricao b)
      by (rewrite Hb; reflexivity).
    unfold update_boleto, mbind, M_bind, get_or_404. simpl. rewrite Hf'.
    rewrite Hdesc.
    destruct (String.eqb_spec (Boleto.descricao b) "") as [E | _]; [contradiction|].
    unfold lift. rewrite Hp. unfold modify, commit. simpl.
    rewrite Hf1. simpl. unfold mret, M_ret, set_boletos. simpl.
    assert (Hrow : Boleto.mk (Boleto.id b) (Boleto.descricao b) (Boleto.valor_centavos b)
                     (vencimento_of (form !! "vencimento"))
                     (PyStr.strip (or_str (form !! "status") "aberto"))
                     (Boleto.created_at b)
                   = b).
    { clear - Hb. destruct b as [i de va ve stt ca]. simpl in *.
      inversion Hb as [[Hi Hde Hve Hst Hca]]. reflexivity. }
    rewrite Hrow, put_row_same. reflexivity.
Qed.

Lemma date_or_keep_spec (old : PyDate.date) (x : option string) :
  date_or_keep old x
  = match PyDate.strptime (or_str x "") with
    | Some d => d
    | None => old
    end.
Proof. destruct x as [[|c r]|]; reflexivity. Qed.

Lemma vencimento_of_spec (x : option string) :
  vencimento_of x = PyDate.strptime (or_str x "").
Proof. destruct x as [[|c r]|]; reflexivity. Qed.

(** X5. An update touches one row and one table: the row keeps its id and
    its creation time, rows of other ids are found as before, the table
    keeps its length and the other tables are untouched.  A purchase or a
    sale keeps its date unless the form carries a valid date; an invoice
    loses its due date unless the form carries a valid one. *)
Theorem update_frame (id : Z) (form : gmap string string) (st st' : db) :
  (forall c,
      update_compra id form st = Ok (c, st') ->
      exists c0,
        compra_row id st = Ok (c0, st)
        /\ Compra.id c = id /\ Compra.created_at c = Compra.created_at c0
        /\ Compra.data c = match PyDate.strptime (or_str (form !! "data") "") with
                           | Some d => d
                           | None => Compra.data c0
                           end
        /\ length (compras_t st') = length (compras_t st)
        /\ (forall id', id' <> id ->
                        List.find (fun r => Compra.id r =? id') (compras_t st')
                        = List.find (fun r => Compra.id r =? id') (compras_t st))
        /\ vendas_t st' = vendas_t st /\ boletos_t st' = boletos_t st)
  /\ (forall v,
         update_venda id form st = Ok (v, st') ->
         exists v0,
           edit_venda id st = Ok (v0, st)
           /\ Venda.id v = id /\ Venda.created_at v = Venda.created_at v0
           /\ Venda.data v = match PyDate.strptime (or_str (form !! "data") "") with
                             | Some d => d
                             | None => Venda.data v0
                             end
           /\ length (vendas_t st') = length (vendas_t st)
           /\ (forall id', id' <> id ->
                           List.find (fun r => Venda.id r =? id') (vendas_t st')
                           = List.find (fun r => Venda.id r =? id') (vendas_t st))
           /\ compras_t st' = compras_t st /\ boletos_t st' = boletos_t st)
  /\ (forall b,
         update_boleto id form st = Ok (b, st') ->
         exists b0,
           boleto_row id st = Ok (b0, st)
           /\ Boleto.id b = id /\ Boleto.created_at b = Boleto.created_at b0
           /\ Boleto.vencimento b = PyDate.strptime (or_str (form !! "vencimento") "")
           /\ length (boletos_t st') = length (boletos_t st)
           /\ (forall id', id' <> id ->
                           List.find (fun r => Boleto.id r =? id') (boletos_t st')
                           = List.find (fun r => Boleto.id r =? id') (boletos_t st))
           /\ compras_t st' = compras_t st /\ vendas_t st' = vendas_t st).
Proof.
  split; [|split].
  - intros c H.
    apply update_compra_inv in H as (c0 & Hf & Hc & _ & _ & _ & _ & ->).
    destruct (find_key _ _ _ _ Hf) as [Hid _].
    assert (Hkey : Compra.id c = id) by (rewrite Hc; exact Hid).
    exists c0. split; [unfold compra_row, get_or_404; rewrite Hf; reflexivity|].
    split; [exact Hkey|]. split; [rewrite Hc; reflexivity|].
    split; [rewrite Hc; simpl; apply date_or_keep_spec|].
    split; [apply put_row_length|].
    split; [|split; reflexivity].
    intros id' Hne. apply put_row_other. rewrite Hkey. exact Hne.
  - intros v H.
    apply update_venda_inv in H as (v0 & Hf & Hv & _ & _ & _ & _ & _ & _ & ->).
    destruct (find_key _ _ _ _ Hf) as [Hid _].
    assert (Hkey : Venda.id v = id) by (rewrite Hv; exact Hid).
    exists v0. split; [unfold edit_venda, get_or_404; rewrite Hf; reflexivity|].
    split; [exact Hkey|]. split; [rewrite Hv; reflexivity|].
    split; [rewrite Hv; simpl; apply date_or_keep_spec|].
    split; [apply put_row_length|].
    split; [|split; reflexivity].
    intros id' Hne. apply put_row_other. rewrite Hkey. exact Hne.
  - intros b H.
    apply update_boleto_inv in H as (b0 & Hf & Hb & _ & _ & _ & ->).
    destruct (find_key _ _ _ _ Hf) as [Hid _].
    assert (Hkey : Boleto.id b = id) by (rewrite Hb; exact Hid).
    exists b0. split; [unfold boleto_row, get_or_404; rewrite Hf; reflexivity|].
    split; [exact Hkey|]. split; [rewrite Hb; reflexivity|].
    split; [rewrite Hb; simpl; apply vencimento_of_spec|].
    split; [apply put_row_length|].
    split; [|split; reflexivity].
    intros id' Hne. apply put_row_other. rewrite Hkey. exact Hne.
Qed.

(** ** Reachable states *)

Lemma Forall_snoc {A : Type} (P : A -> Prop) (l : list A) (x : A) :
  Forall P l -> P x -> Forall P (l ++ [x]).
Proof.
  intros Hl Hx. apply List.Forall_forall. intros y Hy.
  apply in_app_iff in Hy as [Hy | [<- | []]]; [|exact Hx].
  rewrite List.Forall_forall in Hl. auto.
Qed.

Lemma Forall_put_row {A : Type} (key : A -> Z) (P : A -> Prop) (r : A) (l : list A) :
  Forall P l -> P r -> Forall P (put_row key r l).
Proof.
  intros Hl Hr. apply List.Forall_forall. intros y Hy.
  apply put_row_In in Hy as [-> | [Hy _]]; [exact Hr|].
  rewrite List.Forall_forall in Hl. auto.
Qed.

Lemma Forall_filter {A : Type} (P : A -> Prop) (f : A -> bool) (l : list A) :
  Forall P l -> Forall P (List.filter f l).
Proof.
  intros Hl. apply List.Forall_forall. intros y Hy.
  apply filter_In in Hy as [Hy _]. rewrite List.Forall_forall in Hl. auto.
Qed.

Lemma well_formed_config (st : db) (cfg : option Config.t) :
  well_formed st ->
  (forall c, cfg = Some c ->
             fits_real (Config.marketplace_percent c) = true
             /\ fits_real (Config.imposto_percent c) = true
             /\ fits_integer (Config.taxa_fixa_cent c) = true) ->
  well_formed (mkdb (compras_t st) (vendas_t st) (boletos_t st) cfg).
Proof.
  intros [H1 H2 H3 H4 H5 H6 H7] Hc. constructor; simpl; assumption.
Qed.

Lemma config_of_fits (st : db) :
  well_formed st ->
  fits_real (Config.marketplace_percent (config_of st)) = true
  /\ fits_real (Config.imposto_percent (config_of st)) = true
  /\ fits_integer (Config.taxa_fixa_cent (config_of st)) = true.
Proof.
  intros Hw. unfold config_of. destruct (config_t st) as [cfg|] eqn:E.
  - exact (wf_config st Hw cfg E).
  - repeat split.
Qed.

Lemma well_formed_get_config (st : db) :
  well_formed st ->
  well_formed (mkdb (compras_t st) (vendas_t st) (boletos_t st) (Some (config_of st))).
Proof.
  intros Hw. apply well_formed_config; [exact Hw|].
  intros c E. inversion E; subst. apply config_of_fits. exact Hw.
Qed.

Lemma dashboard_state (today : PyDate.date) (m : option string) (st st' : db)
      (p : painel) :
  dashboard today m st = Ok (p, st') ->
  st' = mkdb (compras_t st) (vendas_t st) (boletos_t st) (Some (config_of st)).
Proof.
  unfold dashboard. intros H.
  apply bind_Ok in H as ([start end_] & st1 & Hb & H).
  apply lift_Ok in Hb as [_ ->].
  apply bind_Ok in H as (vs & st1 & Hv & H).
  inversion Hv; subst; clear Hv.
  apply bind_Ok in H as (cfg & st2 & Hc & H).
  apply get_config_inv in Hc as [-> ->].
  apply dashboard_loop_spec in H as [-> _]; reflexivity.
Qed.

Lemma vendas_state (st st' : db) (rows : list Venda.t) :
  vendas st = Ok (rows, st') ->
  rows = order_by venda_desc (vendas_t st)
  /\ st' = mkdb (compras_t st) (vendas_t st) (boletos_t st) (Some (config_of st)).
Proof.
  unfold vendas. intros H.
  apply bind_Ok in H as (r & st1 & Hr & H). inversion Hr; subst; clear Hr.
  apply bind_Ok in H as (cfg & st2 & Hc & H).
  apply get_config_inv in Hc as [_ ->].
  apply ret_Ok in H as [-> ->]. auto.
Qed.

Lemma venda_row_state (id : Z) (st st' : db) (v : Venda.t) :
  venda_row id st = Ok (v, st') ->
  List.find (fun r => Venda.id r =? id) (vendas_t st) = Some v
  /\ st' = mkdb (compras_t st) (vendas_t st) (boletos_t st) (Some (config_of st)).
Proof.
  unfold venda_row. intros H.
  apply bind_Ok in H as (r & st1 & Hr & H). apply get_or_404_Ok in Hr as [-> Hf].
  apply bind_Ok in H as (cfg & st2 & Hc & H).
  apply get_config_inv in Hc as [_ ->].
  apply ret_Ok in H as [-> ->]. auto.
Qed.

Lemma handle_well_formed (today : PyDate.date) (now : Z) (r : request)
      (st st' : db) (u : unit) :
  well_formed st -> handle today now r st = Ok (u, st') -> well_formed st'.
Proof.
  intros Hw H. pose proof Hw as [H1 H2 H3 H4 H5 H6 H7].
  destruct r; simpl in H.
  - apply bind_Ok in H as (p & st1 & Ha & H). apply ret_Ok in H as [_ ->].
    apply dashboard_state in Ha as ->. apply well_formed_get_config. exact Hw.
  - apply bind_Ok in H as (p & st1 & Ha & H). apply ret_Ok in H as [_ ->].
    inversion Ha; subst. exact Hw.
  - apply bind_Ok in H as (c & st1 & Ha & H). apply ret_Ok in H as [_ ->].
    apply create_compra_inv in Ha as (Hc & _ & _ & Hf1 & Hf2 & ->).
    assert (Hid : Compra.id c = fresh_id Compra.id (compras_t st))
      by (rewrite Hc; reflexivity).
    constructor; simpl; try assumption.
    + apply NoDup_keys_snoc; assumption.
    + apply Forall_snoc; [assumption|].
      split; [rewrite Hid; apply fresh_id_above | auto].
  - apply bind_Ok in H as (c & st1 & Ha & H). apply ret_Ok in H as [_ ->].
    apply get_or_404_Ok in Ha as [-> _]. exact Hw.
  - apply bind_Ok in H as (c & st1 & Ha & H). apply ret_Ok in H as [_ ->].
    apply get_or_404_Ok in Ha as [-> _]. exact Hw.
  - apply bind_Ok in H as (c & st1 & Ha & H). apply ret_Ok in H as [_ ->].
    apply update_compra_inv in Ha as (c0 & Hf & Hc & _ & _ & Hf1 & Hf2 & ->).
    destruct (find_key _ _ _ _ Hf) as [_ Hin].
    constructor; simpl; try assumption.
    + rewrite put_row_keys. assumption.
    + apply Forall_put_row; [assumption|].
      rewrite List.Forall_forall in H4. destruct (H4 c0 Hin) as [Hpos _].
      split; [rewrite Hc; exact Hpos | auto].
  - apply delete_compra_inv in H as [_ ->].
    constructor; simpl; try assumption.
    + apply NoDup_keys_filter. assumption.
    + apply Forall_filter. assumption.
  - apply bind_Ok in H as (p & st1 & Ha & H). apply ret_Ok in H as [_ ->].
    apply vendas_state in Ha as [_ ->]. apply well_formed_get_config. exact Hw.
  - apply bind_Ok in H as (v & st1 & Ha & H). apply ret_Ok in H as [_ ->].
    apply create_venda_inv in Ha
      as (Hv & _ & _ & Hf1 & Hf2 & Hf3 & Hc & Hvs & Hb & Hcfg).
    assert (Hid : Venda.id v = fresh_id Venda.id (vendas_t st))
      by (rewrite Hv; reflexivity).
    constructor; rewrite ?Hc, ?Hvs, ?Hb, ?Hcfg; try assumption.
    + apply NoDup_keys_snoc; assumption.
    + apply Forall_snoc; [assumption|].
      split; [rewrite Hid; apply fresh_id_above | auto].
    + intros cfg E. destruct hx_request; [|exact (H7 cfg E)].
      inversion E; subst. apply config_of_fits. exact Hw.
  - apply bind_Ok in H as (v & st1 & Ha & H). apply ret_Ok in H as [_ ->].
    apply venda_row_state in Ha as [_ ->]. apply well_formed_get_config. exact Hw.
  - apply bind_Ok in H as (c & st1 & Ha & H). apply ret_Ok in H as [_ ->].
    apply get_or_404_Ok in Ha as [-> _]. exact Hw.
  - apply bind_Ok in H as (v & st1 & Ha & H). apply ret_Ok in H as [_ ->].
    apply update_venda_inv in Ha
      as (v0 & Hf & Hv & _ & _ & _ & Hf1 & Hf2 & Hf3 & ->).
    destruct (find_key _ _ _ _ Hf) as [_ Hin].
    constructor; simpl; try assumption.
    + rewrite put_row_keys. assumption.
    + apply Forall_put_row; [assumption|].
      rewrite List.Forall_forall in H5. destruct (H5 v0 Hin) as [Hpos _].
      split; [rewrite Hv; exact Hpos | auto].
    + intros cfg E. inversion E; subst. apply config_of_fits. exact Hw.
  - apply delete_venda_inv in H as [_ ->].
    constructor; simpl; try assumption.
    + apply NoDup_keys_filter. assumption.
    + apply Forall_filter. assumption.
  - apply bind_Ok in H as (p & st1 & Ha & H). apply ret_Ok in H as [_ ->].
    inversion Ha; subst. exact Hw.
  - apply bind_Ok in H as (b & st1 & Ha & H). apply ret_Ok in H as [_ ->].
    apply create_boleto_inv in Ha as (Hb & _ & Hd & Hf1 & ->).
    assert (Hid : Boleto.id b = fresh_id Boleto.id (boletos_t st))
      by (rewrite Hb; reflexivity).
    constructor; simpl; try assumption.
    + apply NoDup_keys_snoc; assumption.
    + apply Forall_snoc; [assumption|].
      split; [rewrite Hid; apply fresh_id_above | auto].
  - apply bind_Ok in H as (c & st1 & Ha & H). apply ret_Ok in H as [_ ->].
    apply get_or_404_Ok in Ha as [-> _]. exact Hw.
  - apply bind_Ok in H as (c & st1 & Ha & H). apply ret_Ok in H as [_ ->].
    apply get_or_404_Ok in Ha as [-> _]. exact Hw.
  - apply bind_Ok in H as (b & st1 & Ha & H). apply ret_Ok in H as [_ ->].
    apply update_boleto_inv in Ha as (b0 & Hf & Hb & _ & Hd & Hf1 & ->).
    destruct (find_key _ _ _ _ Hf) as [_ Hin].
    constructor; simpl; try assumption.
    + rewrite put_row_keys. assumption.
    + apply Forall_put_row; [assumption|].
      rewrite List.Forall_forall in H6. destruct (H6 b0 Hin) as [Hpos _].
      split; [rewrite Hb; exact Hpos | auto].
  - apply bind_Ok in H as (b & st1 & Ha & H). apply ret_Ok in H as [_ ->].
    apply toggle_status_inv in Ha as (b0 & Hf & Hb & ->).
    destruct (find_key _ _ _ _ Hf) as [_ Hin].
    constructor; simpl; try assumption.
    + rewrite put_row_keys. assumption.
    + apply Forall_put_row; [assumption|].
      rewrite List.Forall_forall in H6. destruct (H6 b0 Hin) as (Hpos & Hd & Hfit).
      rewrite Hb. simpl. auto.
  - apply delete_boleto_inv in H as [_ ->].
    constructor; simpl; try assumption.
    + apply NoDup_keys_filter. assumption.
    + apply Forall_filter. assumption.
  - apply bind_Ok in H as (c & st1 & Ha & H). apply ret_Ok in H as [_ ->].
    apply get_config_inv in Ha as [_ ->]. apply well_formed_get_config. exact Hw.
  - apply save_config_inv in H as (fixo & _ & Hf & Hr1 & Hr2 & ->).
    apply well_formed_config; [exact Hw|].
    intros c E. inversion E; subst. simpl. auto.
Qed.

(** X6. In every state the application can reach from the empty database,
    the ids of each table are pairwise different and positive, every
    stored amount, quantity and override fits a signed 64-bit integer,
    every invoice has a description, and no stored rate is a NaN. *)
Theorem reachable_well_formed (st : db) : reachable st -> well_formed st.
Proof.
  induction 1 as [| st st' today now r u _ IH H | st _ IH].
  - constructor; simpl; [constructor .. | intros cfg E; discriminate E].
  - exact (handle_well_formed today now r st st' u IH H).
  - apply well_formed_get_config. exact IH.
Qed.

(** ** More on the dashboard *)

Lemma lines_profit_sum (cfg : Config.t) (st : db) (ls : list linha) :
  Forall (line_ok cfg st) ls ->
  sum_of l_lucro ls
  = sum_of l_receita ls - sum_of l_taxas ls
    - sum_of (fun l => l_custo l * Venda.quantidade (l_venda l)) ls.
Proof.
  induction 1 as [|l ls Hl _ IH]; simpl; [reflexivity|].
  destruct Hl as (_ & _ & _ & _ & Hlu). rewrite IH, Hlu. lia.
Qed.

(** X7. The four totals of the dashboard are tied together: the total
    profit is the total revenue minus the total fees minus the total
    cost. *)
Theorem dashboard_totals_balance (today : PyDate.date) (m : option string)
    (st st' : db) (p : painel) :
  dashboard today m st = Ok (p, st') ->
  tot_lucro p = tot_receita p - tot_taxas p - tot_custo p.
Proof.
  intros H. apply dashboard_Ok in H as (s & e & _ & Hc & _ & H).
  apply dashboard_loop_spec with (1 := Hc) in H
    as (_ & ls & _ & _ & Hok & Hr & Ht & Hcs & Hlu).
  simpl in *. rewrite Hr, Ht, Hcs, Hlu. apply (lines_profit_sum _ _ _ Hok).
Qed.

(** X8. The dashboard lists its lines by sale date, latest first, and
    within a date by creation time, latest first.  It writes nothing to the
    three ledgers (at most it creates the default configuration row), and
    asked again in the state it left it returns the same figures. *)
Theorem dashboard_ordered_read_only (today : PyDate.date) (m : option string)
    (st st' : db) (p : painel) :
  dashboard today m st = Ok (p, st') ->
  StronglySorted venda_order (map l_venda (linhas p))
  /\ compras_t st' = compras_t st /\ vendas_t st' = vendas_t st
  /\ boletos_t st' = boletos_t st /\ config_t st' = Some (config_of st)
  /\ dashboard today m st' = Ok (p, st').
Proof.
  intros H. pose proof (dashboard_state _ _ _ _ _ H) as Hst.
  pose proof H as H0.
  apply dashboard_Ok in H as (s & e & Hb & Hc & _ & H).
  pose proof H as Hloop.
  apply dashboard_loop_spec with (1 := Hc) in H as (_ & ls & Hl & Hm & _).
  simpl in Hl. split.
  { rewrite Hl, Hm. apply order_by_sorted.
    - intros a b. apply desc_key_later_first.
    - intros a b. apply later_first_total.
    - intros a b c. apply later_first_trans. }
  rewrite Hst at 1 2 3 4. simpl. repeat (split; [reflexivity|]).
  unfold dashboard. unfold mbind at 1, M_bind. unfold lift at 1. rewrite Hb.
  unfold mbind at 1, M_bind. unfold mbind at 1, M_bind.
  rewrite (get_config_Some st' (config_of st) Hc).
  assert (Hv : vendas_between s e st' = vendas_between s e st).
  { unfold vendas_between. rewrite Hst. reflexivity. }
  rewrite Hv. exact Hloop.
Qed.

(** ** Printing and reading integers *)

Lemma digit_char_spec (d : Z) :
  0 <= d < 10 ->
  PyStr.is_digit (PyStr.digit_char d) = true
  /\ PyStr.digit_val (PyStr.digit_char d) = d.
Proof.
  intros H.
  assert (Hc : d = 0 \/ d = 1 \/ d = 2 \/ d = 3 \/ d = 4 \/ d = 5 \/ d = 6
               \/ d = 7 \/ d = 8 \/ d = 9) by lia.
  repeat destruct Hc as [-> | Hc]; try subst d; split; reflexivity.
Qed.

Lemma append_cons (x : ascii) (a b : string) :
  (String x a ++ b)%string = String x (a ++ b).
Proof. reflexivity. Qed.

Lemma append_nil_l (b : string) : ("" ++ b)%string = b.
Proof. reflexivity. Qed.

Lemma append_nil_r (a : string) : (a ++ "")%string = a.
Proof.
  induction a as [|x a IH]; [reflexivity | rewrite append_cons, IH; reflexivity].
Qed.

Lemma append_assoc (a b c : string) :
  ((a ++ b) ++ c)%string = (a ++ (b ++ c))%string.
Proof.
  induction a as [|x a IH]; [reflexivity | rewrite !append_cons, IH; reflexivity].
Qed.

Lemma append_assoc_char (a : string) (c : ascii) (b : string) :
  (a ++ String c b)%string = ((a ++ String c "") ++ b)%string.
Proof. rewrite append_assoc. reflexivity. Qed.

Lemma all_digits_app (a b : string) :
  all_digits (a ++ b) = all_digits a && all_digits b.
Proof.
  induction a as [|x a IH]; [reflexivity|].
  rewrite append_cons. simpl. rewrite IH, andb_assoc. reflexivity.
Qed.

Lemma digits_value_app (a b : string) (k : Z) :
  digits_value (a ++ b) k = digits_value b (digits_value a k).
Proof.
  revert k. induction a as [|x a IH]; intros k; [reflexivity|].
  rewrite append_cons. simpl. apply IH.
Qed.

Lemma string_length_app (a b : string) :
  String.length (a ++ b) = (String.length a + String.length b)%nat.
Proof.
  induction a as [|x a IH]; [reflexivity|].
  rewrite append_cons. simpl. rewrite IH. reflexivity.
Qed.

(** The digits [digits_fuel] writes in front of [acc]. *)
Lemma digits_fuel_spec (f : nat) :
  forall (n : Z) (acc : string),
    0 <= n < 10 ^ Z.of_nat (S f) ->
    exists ds,
      PyStr.digits_fuel (S f) n acc = (ds ++ acc)%string
      /\ all_digits ds = true /\ ds <> ""
      /\ (String.length ds <= S f)%nat
      /\ (forall a, digits_value ds a = a * 10 ^ Z.of_nat (String.length ds) + n)
      /\ (10 ^ (Z.of_nat (String.length ds) - 1) <= n \/ String.length ds = 1%nat).
Proof.
  assert (Hone : forall n acc, 0 <= n < 10 ->
            exists ds,
              String (PyStr.digit_char (n mod 10)) acc = (ds ++ acc)%string
              /\ all_digits ds = true /\ ds <> ""
              /\ String.length ds = 1%nat
              /\ (forall a, digits_value ds a = a * 10 ^ Z.of_nat (String.length ds) + n)).
  { intros n acc Hn.
    destruct (digit_char_spec n Hn) as [Hd Hv].
    exists (String (PyStr.digit_char n) "").
    rewrite Z.mod_small by lia.
    split; [reflexivity|]. split; [simpl; rewrite Hd; reflexivity|].
    split; [discriminate|]. split; [reflexivity|].
    intros a. simpl. rewrite Hv. lia. }
  induction f as [|f IH]; intros n acc Hn.
  - assert (Hn' : 0 <= n < 10) by (simpl in Hn; lia).
    destruct (Hone n acc Hn') as (ds & Heq & Hall & Hne & Hlen & Hval).
    exists ds. simpl PyStr.digits_fuel.
    destruct (Z.ltb_spec n 10) as [_ | Hge]; [|lia].
    rewrite Hlen. repeat split; auto. rewrite <- Hlen. exact Hval.
  - remember (S f) as f' eqn:Ef. simpl PyStr.digits_fuel.
    destruct (Z.ltb_spec n 10) as [Hlt | Hge].
    + destruct (Hone n acc (conj (proj1 Hn) Hlt)) as (ds & Heq & Hall & Hne & Hlen & Hval).
      exists ds. rewrite Hlen. repeat split; auto; try lia. rewrite <- Hlen. exact Hval.
    + destruct (digit_char_spec (n mod 10) ltac:(apply Z.mod_pos_bound; lia)) as [Hd Hv].
      assert (Hf : 0 <= n / 10 < 10 ^ Z.of_nat f').
      { split; [apply Z.div_pos; lia|].
        apply Z.div_lt_upper_bound; [lia|].
        rewrite (Nat2Z.inj_succ f'), Z.pow_succ_r in Hn by lia. lia. }
      subst f'.
      destruct (IH (n / 10) (String (PyStr.digit_char (n mod 10)) acc) Hf)
        as (ds & Heq & Hall & Hne & Hlen & Hval & Hlow).
      exists (ds ++ String (PyStr.digit_char (n mod 10)) "")%string.
      split; [rewrite Heq; apply append_assoc_char|].
      split; [rewrite all_digits_app, Hall; simpl; rewrite Hd; reflexivity|].
      split; [destruct ds; [contradiction | discriminate]|].
      rewrite string_length_app. simpl String.length.
      split; [lia|].
      assert (Hpos : (1 <= String.length ds)%nat)
        by (destruct ds; [contradiction | simpl; lia]).
      split.
      * intros a. rewrite digits_value_app, Hval. simpl. rewrite Hv.
        replace (Z.of_nat (String.length ds + 1)) with (Z.succ (Z.of_nat (String.length ds)))
          by lia.
        rewrite Z.pow_succ_r by lia.
        pose proof (Z.div_mod n 10 ltac:(lia)). lia.
      * left. replace (Z.of_nat (String.length ds + 1) - 1) with (Z.of_nat (String.length ds))
          by lia.
        pose proof (Z.div_mod n 10 ltac:(lia)) as Hdm.
        pose proof (Z.mod_pos_bound n 10 ltac:(lia)) as Hmb.
        destruct Hlow as [Hlow | Hl1].
        -- replace (Z.of_nat (String.length ds))
             with (Z.succ (Z.of_nat (String.length ds) - 1)) by lia.
           rewrite Z.pow_succ_r by lia. lia.
        -- rewrite Hl1. simpl. lia.
Qed.

Lemma log2_fuel (n : Z) : 0 <= n -> n < 10 ^ Z.of_nat (S (Z.to_nat (Z.log2 n))).
Proof.
  intros Hn. rewrite Nat2Z.inj_succ, Z2Nat.id by apply Z.log2_nonneg.
  destruct (Z.eq_dec n 0) as [-> | Hnz]; [simpl; lia|].
  pose proof (Z.log2_spec n ltac:(lia)) as [_ Hup].
  assert (Hle : 2 ^ Z.succ (Z.log2 n) <= 10 ^ Z.succ (Z.log2 n)).
  { apply Z.pow_le_mono_l. lia. }
  lia.
Qed.

(** [str(n)] for [n >= 0] is a non-empty text of digits that denotes [n]. *)
Lemma of_nonneg_spec (n : Z) :
  0 <= n ->
  all_digits (PyStr.of_nonneg n) = true /\ PyStr.of_nonneg n <> ""
  /\ (forall a, digits_value (PyStr.of_nonneg n) a
                = a * 10 ^ Z.of_nat (String.length (PyStr.of_nonneg n)) + n)
  /\ (10 ^ (Z.of_nat (String.length (PyStr.of_nonneg n)) - 1) <= n
      \/ String.length (PyStr.of_nonneg n) = 1%nat).
Proof.
  intros Hn. unfold PyStr.of_nonneg.
  destruct (digits_fuel_spec (Z.to_nat (Z.log2 n)) n "" (conj Hn (log2_fuel n Hn)))
    as (ds & Heq & Hall & Hne & _ & Hval & Hlow).
  rewrite Heq, append_nil_r. auto.
Qed.

Lemma digit_not_space (c : ascii) : PyStr.is_digit c = true -> PyStr.is_space c = false.
Proof.
  unfold PyStr.is_digit, PyStr.is_space. intros H.
  apply andb_true_iff in H as [H1 H2]. apply N.leb_le in H1, H2.
  repeat (apply orb_false_iff; split);
    try (apply andb_false_iff; (left; apply N.leb_gt; lia) || (right; apply N.leb_gt; lia));
    apply N.eqb_neq; lia.
Qed.

Lemma has_char_digits (c : ascii) (s : string) :
  PyStr.is_digit c = false -> all_digits s = true -> has_char c s = false.
Proof.
  intros Hc. induction s as [|d s IH]; simpl; [reflexivity|].
  intros H. apply andb_true_iff in H as [Hd Hs].
  rewrite (IH Hs), orb_false_r. apply Ascii.eqb_neq. intros ->. congruence.
Qed.

Lemma has_char_app (c : ascii) (a b : string) :
  has_char c (a ++ b) = has_char c a || has_char c b.
Proof.
  induction a as [|x a IH]; [reflexivity|].
  rewrite append_cons. simpl. rewrite IH, orb_assoc. reflexivity.
Qed.

Lemma lstrip_id (c : ascii) (s : string) :
  PyStr.is_space c = false -> PyStr.lstrip (String c s) = String c s.
Proof. intros H. simpl. rewrite H. reflexivity. Qed.

(** [rstrip] leaves a text that does not end in white space. *)
Lemma rstrip_app (a b : string) :
  b <> "" -> PyStr.rstrip b = b -> PyStr.rstrip (a ++ b) = (a ++ b)%string.
Proof.
  intros Hne Hb. induction a as [|x a IH]; [exact Hb|].
  rewrite append_cons. simpl. rewrite IH.
  destruct (a ++ b)%string eqn:E; [|reflexivity].
  destruct a; [simpl in E; contradiction | discriminate].
Qed.

Lemma rstrip_digits (s : string) : all_digits s = true -> PyStr.rstrip s = s.
Proof.
  induction s as [|c s IH]; simpl; [reflexivity|].
  intros H. apply andb_true_iff in H as [Hc Hs]. rewrite (IH Hs).
  rewrite (digit_not_space c Hc). destruct s; reflexivity.
Qed.

Lemma strip_digits (s : string) : all_digits s = true -> PyStr.strip s = s.
Proof.
  intros H. unfold PyStr.strip.
  assert (Hl : PyStr.lstrip s = s).
  { destruct s as [|c s]; [reflexivity|]. simpl in H.
    apply andb_true_iff in H as [Hc _]. apply lstrip_id, digit_not_space, Hc. }
  rewrite Hl. apply rstrip_digits, H.
Qed.

Lemma digits_us_spec (s : string) :
  all_digits s = true ->
  forall (a : Z) (after : bool),
    s <> "" \/ after = true ->
    PyInt.digits_us s a after = Some (digits_value s a).
Proof.
  induction s as [|c s IH]; simpl; intros Hall a after Hne.
  - destruct Hne as [Hne | ->]; [contradiction | reflexivity].
  - apply andb_true_iff in Hall as [Hc Hs]. rewrite Hc.
    apply IH; [exact Hs | right; reflexivity].
Qed.

(** [int] reads back a text of digits. *)
Lemma int_of_digits (s : string) :
  all_digits s = true -> s <> "" -> PyInt.of_string s = Some (digits_value s 0).
Proof.
  intros Hall Hne. unfold PyInt.of_string. rewrite (strip_digits s Hall).
  destruct s as [|c r]; [contradiction|].
  pose proof (digits_us_spec (String c r) Hall 0 false (or_introl Hne)) as Hd.
  simpl in Hall. apply andb_true_iff in Hall as [Hc _].
  destruct c as [[] [] [] [] [] [] [] []]; try discriminate Hc; exact Hd.
Qed.

(** [int(str(n))] is [n], for every integer [n]. *)
Lemma int_of_int (n : Z) : PyInt.of_string (PyStr.of_int n) = Some n.
Proof.
  unfold PyStr.of_int. destruct (Z.ltb_spec n 0) as [Hneg | Hpos].
  - destruct (of_nonneg_spec (- n) ltac:(lia)) as (Hall & Hne & Hval & _).
    unfold PyInt.of_string.
    assert (Hs : PyStr.strip (String "-" (PyStr.of_nonneg (- n)))
                 = String "-" (PyStr.of_nonneg (- n))).
    { unfold PyStr.strip. rewrite lstrip_id by reflexivity.
      change (String "-" (PyStr.of_nonneg (- n)))
        with (String "-" "" ++ PyStr.of_nonneg (- n))%string.
      apply rstrip_app; [exact Hne | apply rstrip_digits, Hall]. }
    rewrite Hs.
    rewrite (digits_us_spec _ Hall 0 false (or_introl Hne)), Hval. simpl.
    f_equal. lia.
  - destruct (of_nonneg_spec n Hpos) as (Hall & Hne & Hval & _).
    rewrite (int_of_digits _ Hall Hne), Hval. reflexivity.
Qed.

Lemma pad2_spec (n : Z) :
  0 <= n ->
  all_digits (PyStr.pad2 n) = true /\ PyStr.pad2 n <> ""
  /\ digits_value (PyStr.pad2 n) 0 = n.
Proof.
  intros Hn. destruct (of_nonneg_spec n Hn) as (Hall & Hne & Hval & _).
  unfold PyStr.pad2. destruct (n <? 10).
  - simpl. rewrite Hall, Hval. split; [reflexivity|]. split; [discriminate|].
    replace (PyStr.digit_val "0") with 0 by reflexivity. lia.
  - rewrite Hval. split; [exact Hall|]. split; [exact Hne | lia].
Qed.

Lemma split_no_sep (sep : ascii) (s : string) :
  has_char sep s = false -> PyStr.split sep s = [s].
Proof.
  induction s as [|c s IH]; simpl; [reflexivity|].
  intros H. apply orb_false_iff in H as [Hc Hs].
  rewrite Ascii.eqb_sym, Hc, (IH Hs). reflexivity.
Qed.

Lemma split_at_sep (sep : ascii) (a b : string) :
  has_char sep a = false ->
  PyStr.split sep (a ++ String sep b) = a :: PyStr.split sep b.
Proof.
  induction a as [|c a IH]; intros H.
  - simpl. rewrite Ascii.eqb_refl. reflexivity.
  - simpl in H. apply orb_false_iff in H as [Hc Ha].
    rewrite append_cons. simpl. rewrite Ascii.eqb_sym, Hc, (IH Ha). reflexivity.
Qed.

(** ** The month of the dashboard *)

Lemma make_first_day (y m : Z) :
  1 <= y <= 9999 -> 1 <= m <= 12 -> PyDate.make y m 1 = Ok (PyDate.mk y m 1).
Proof.
  intros Hy Hm. unfold PyDate.make, PyDate.fits_c_int.
  assert (Hd : 1 <= PyDate.days_in_month y m).
  { unfold PyDate.days_in_month.
    destruct (m =? 2); [destruct (PyDate.is_leap y); lia|].
    destruct (_ || _); lia. }
  repeat match goal with
         | |- context [?a <=? ?b] => destruct (Z.leb_spec a b); [|lia]
         | |- context [?a <? ?b] => destruct (Z.ltb_spec a b); [|lia]
         end.
  reflexivity.
Qed.

Lemma month_bounds_of_year_month (today : PyDate.date) (y m : Z) :
  1 <= y <= 9999 -> 1 <= m <= 12 ->
  month_bounds today (PyStr.of_int y ++ "-" ++ PyStr.pad2 m)
  = (if m =? 12
     then (if y =? 9999 then Raise ValueError
           else Ok (PyDate.mk y 12 1, PyDate.mk (y + 1) 1 1))
     else Ok (PyDate.mk y m 1, PyDate.mk y (m + 1) 1)).
Proof.
  intros Hy Hm.
  destruct (of_nonneg_spec y ltac:(lia)) as (Hall & Hne & Hval & _).
  destruct (pad2_spec m ltac:(lia)) as (Hall2 & Hne2 & Hval2).
  assert (Hoi : PyStr.of_int y = PyStr.of_nonneg y).
  { unfold PyStr.of_int. destruct (Z.ltb_spec y 0); [lia | reflexivity]. }
  unfold month_bounds. rewrite Hoi.
  change (PyStr.of_nonneg y ++ "-" ++ PyStr.pad2 m)%string
    with (PyStr.of_nonneg y ++ String "-" (PyStr.pad2 m))%string.
  assert (Hnz : String.eqb (PyStr.of_nonneg y ++ String "-" (PyStr.pad2 m)) "" = false).
  { destruct (PyStr.of_nonneg y); [contradiction | reflexivity]. }
  rewrite Hnz.
  rewrite split_at_sep by (apply has_char_digits; [reflexivity | exact Hall]).
  rewrite split_no_sep by (apply has_char_digits; [reflexivity | exact Hall2]).
  rewrite (int_of_digits _ Hall Hne), (int_of_digits _ Hall2 Hne2), Hval, Hval2.
  replace (0 * 10 ^ Z.of_nat (String.length (PyStr.of_nonneg y)) + y) with y by lia.
  unfold of_option, mbind, result_bind.
  rewrite (make_first_day y m Hy Hm).
  destruct (Z.eqb_spec m 12) as [-> | Hne12].
  - destruct (Z.eqb_spec y 9999) as [-> | Hney].
    + reflexivity.
    + rewrite (make_first_day (y + 1) 1) by lia. reflexivity.
  - rewrite (make_first_day y (m + 1)) by lia. reflexivity.
Qed.

(** X9. The dashboard of a month lists exactly the sales whose date has
    the year and the month of the month asked for (stored dates have a
    month from 1 to 12 and a day from 1 on). *)
Theorem dashboard_rows_of_the_month (today : PyDate.date) (m : option string)
    (st st' : db) (p : painel) :
  dashboard today m st = Ok (p, st') ->
  exists y mo,
    month_bounds today (or_str m (PyDate.year_month today))
    = Ok (PyDate.mk y mo 1,
          if mo =? 12 then PyDate.mk (y + 1) 1 1 else PyDate.mk y (mo + 1) 1)
    /\ forall v,
        1 <= PyDate.month (Venda.data v) <= 12 -> 1 <= PyDate.day (Venda.data v) ->
        (In v (map l_venda (linhas p)) <->
         In v (vendas_t st)
         /\ PyDate.year (Venda.data v) = y /\ PyDate.month (Venda.data v) = mo).
Proof.
  intros H. apply dashboard_Ok in H as (s & e & Hb & Hc & _ & H).
  apply dashboard_loop_spec with (1 := Hc) in H as (_ & ls & Hl & Hm & _).
  simpl in Hl.
  pose proof Hb as Hb'.
  apply month_bounds_Ok in Hb' as (y & mo & _ & Hmo & -> & ->).
  exists y, mo. split; [exact Hb|].
  intros v Hvm Hvd. rewrite Hl, Hm.
  assert (Hin : In v (order_by venda_desc
                        (vendas_between (PyDate.mk y mo 1)
                           (if mo =? 12 then PyDate.mk (y + 1) 1 1
                            else PyDate.mk y (mo + 1) 1) st))
                <-> In v (vendas_between (PyDate.mk y mo 1)
                           (if mo =? 12 then PyDate.mk (y + 1) 1 1
                            else PyDate.mk y (mo + 1) 1) st)).
  { split; apply Permutation_in; [|symmetry]; apply order_by_perm. }
  rewrite Hin, vendas_between_In.
  destruct (Venda.data v) as [yv mv dv] eqn:Ed. simpl in Hvm, Hvd.
  unfold date_le, date_lt. simpl.
  destruct (Z.eqb_spec mo 12) as [E12 | Hne]; simpl.
  - split.
    + intros (Hi & [Hlt | Heq] & Hlt2); [|inversion Heq; subst]; split; try assumption; lia.
    + intros (Hi & Ey & Em). subst yv mv. split; [exact Hi|]. split; [|lia].
      destruct (Z.eq_dec dv 1) as [Ed1 | Hd1]; [right; subst dv; reflexivity | left; lia].
  - split.
    + intros (Hi & [Hlt | Heq] & Hlt2); [|inversion Heq; subst]; split; try assumption; lia.
    + intros (Hi & Ey & Em). subst yv mv. split; [exact Hi|]. split; [|lia].
      destruct (Z.eq_dec dv 1) as [Ed1 | Hd1]; [right; subst dv; reflexivity | left; lia].
Qed.

(** X10. Without a month in the request (or with an empty one) the
    dashboard is that of the month of today: its interval starts on the
    first day of today's month and holds today.  The one exception is
    December 9999, whose interval would end in the year 10000: there the
    dashboard raises ValueError. *)
Theorem dashboard_default_month (today : PyDate.date) (st : db) :
  1 <= PyDate.year today <= 9999 -> 1 <= PyDate.month today <= 12 ->
  1 <= PyDate.day today ->
  dashboard today None st = dashboard today (Some (PyDate.year_month today)) st
  /\ dashboard today (Some "") st = dashboard today (Some (PyDate.year_month today)) st
  /\ (PyDate.year today = 9999 /\ PyDate.month today = 12 ->
      dashboard today None st = Raise ValueError)
  /\ (PyDate.year today < 9999 \/ PyDate.month today < 12 ->
      exists end_,
        month_bounds today "" = Ok (PyDate.mk (PyDate.year today) (PyDate.month today) 1, end_)
        /\ month_bounds today (or_str None (PyDate.year_month today))
           = Ok (PyDate.mk (PyDate.year today) (PyDate.month today) 1, end_)
        /\ date_le (PyDate.mk (PyDate.year today) (PyDate.month today) 1) today
        /\ date_lt today end_).
Proof.
  intros Hy Hm Hd.
  pose proof (month_bounds_of_year_month today _ _ Hy Hm) as Hmb.
  fold (PyDate.year_month today) in Hmb.
  assert (Hnz : PyDate.year_month today <> "").
  { unfold PyDate.year_month, PyStr.of_int.
    destruct (PyDate.year today <? 0); [discriminate|].
    destruct (of_nonneg_spec (PyDate.year today) ltac:(lia)) as (_ & Hne & _).
    destruct (PyStr.of_nonneg (PyDate.year today)); [contradiction | discriminate]. }
  assert (Hor : or_str (Some (PyDate.year_month today)) (PyDate.year_month today)
                = PyDate.year_month today).
  { destruct (PyDate.year_month today); [contradiction | reflexivity]. }
  assert (Hempty : month_bounds today "" = month_bounds today (PyDate.year_month today)).
  { unfold month_bounds. simpl String.eqb.
    destruct (String.eqb_spec (PyDate.year_month today) ""); [contradiction | reflexivity]. }
  split; [unfold dashboard; rewrite Hor; reflexivity|].
  split; [unfold dashboard; rewrite Hor; reflexivity|].
  split.
  - intros [Ey Em]. unfold dashboard.
    change (or_str None (PyDate.year_month today)) with (PyDate.year_month today).
    unfold mbind at 1, M_bind, lift at 1. rewrite Hmb, Ey, Em. reflexivity.
  - intros Hnot. destruct today as [y m d]. simpl in *.
    exists (if m =? 12 then PyDate.mk (y + 1) 1 1 else PyDate.mk y (m + 1) 1).
    rewrite Hempty, Hmb.
    assert (Hres : (if m =? 12
                    then if y =? 9999 then Raise ValueError
                         else Ok (PyDate.mk y 12 1, PyDate.mk (y + 1) 1 1)
                    else Ok (PyDate.mk y m 1, PyDate.mk y (m + 1) 1))
                   = Ok (PyDate.mk y m 1,
                         if m =? 12 then PyDate.mk (y + 1) 1 1 else PyDate.mk y (m + 1) 1)).
    { destruct (Z.eqb_spec m 12) as [-> | _]; [|reflexivity].
      destruct (Z.eqb_spec y 9999); [lia | reflexivity]. }
    rewrite Hres. split; [reflexivity|]. split; [reflexivity|].
    unfold date_le, date_lt. simpl. split.
    + destruct (Z.eq_dec d 1) as [-> | Hd1]; [right; reflexivity | left; lia].
    + destruct (Z.eqb_spec m 12); simpl; lia.
Qed.

(** ** Replacing and counting characters *)

Lemma replace_char_subst (a b : ascii) (s : string) :
  PyStr.replace (String a "") (String b "") s = subst_char a b s.
Proof.
  unfold PyStr.replace. induction s as [|c s IH]; [reflexivity|].
  simpl. rewrite IH. destruct (Ascii.eqb a c); reflexivity.
Qed.

Lemma subst_char_absent (a b : ascii) (s : string) :
  has_char a s = false -> subst_char a b s = s.
Proof.
  induction s as [|c s IH]; simpl; [reflexivity|].
  intros H. apply orb_false_iff in H as [Hc Hs]. rewrite Hc, (IH Hs). reflexivity.
Qed.

Lemma subst_char_app (a b : ascii) (s t : string) :
  subst_char a b (s ++ t) = (subst_char a b s ++ subst_char a b t)%string.
Proof.
  induction s as [|c s IH]; [reflexivity|].
  rewrite append_cons. simpl. rewrite IH. reflexivity.
Qed.

Lemma has_char_subst_gone (a b : ascii) (s : string) :
  Ascii.eqb a b = false -> has_char a (subst_char a b s) = false.
Proof.
  intros Hab. induction s as [|c s IH]; simpl; [reflexivity|].
  rewrite IH, orb_false_r. destruct (Ascii.eqb a c) eqn:E; [exact Hab | exact E].
Qed.

Lemma has_char_subst_other (x a b : ascii) (s : string) :
  Ascii.eqb x b = false -> has_char x s = false -> has_char x (subst_char a b s) = false.
Proof.
  intros Hxb. induction s as [|c s IH]; simpl; [reflexivity|].
  intros H. apply orb_false_iff in H as [Hc Hs]. rewrite (IH Hs), orb_false_r.
  destruct (Ascii.eqb a c); assumption.
Qed.

(** A replacement leaves a stretch that lacks the first character of the
    pattern, and goes on after it. *)
Lemma replace_from_safe (a : ascii) (old' new s t : string) :
  has_char a s = false ->
  PyStr.replace_from (String a old') new 0 (s ++ t)
  = (s ++ PyStr.replace_from (String a old') new 0 t)%string.
Proof.
  induction s as [|c s IH]; intros H; [reflexivity|].
  simpl in H. apply orb_false_iff in H as [Hc Hs].
  rewrite !append_cons. simpl. rewrite Hc. simpl.
  rewrite (IH Hs). reflexivity.
Qed.

Lemma replace_absent (a : ascii) (old' new s : string) :
  has_char a s = false -> PyStr.replace (String a old') new s = s.
Proof.
  intros H. unfold PyStr.replace.
  rewrite <- (append_nil_r s) at 1. rewrite (replace_from_safe a old' new s "" H).
  simpl. apply append_nil_r.
Qed.

Lemma count_absent (a : ascii) (sub' s : string) :
  has_char a s = false -> PyStr.count (String a sub') s = 0.
Proof.
  unfold PyStr.count. induction s as [|c s IH]; simpl; [reflexivity|].
  intros H. apply orb_false_iff in H as [Hc Hs].
  rewrite Hc. simpl. apply IH, Hs.
Qed.

Lemma has_char_commas (c : ascii) (s : string) :
  Ascii.eqb c "," = false -> has_char c (PyStr.commas s) = has_char c s.
Proof.
  intros Hc. induction s as [|d s IH]; [reflexivity|].
  simpl. destruct (_ && _); simpl; rewrite ?Hc, IH; reflexivity.
Qed.

Lemma commas_short (s : string) : (String.length s <= 3)%nat -> PyStr.commas s = s.
Proof.
  intros H.
  destruct s as [|a [|b [|c [|d s]]]]; try reflexivity. simpl in H. lia.
Qed.

(** ** The text [moeda] writes *)

Lemma subst_char_chain (a b c : ascii) (s : string) :
  has_char b s = false -> subst_char b c (subst_char a b s) = subst_char a c s.
Proof.
  induction s as [|d s IH]; simpl; [reflexivity|].
  intros H. apply orb_false_iff in H as [Hd Hs]. rewrite (IH Hs).
  destruct (Ascii.eqb a d); [rewrite Ascii.eqb_refl | rewrite Hd]; reflexivity.
Qed.

Lemma grouped_chars (n : Z) (c : ascii) :
  0 <= n -> PyStr.is_digit c = false -> Ascii.eqb c "," = false ->
  has_char c (PyStr.grouped n) = false.
Proof.
  intros Hn Hd Hc. unfold PyStr.grouped. rewrite has_char_commas by exact Hc.
  apply has_char_digits; [exact Hd | apply of_nonneg_spec, Hn].
Qed.

Lemma pad2_chars (n : Z) (c : ascii) :
  0 <= n -> PyStr.is_digit c = false -> has_char c (PyStr.pad2 n) = false.
Proof.
  intros Hn Hd. apply has_char_digits; [exact Hd | apply pad2_spec, Hn].
Qed.

(** The text of [moeda], with the three replacements carried out. *)
Lemma moeda_shape (centavos : Z) :
  moeda centavos
  = ((if (centavos <? 0)%Z then "-" else "") ++ "R$ "
     ++ subst_char "," "." (PyStr.grouped (Z.abs centavos / 100))
     ++ "." ++ PyStr.pad2 (Z.abs centavos mod 100))%string.
Proof.
  assert (Hr : 0 <= Z.abs centavos / 100) by (apply Z.div_pos; lia).
  assert (Hc : 0 <= Z.abs centavos mod 100) by (apply Z.mod_pos_bound; lia).
  set (G := PyStr.grouped (Z.abs centavos / 100)) in *.
  set (cc := PyStr.pad2 (Z.abs centavos mod 100)) in *.
  assert (HG : forall c, PyStr.is_digit c = false -> Ascii.eqb c "," = false ->
                         has_char c G = false)
    by (intros c; apply grouped_chars; exact Hr).
  assert (Hcc : forall c, PyStr.is_digit c = false -> has_char c cc = false)
    by (intros c; apply pad2_chars; exact Hc).
  assert (Hbody : forall sign : string,
             has_char "," sign = false -> has_char "." sign = false ->
             has_char "X" sign = false ->
             subst_char "X" "."
               (subst_char "." "," (subst_char "," "X" (sign ++ (G ++ String "," cc))))
             = (sign ++ (subst_char "," "." G ++ String "." cc))%string).
  { intros sign H1 H2 H3.
    rewrite !subst_char_app. simpl (subst_char "," "X" (String "," cc)).
    rewrite (subst_char_absent "," "X" sign) by exact H1.
    rewrite (subst_char_absent "." "," sign) by exact H2.
    rewrite (subst_char_absent "X" "." sign) by exact H3.
    rewrite (subst_char_absent "," "X" cc) by (apply Hcc; reflexivity).
    simpl (subst_char "." "," (String "X" cc)).
    rewrite (subst_char_absent "." "," cc) by (apply Hcc; reflexivity).
    rewrite (subst_char_absent "." "," (subst_char "," "X" G))
      by (apply has_char_subst_other; [reflexivity | apply HG; reflexivity]).
    rewrite subst_char_chain by (apply HG; reflexivity).
    simpl (subst_char "X" "." (String "X" cc)).
    rewrite (subst_char_absent "X" "." cc) by (apply Hcc; reflexivity).
    reflexivity. }
  unfold moeda. fold G. fold cc. rewrite !replace_char_subst.
  destruct (centavos <? 0).
  - apply (Hbody "-R$ "); reflexivity.
  - apply (Hbody "R$ "); reflexivity.
Qed.

(** X11. For every amount, [moeda] writes the sign, "R$ ", the reais in
    groups of three digits and the two digits of the cents, with a period
    between the groups and a period, not a comma, before the cents: its
    text never holds a comma. *)
Theorem moeda_text (centavos : Z) :
  moeda centavos
  = ((if (centavos <? 0)%Z then "-" else "") ++ "R$ "
     ++ subst_char "," "." (PyStr.grouped (Z.abs centavos / 100))
     ++ "." ++ PyStr.pad2 (Z.abs centavos mod 100))%string
  /\ has_char "," (moeda centavos) = false.
Proof.
  split; [apply moeda_shape|]. rewrite moeda_shape.
  assert (Hc : 0 <= Z.abs centavos mod 100) by (apply Z.mod_pos_bound; lia).
  rewrite !has_char_app, has_char_subst_gone by reflexivity.
  rewrite (pad2_chars _ "," Hc eq_refl).
  destruct (centavos <? 0); reflexivity.
Qed.

(** ** Reading back the text of [moeda] *)

Lemma digit_val_range (c : ascii) :
  PyStr.is_digit c = true -> 0 <= PyStr.digit_val c <= 9.
Proof.
  unfold PyStr.is_digit, PyStr.digit_val. intros H.
  apply andb_true_iff in H as [H1 H2].
  apply N.leb_le in H1. apply N.leb_le in H2. lia.
Qed.

Lemma digits_value_bounds (s : string) :
  all_digits s = true ->
  forall a, a * 10 ^ Z.of_nat (String.length s) <= digits_value s a
            < (a + 1) * 10 ^ Z.of_nat (String.length s).
Proof.
  induction s as [|c s IH]; intros H a.
  - simpl. lia.
  - simpl in H. apply andb_true_iff in H as [Hc Hs].
    pose proof (digit_val_range c Hc) as Hd.
    specialize (IH Hs (10 * a + PyStr.digit_val c)).
    change (digits_value (String c s) a)
      with (digits_value s (10 * a + PyStr.digit_val c)).
    change (String.length (String c s)) with (S (String.length s)).
    rewrite Nat2Z.inj_succ, Z.pow_succ_r by lia.
    assert (0 < 10 ^ Z.of_nat (String.length s)) by (apply Z.pow_pos_nonneg; lia).
    nia.
Qed.

Lemma of_nonneg_length (n : Z) (k : nat) :
  0 <= n ->
  (n < 10 ^ Z.of_nat (S k) -> (String.length (PyStr.of_nonneg n) <= S k)%nat)
  /\ (10 ^ Z.of_nat k <= n -> (k < String.length (PyStr.of_nonneg n))%nat).
Proof.
  intros Hn. destruct (of_nonneg_spec n Hn) as (Hall & Hne & Hval & Hlow).
  pose proof (digits_value_bounds _ Hall 0) as Hb. rewrite Hval in Hb.
  split.
  - intros Hlt. destruct Hlow as [Hlow | Hone]; [|lia].
    assert (Z.of_nat (String.length (PyStr.of_nonneg n)) - 1 < Z.of_nat (S k)).
    { apply (Z.pow_lt_mono_r_iff 10); lia. }
    lia.
  - intros Hge.
    assert (Z.of_nat k < Z.of_nat (String.length (PyStr.of_nonneg n))).
    { apply (Z.pow_lt_mono_r_iff 10); lia. }
    lia.
Qed.

Lemma pad2_length (n : Z) : 0 <= n < 100 -> String.length (PyStr.pad2 n) = 2%nat.
Proof.
  intros Hn. unfold PyStr.pad2.
  destruct (Z.ltb_spec n 10) as [Hlt | Hge].
  - destruct (of_nonneg_length n 0 ltac:(lia)) as [Hle _].
    destruct (of_nonneg_spec n ltac:(lia)) as (_ & Hne & _).
    specialize (Hle ltac:(simpl; lia)).
    destruct (PyStr.of_nonneg n) as [|c s]; [contradiction|]. simpl in *. lia.
  - destruct (of_nonneg_length n 1 ltac:(lia)) as [Hle Hgt].
    specialize (Hle ltac:(simpl; lia)). specialize (Hgt ltac:(simpl; lia)). lia.
Qed.

Lemma take_digits_app (g r : string) :
  all_digits g = true ->
  (forall c r', r = String c r' -> PyStr.is_digit c = false) ->
  forall acc k,
    PyStr.take_digits (g ++ r) acc k
    = (digits_value g acc, k + Z.of_nat (String.length g), r).
Proof.
  intros Hg Hr. induction g as [|c g IH]; intros acc k.
  - rewrite append_nil_l. simpl (String.length ""). rewrite Z.add_0_r.
    destruct r as [|c r']; [reflexivity|].
    simpl. rewrite (Hr c r' eq_refl). reflexivity.
  - simpl in Hg. apply andb_true_iff in Hg as [Hc Hs].
    rewrite append_cons. simpl. rewrite Hc, (IH Hs).
    f_equal. f_equal. lia.
Qed.

Lemma parse_number_point (neg : bool) (g1 g2 : string) :
  all_digits g1 = true -> all_digits g2 = true -> g1 <> "" ->
  PyDecimal.parse_number neg (g1 ++ String "." g2)
  = Some (PyDecimal.Finite neg
            (digits_value g1 0 * 10 ^ Z.of_nat (String.length g2) + digits_value g2 0)
            (0 - Z.of_nat (String.length g2))).
Proof.
  intros H1 H2 Hne. unfold PyDecimal.parse_number.
  rewrite (take_digits_app g1 (String "." g2) H1)
    by (intros c r' E; inversion E; reflexivity).
  pose proof (take_digits_app g2 "" H2) as Ht. rewrite append_nil_r in Ht.
  rewrite Ht by (intros c r' E; discriminate E).
  assert (Hpos : (0 <? 0 + Z.of_nat (String.length g1) + (0 + Z.of_nat (String.length g2)))
                 = true).
  { apply Z.ltb_lt. destruct g1; [contradiction|]. simpl String.length. lia. }
  rewrite Hpos. reflexivity.
Qed.

Lemma parse_number_points (neg : bool) (g1 g2 r : string) :
  all_digits g1 = true -> all_digits g2 = true ->
  PyDecimal.parse_number neg (g1 ++ String "." (g2 ++ String "." r)) = None.
Proof.
  intros H1 H2. unfold PyDecimal.parse_number.
  rewrite (take_digits_app g1 _ H1) by (intros c r' E; inversion E; reflexivity).
  rewrite (take_digits_app g2 _ H2) by (intros c r' E; inversion E; reflexivity).
  destruct (0 <? _); reflexivity.
Qed.

(** The groups of [commas]: a first group of digits, then nothing when
    the text has at most three digits, a comma and the groups of the rest
    otherwise. *)
Lemma commas_split (s : string) :
  all_digits s = true -> s <> "" ->
  exists g t,
    PyStr.commas s = (g ++ t)%string /\ all_digits g = true /\ g <> ""
    /\ (((String.length s <= 3)%nat /\ t = "")
        \/ ((3 < String.length s)%nat
            /\ exists s', t = String "," (PyStr.commas s')
                          /\ all_digits s' = true /\ s' <> "")).
Proof.
  induction s as [|c s IH]; intros Hall Hne; [contradiction|].
  simpl in Hall. apply andb_true_iff in Hall as [Hc Hs].
  destruct s as [|c' s'].
  - exists (String c ""), "". simpl. rewrite Hc. repeat split; try discriminate.
    left. split; [lia | reflexivity].
  - set (s := String c' s') in *.
    assert (Hs' : s <> "") by discriminate.
    change (PyStr.commas (String c s))
      with (String c (if negb (Nat.eqb (String.length s) 0)
                         && Nat.eqb (Nat.modulo (String.length s) 3) 0
                      then String "," (PyStr.commas s) else PyStr.commas s)).
    change (String.length (String c s)) with (S (String.length s)).
    assert (Hlen : String.length s <> 0%nat) by (subst s; simpl; lia).
    destruct (Nat.eqb_spec (String.length s) 0) as [E0 | _]; [contradiction|].
    simpl negb. rewrite andb_true_l.
    destruct (Nat.eqb_spec (Nat.modulo (String.length s) 3) 0) as [E3 | N3].
    + exists (String c ""), (String "," (PyStr.commas s)).
      simpl all_digits. rewrite Hc. repeat split; try discriminate.
      right. split.
      * apply Nat.Div0.mod_divides in E3 as [q Hq]. lia.
      * exists s. repeat split; assumption.
    + destruct (IH Hs Hs') as (g & t & Heq & Hg & Hgne & Ht).
      exists (String c g), t. rewrite Heq, append_cons. simpl all_digits.
      rewrite Hc, Hg. repeat split; try discriminate.
      destruct Ht as [[Hle Ht] | [Hgt Ht]].
      * left. split; [|exact Ht].
        destruct (String.length s) as [|[|[|[|k]]]]; simpl in N3; try lia.
      * right. split; [lia | exact Ht].
Qed.

(** The reais part of [moeda]'s text, from four digits on, holds a period
    after its first group and ends its second group with the end of the
    text or another period. *)
Lemma grouped_points (s : string) :
  all_digits s = true -> (3 < String.length s)%nat ->
  exists g1 g2 r,
    subst_char "," "." (PyStr.commas s) = (g1 ++ String "." (g2 ++ r))%string
    /\ all_digits g1 = true /\ g1 <> "" /\ all_digits g2 = true
    /\ (r = "" \/ exists r', r = String "." r').
Proof.
  intros Hall Hlen.
  assert (Hne : s <> "") by (destruct s; [simpl in Hlen; lia | discriminate]).
  destruct (commas_split s Hall Hne) as (g1 & t & Heq & Hg1 & Hg1ne & Ht).
  destruct Ht as [[Hle _] | [_ (s' & Ht & Hs' & Hs'ne)]]; [lia|].
  destruct (commas_split s' Hs' Hs'ne) as (g2 & t2 & Heq2 & Hg2 & _ & Ht2).
  exists g1, g2, (subst_char "," "." t2).
  rewrite Heq, Ht, Heq2, subst_char_app. simpl subst_char.
  rewrite subst_char_app.
  rewrite (subst_char_absent "," "." g1) by (apply has_char_digits; [reflexivity | exact Hg1]).
  rewrite (subst_char_absent "," "." g2) by (apply has_char_digits; [reflexivity | exact Hg2]).
  repeat split; try assumption.
  destruct Ht2 as [[_ ->] | [_ (s'' & -> & _)]]; [left; reflexivity|].
  right. eexists. reflexivity.
Qed.

Lemma sign_of_digit (d : ascii) (rest : string) :
  PyStr.is_digit d = true ->
  match String d rest with
  | String "-" r => (true, r)
  | String "+" r => (false, r)
  | _ => (false, String d rest)
  end = (false, String d rest).
Proof.
  intros H. destruct d as [[] [] [] [] [] [] [] []]; try discriminate H; reflexivity.
Qed.

(** [Decimal] on a signed text that starts with a digit. *)
Lemma decimal_of_text (neg : bool) (d : ascii) (rest : string) :
  PyStr.is_digit d = true ->
  PyStr.rstrip (String d rest) = String d rest ->
  has_char "_" (String d rest) = false ->
  PyDecimal.of_string ((if neg then "-" else "") ++ String d rest)
  = PyDecimal.parse_number neg (String d rest).
Proof.
  intros Hd Hr Hu. unfold PyDecimal.of_string.
  assert (Hstrip : PyStr.strip ((if neg then "-" else "") ++ String d rest)
                   = ((if neg then "-" else "") ++ String d rest)%string).
  { unfold PyStr.strip. destruct neg.
    - change ("-" ++ String d rest)%string with (String "-" (String d rest)).
      rewrite lstrip_id by reflexivity.
      change (String "-" (String d rest)) with ("-" ++ String d rest)%string.
      apply rstrip_app; [discriminate | exact Hr].
    - rewrite append_nil_l, lstrip_id by (apply digit_not_space, Hd). exact Hr. }
  rewrite Hstrip.
  assert (Hrep : PyStr.replace "_" "" ((if neg then "-" else "") ++ String d rest)
                 = ((if neg then "-" else "") ++ String d rest)%string).
  { apply replace_absent. rewrite has_char_app, Hu. destruct neg; reflexivity. }
  rewrite Hrep. destruct neg.
  - change ("-" ++ String d rest)%string with (String "-" (String d rest)).
    cbv beta iota. rewrite Hd. reflexivity.
  - rewrite append_nil_l, (sign_of_digit d rest Hd). cbv beta iota.
    rewrite Hd. reflexivity.
Qed.

(** Dropping "R$" and the blanks from a text "R$ ...". *)
Lemma strip_currency (neg : bool) (B : string) :
  has_char "R" B = false -> has_char " " B = false ->
  PyStr.replace " " "" (PyStr.replace "R$" "" ((if neg then "-" else "") ++ "R$ " ++ B))
  = ((if neg then "-" else "") ++ B)%string.
Proof.
  intros HR Hsp.
  pose proof (replace_absent "R" "$" "" B HR) as H1.
  pose proof (replace_absent " " "" "" B Hsp) as H2.
  unfold PyStr.replace in *. destruct neg.
  - change ("-" ++ "R$ " ++ B)%string
      with (String "-" (String "R" (String "$" (String " " B)))).
    simpl. rewrite ?append_nil_l, H1. simpl. rewrite ?append_nil_l, H2. reflexivity.
  - change ("" ++ "R$ " ++ B)%string
      with (String "R" (String "$" (String " " B))).
    simpl. rewrite ?append_nil_l, H1. simpl. rewrite ?append_nil_l, H2. reflexivity.
Qed.

(** What [parse_valor_to_centavos] strips from a text "R$ ..." before it
    builds the Decimal. *)
Lemma parse_valor_of_text (neg : bool) (d : ascii) (rest : string) :
  PyStr.is_digit d = true ->
  PyStr.rstrip (String d rest) = String d rest ->
  (forall c, PyStr.is_digit c = false -> Ascii.eqb c "." = false ->
             has_char c (String d rest) = false) ->
  parse_valor_to_centavos ((if neg then "-" else "") ++ "R$ " ++ String d rest)
  = (dec ← try_except (of_option InvalidOperation
                         (PyDecimal.parse_number neg (String d rest)))
                      PyDecimal.zero;
     p ← PyDecimal.mul_int dec 100;
     PyDecimal.to_int p).
Proof.
  intros Hd Hr Hc. set (B := String d rest) in *.
  assert (Hne : B <> "") by discriminate.
  unfold parse_valor_to_centavos.
  assert (Hstrip : PyStr.strip ((if neg then "-" else "") ++ "R$ " ++ B)
                   = ((if neg then "-" else "") ++ "R$ " ++ B)%string).
  { unfold PyStr.strip.
    assert (Hl : PyStr.lstrip ((if neg then "-" else "") ++ "R$ " ++ B)
                 = ((if neg then "-" else "") ++ "R$ " ++ B)%string)
      by (destruct neg; reflexivity).
    rewrite Hl.
    replace ((if neg then "-" else "") ++ "R$ " ++ B)%string
      with (((if neg then "-" else "") ++ "R$ ") ++ B)%string
      by (destruct neg; reflexivity).
    apply rstrip_app; assumption. }
  rewrite Hstrip.
  rewrite (strip_currency neg B (Hc "R"%char eq_refl eq_refl) (Hc " "%char eq_refl eq_refl)).
  assert (Hcomma : has_char "," ((if neg then "-" else "") ++ B) = false).
  { rewrite has_char_app, (Hc ","%char eq_refl eq_refl). destruct neg; reflexivity. }
  rewrite (count_absent "," "" _ Hcomma).
  change ((0 =? 1) && (1 <=? PyStr.count "." ((if neg then "-" else "") ++ B)))
    with false.
  cbv beta iota.
  rewrite (replace_absent "," "" "." _ Hcomma).
  subst B. rewrite decimal_of_text; [reflexivity | exact Hd | exact Hr |].
  apply Hc; reflexivity.
Qed.

Lemma subst_char_cons (a b c : ascii) (s : string) :
  subst_char a b (String c s)
  = String (if Ascii.eqb a c then b else c) (subst_char a b s).
Proof. reflexivity. Qed.

Lemma grouped_head (s : string) :
  all_digits s = true -> s <> "" ->
  exists d rest,
    subst_char "," "." (PyStr.commas s) = String d rest /\ PyStr.is_digit d = true.
Proof.
  intros Hall Hne. destruct s as [|c s]; [contradiction|].
  simpl in Hall. apply andb_true_iff in Hall as [Hc _].
  destruct (PyStr.commas (String c s)) as [|c' t] eqn:E; [discriminate E|].
  assert (c' = c) by (simpl in E; congruence). subst c'.
  rewrite subst_char_cons.
  destruct (Ascii.eqb "," c) eqn:Ec.
  - apply Ascii.eqb_eq in Ec. subst c. discriminate Hc.
  - eexists _, _. split; [reflexivity | exact Hc].
Qed.

(** [int(d * 100)] for a Decimal [d] with two decimals. *)
Lemma cents_of_decimal (neg : bool) (m : Z) :
  0 <= m < 10 ^ 26 ->
  (p ← PyDecimal.mul_int (PyDecimal.Finite neg m (-2)) 100; PyDecimal.to_int p)
  = Ok (if neg then - m else m).
Proof.
  intros Hm. unfold PyDecimal.mul_int.
  change (xorb neg (100 <? 0)) with (xorb neg false). rewrite xorb_false_r.
  change (Z.abs 100) with 100. unfold PyDecimal.fix_finite.
  destruct (Z.eqb_spec (m * 100) 0) as [E0 | Hnz].
  - assert (m = 0) by lia. subst m. destruct neg; reflexivity.
  - destruct (of_nonneg_length (m * 100) 27 ltac:(lia)) as [Hle _].
    specialize (Hle ltac:(change (10 ^ Z.of_nat 28) with (10 ^ 26 * 100); lia)).
    unfold PyDecimal.ndigits.
    set (len := Z.of_nat (String.length (PyStr.of_nonneg (m * 100)))) in *.
    assert (Hlen : len <= 28) by lia.
    unfold PyDecimal.Etop, PyDecimal.Etiny, PyDecimal.Emax, PyDecimal.prec.
    destruct (Z.ltb_spec (999999 - 28 + 1) (len + -2 - 28)) as [Hbad | _]; [lia|].
    destruct (Z.ltb_spec (-2) (Z.max (len + -2 - 28) (-999999 - 28 + 1))) as [Hbad | _];
      [lia|].
    unfold mbind, result_bind, PyDecimal.to_int.
    change (0 <=? -2) with false. cbv beta iota.
    change (10 ^ (- -2)) with 100. rewrite Z.div_mul by lia. reflexivity.
Qed.

(** X12. Read back by [parse_valor_to_centavos], the text [moeda] writes
    for an amount gives the amount when it is below R$ 1,000.00 in
    absolute value, and 0 for every other amount: from four digits of
    reais on the text holds two periods, which is no Decimal. *)
Theorem parse_of_moeda (centavos : Z) :
  parse_valor_to_centavos (moeda centavos)
  = Ok (if Z.abs centavos <? 100000 then centavos else 0).
Proof.
  rewrite moeda_shape.
  assert (Hr : 0 <= Z.abs centavos / 100) by (apply Z.div_pos; lia).
  assert (Hc : 0 <= Z.abs centavos mod 100 < 100) by (apply Z.mod_pos_bound; lia).
  pose proof (Z.div_mod (Z.abs centavos) 100 ltac:(lia)) as Hdm.
  set (reais := Z.abs centavos / 100) in *.
  set (c := Z.abs centavos mod 100) in *.
  destruct (of_nonneg_spec reais Hr) as (Hall & Hne & Hval & _).
  destruct (pad2_spec c ltac:(lia)) as (Hcall & Hcne & Hcval).
  pose proof (pad2_length c Hc) as Hclen.
  unfold PyStr.grouped.
  set (ds := PyStr.of_nonneg reais) in *. set (cc := PyStr.pad2 c) in *.
  set (W := subst_char "," "." (PyStr.commas ds)).
  destruct (grouped_head ds Hall Hne) as (d & rest & HW & Hd). fold W in HW.
  assert (HWc : forall x, PyStr.is_digit x = false -> Ascii.eqb x "." = false ->
                          has_char x W = false).
  { intros x Hx Hp. unfold W. destruct (Ascii.eqb_spec x ",") as [-> | Hn].
    - apply has_char_subst_gone. reflexivity.
    - apply has_char_subst_other; [exact Hp|].
      rewrite has_char_commas by (apply Ascii.eqb_neq, Hn).
      apply has_char_digits; assumption. }
  assert (Htext : parse_valor_to_centavos
                    ((if centavos <? 0 then "-" else "") ++ "R$ " ++ W ++ "." ++ cc)
                  = (dec ← try_except (of_option InvalidOperation
                                         (PyDecimal.parse_number (centavos <? 0)
                                            (W ++ String "." cc)))
                                      PyDecimal.zero;
                     p ← PyDecimal.mul_int dec 100;
                     PyDecimal.to_int p)).
  { rewrite HW in *.
    change (String d rest ++ "." ++ cc)%string with (String d (rest ++ String "." cc)).
    change (String d rest ++ String "." cc)%string with (String d (rest ++ String "." cc)).
    apply parse_valor_of_text; [exact Hd | |].
    - assert (Hform : String d (rest ++ String "." cc)
                      = ((String d rest ++ ".") ++ cc)%string)
        by (rewrite append_assoc; reflexivity).
      rewrite Hform. apply rstrip_app; [exact Hcne | apply rstrip_digits, Hcall].
    - intros x Hx Hp.
      change (String d (rest ++ String "." cc))
        with (String d rest ++ String "." cc)%string.
      rewrite has_char_app, (HWc x Hx Hp). simpl. rewrite Hp.
      apply has_char_digits; assumption. }
  rewrite Htext. clear Htext HW HWc.
  destruct (Z.ltb_spec (Z.abs centavos) 100000) as [Hsmall | Hlarge].
  - destruct (of_nonneg_length reais 2 Hr) as [Hle _].
    specialize (Hle ltac:(change (10 ^ Z.of_nat 3) with 1000; lia)). fold ds in Hle.
    unfold W. rewrite (commas_short ds Hle).
    rewrite (subst_char_absent "," "." ds)
      by (apply has_char_digits; [reflexivity | exact Hall]).
    rewrite (parse_number_point _ ds cc Hall Hcall Hne), Hval, Hcval, Hclen.
    change (10 ^ Z.of_nat 2) with 100. change (0 - Z.of_nat 2) with (-2).
    replace (0 * 10 ^ Z.of_nat (String.length ds) + reais) with reais by lia.
    replace (reais * 100 + c) with (Z.abs centavos) by lia.
    change (try_except (of_option InvalidOperation
                          (Some (PyDecimal.Finite (centavos <? 0) (Z.abs centavos) (-2))))
                       PyDecimal.zero)
      with (Ok (PyDecimal.Finite (centavos <? 0) (Z.abs centavos) (-2))).
    change (dec ← Ok (PyDecimal.Finite (centavos <? 0) (Z.abs centavos) (-2));
            p ← PyDecimal.mul_int dec 100; PyDecimal.to_int p)
      with (p ← PyDecimal.mul_int (PyDecimal.Finite (centavos <? 0) (Z.abs centavos) (-2)) 100;
            PyDecimal.to_int p).
    rewrite cents_of_decimal by (change (10 ^ 26) with 100000000000000000000000000; lia).
    f_equal. destruct (Z.ltb_spec centavos 0); lia.
  - destruct (of_nonneg_length reais 3 Hr) as [_ Hgt].
    specialize (Hgt ltac:(change (10 ^ Z.of_nat 3) with 1000; lia)). fold ds in Hgt.
    destruct (grouped_points ds Hall Hgt) as (g1 & g2 & r & HW & Hg1 & _ & Hg2 & Hr').
    fold W in HW. rewrite HW.
    assert (Hpts : exists r'', ((g1 ++ String "." (g2 ++ r)) ++ String "." cc)%string
                               = (g1 ++ String "." (g2 ++ String "." r''))%string).
    { destruct Hr' as [-> | (r' & ->)].
      - exists cc. rewrite append_nil_r, append_assoc. reflexivity.
      - exists (r' ++ String "." cc)%string.
        rewrite append_assoc. rewrite append_cons, append_assoc. reflexivity. }
    destruct Hpts as (r'' & ->).
    rewrite (parse_number_points _ g1 g2 r'' Hg1 Hg2). reflexivity.
Qed.

(** ** Dates as text *)

Lemma zeros_spec (k : nat) :
  all_digits (PyDateText.zeros k) = true
  /\ String.length (PyDateText.zeros k) = k
  /\ forall s a, digits_value (PyDateText.zeros k ++ s) a = digits_value s (a * 10 ^ Z.of_nat k).
Proof.
  induction k as [|k (IH1 & IH2 & IH3)].
  - repeat split. intros s a. rewrite append_nil_l. f_equal. simpl. lia.
  - split; [exact IH1|]. split; [simpl; rewrite IH2; reflexivity|].
    intros s a. change (PyDateText.zeros (S k)) with (String "0" (PyDateText.zeros k)).
    rewrite append_cons. simpl digits_value. rewrite IH3. f_equal.
    replace (PyStr.digit_val "0") with 0 by reflexivity.
    rewrite Nat2Z.inj_succ, Z.pow_succ_r by lia. lia.
Qed.

(** The digits of [str(n)], whatever the sign of [n]. *)
Lemma of_nonneg_digits (n : Z) : all_digits (PyStr.of_nonneg n) = true.
Proof.
  destruct (Z.le_gt_cases 0 n) as [Hn | Hn]; [apply of_nonneg_spec, Hn|].
  unfold PyStr.of_nonneg. rewrite Z.log2_nonpos by lia. simpl.
  destruct (Z.ltb_spec n 10) as [_ | Hbad]; [|lia].
  simpl. rewrite andb_true_r.
  apply digit_char_spec. apply Z.mod_pos_bound. lia.
Qed.

Lemma zfill_digits (w : nat) (n : Z) : all_digits (PyDateText.zfill w n) = true.
Proof.
  unfold PyDateText.zfill. rewrite all_digits_app, of_nonneg_digits.
  rewrite (proj1 (zeros_spec _)). reflexivity.
Qed.

Lemma zfill_spec (w : nat) (n : Z) :
  0 <= n < 10 ^ Z.of_nat (S w) ->
  String.length (PyDateText.zfill (S w) n) = S w
  /\ digits_value (PyDateText.zfill (S w) n) 0 = n.
Proof.
  intros Hn. unfold PyDateText.zfill.
  destruct (of_nonneg_length n w ltac:(lia)) as [Hle _]. specialize (Hle ltac:(lia)).
  destruct (of_nonneg_spec n ltac:(lia)) as (_ & _ & Hval & _).
  destruct (zeros_spec (S w - String.length (PyStr.of_nonneg n))) as (_ & Hlen & Hv).
  split.
  - rewrite string_length_app, Hlen. lia.
  - rewrite Hv, Hval. lia.
Qed.

(** From 1000 on [str(y)] has the four digits of [%04d]. *)
Lemma of_int_zfill4 (y : Z) :
  1000 <= y <= 9999 -> PyStr.of_int y = PyDateText.zfill 4 y.
Proof.
  intros Hy. unfold PyStr.of_int, PyDateText.zfill.
  destruct (Z.ltb_spec y 0) as [Hbad | _]; [lia|].
  destruct (of_nonneg_length y 3 ltac:(lia)) as [Hle Hgt].
  specialize (Hle ltac:(change (10 ^ Z.of_nat 4) with 10000; lia)).
  specialize (Hgt ltac:(change (10 ^ Z.of_nat 3) with 1000; lia)).
  replace (4 - String.length (PyStr.of_nonneg y))%nat with 0%nat by lia.
  reflexivity.
Qed.

Lemma year_field_zfill (y : Z) (r : string) :
  0 <= y <= 9999 ->
  PyDate.year_field (PyDateText.zfill 4 y ++ r) = Some (y, r).
Proof.
  intros Hy.
  destruct (zfill_spec 3 y ltac:(change (10 ^ Z.of_nat 4) with 10000; lia)) as [Hlen Hval].
  pose proof (zfill_digits 4 y) as Hall.
  destruct (PyDateText.zfill 4 y) as [|a [|b [|c [|d [|e s]]]]]; try discriminate Hlen.
  simpl in Hall.
  apply andb_true_iff in Hall as [Ha Hall]. apply andb_true_iff in Hall as [Hb Hall].
  apply andb_true_iff in Hall as [Hc Hall]. apply andb_true_iff in Hall as [Hd _].
  simpl in Hval. rewrite !append_cons, append_nil_l.
  unfold PyDate.year_field. rewrite Ha, Hb, Hc, Hd. simpl. f_equal. f_equal. lia.
Qed.

Lemma range_cases (lo n : nat) (x : Z) :
  Z.of_nat lo <= x < Z.of_nat lo + Z.of_nat n -> In x (map Z.of_nat (seq lo n)).
Proof.
  intros H. apply in_map_iff. exists (Z.to_nat x). split; [lia|].
  apply in_seq. lia.
Qed.

Lemma month_field_zfill (m : Z) (r : string) :
  1 <= m <= 12 ->
  PyDate.month_field (PyDateText.zfill 2 m ++ String "-" r) = Some (m, r).
Proof.
  intros Hm. pose proof (range_cases 1 12 m ltac:(lia)) as Hin. simpl in Hin.
  repeat (destruct Hin as [<- | Hin]; [reflexivity|]). contradiction.
Qed.

Lemma day_field_zfill (d : Z) :
  1 <= d <= 31 -> PyDate.day_field (PyDateText.zfill 2 d) = Some d.
Proof.
  intros Hd. pose proof (range_cases 1 31 d ltac:(lia)) as Hin. simpl in Hin.
  repeat (destruct Hin as [<- | Hin]; [reflexivity|]). contradiction.
Qed.

Lemma valid_date_range (d : PyDate.date) :
  valid_date d ->
  1 <= PyDate.year d <= 9999 /\ 1 <= PyDate.month d <= 12
  /\ 1 <= PyDate.day d <= 31.
Proof.
  unfold valid_date, PyDate.make. intros H.
  destruct (negb _); [discriminate H|].
  destruct (_ && _) eqn:E in H; [|discriminate H].
  repeat (apply andb_true_iff in E as [E ?]).
  assert (PyDate.days_in_month (PyDate.year d) (PyDate.month d) <= 31).
  { unfold PyDate.days_in_month.
    repeat match goal with |- context [if ?b then _ else _] => destruct b end; lia. }
  lia.
Qed.

Lemma strptime_fields (d : PyDate.date) (y m : Z) :
  0 <= y <= 9999 -> 1 <= m <= 12 -> 1 <= PyDate.day d <= 31 ->
  PyDate.strptime (PyDateText.zfill 4 y ++ "-" ++ PyDateText.zfill 2 m
                   ++ "-" ++ PyDateText.zfill 2 (PyDate.day d))
  = match PyDate.make y m (PyDate.day d) with
    | Ok dt => Some dt
    | _ => None
    end.
Proof.
  intros Hy Hm Hd. unfold PyDate.strptime.
  rewrite (year_field_zfill y _ Hy). simpl. rewrite append_nil_l.
  change ("-" ++ PyDateText.zfill 2 (PyDate.day d))%string
    with (String "-" (PyDateText.zfill 2 (PyDate.day d))).
  rewrite (month_field_zfill m _ Hm). simpl.
  rewrite (day_field_zfill _ Hd). reflexivity.
Qed.

Lemma strptime_isoformat (d : PyDate.date) :
  valid_date d -> PyDate.strptime (PyDateText.isoformat d) = Some d.
Proof.
  intros Hv. destruct (valid_date_range d Hv) as (Hy & Hm & Hd).
  unfold PyDateText.isoformat.
  rewrite (strptime_fields d (PyDate.year d) (PyDate.month d) ltac:(lia) Hm Hd). rewrite Hv. reflexivity.
Qed.

(** X13. A date of the calendar written by [isoformat] is read back by
    [strptime]: the default of a create form, the text of today, gives
    today. *)
Theorem isoformat_round_trip (d : PyDate.date) :
  valid_date d ->
  PyDate.strptime (PyDateText.isoformat d) = Some d
  /\ date_or_today d (Some (PyDateText.isoformat d)) = d.
Proof.
  intros Hv. pose proof (strptime_isoformat d Hv) as Hs.
  split; [exact Hs|].
  unfold date_or_today. destruct (PyDateText.isoformat d) as [|c r]; [discriminate Hs|].
  rewrite Hs. reflexivity.
Qed.

Lemma or_str_field (s : string) : or_str (Some s) "" = s.
Proof. destruct s; reflexivity. Qed.

Lemma strftime_Y_m_d (d : PyDate.date) :
  1000 <= PyDate.year d <= 9999 ->
  PyDateText.strftime "%Y-%m-%d" d = PyDateText.isoformat d.
Proof.
  intros Hy. unfold PyDateText.isoformat. rewrite <- (of_int_zfill4 _ Hy).
  change (PyDateText.strftime "%Y-%m-%d" d)
    with (PyStr.of_int (PyDate.year d)
          ++ "-" ++ PyDateText.zfill 2 (PyDate.month d)
          ++ "-" ++ PyDateText.zfill 2 (PyDate.day d) ++ "")%string.
  rewrite append_nil_r. reflexivity.
Qed.

Lemma strftime_Y_m_m (d : PyDate.date) :
  valid_date d -> 1000 <= PyDate.year d ->
  PyDate.strptime (PyDateText.strftime "%Y-%m-%m" d)
  = Some (PyDate.mk (PyDate.year d) (PyDate.month d) (PyDate.month d)).
Proof.
  intros Hv Hy. destruct (valid_date_range d Hv) as (Hy' & Hm & _).
  change (PyDateText.strftime "%Y-%m-%m" d)
    with (PyStr.of_int (PyDate.year d)
          ++ "-" ++ PyDateText.zfill 2 (PyDate.month d)
          ++ "-" ++ PyDateText.zfill 2 (PyDate.month d) ++ "")%string.
  rewrite append_nil_r, (of_int_zfill4 (PyDate.year d) ltac:(lia)).
  pose proof (strptime_fields
                (PyDate.mk (PyDate.year d) (PyDate.month d) (PyDate.month d))
                (PyDate.year d) (PyDate.month d) ltac:(lia) Hm ltac:(simpl; lia)) as H.
  simpl PyDate.day in H. rewrite H. clear H.
  unfold PyDate.make.
  assert (Hfit : forall z, 1 <= z <= 9999 -> PyDate.fits_c_int z = true).
  { intros z Hz. unfold PyDate.fits_c_int. apply andb_true_iff. split.
    - apply Z.leb_le. change (- 2 ^ 31) with (-2147483648). lia.
    - apply Z.ltb_lt. change (2 ^ 31) with 2147483648. lia. }
  rewrite (Hfit (PyDate.year d)), (Hfit (PyDate.month d)) by lia. simpl negb.
  assert (Hdim : 28 <= PyDate.days_in_month (PyDate.year d) (PyDate.month d)).
  { unfold PyDate.days_in_month.
    repeat match goal with |- context [if ?b then _ else _] => destruct b end; lia. }
  replace ((1 <=? PyDate.year d) && (PyDate.year d <=? 9999)
           && (1 <=? PyDate.month d) && (PyDate.month d <=? 12)
           && (1 <=? PyDate.month d)
           && (PyDate.month d <=? PyDate.days_in_month (PyDate.year d) (PyDate.month d)))
    with true; [reflexivity|].
  symmetry. repeat (apply andb_true_iff; split); apply Z.leb_le; lia.
Qed.

(** X14. Sent back as it is shown, the date field of the purchase edit
    form keeps the date of the purchase, and that of the invoice edit form
    keeps the due date.  The date field of the sale edit form holds the
    month in the place of the day: sent back as it is shown, it moves the
    sale to the day of the month whose number is the month. *)
Theorem edit_form_dates (id : Z) (form : gmap string string) (st st' : db) :
  (forall c0 c,
      edit_compra id st = Ok (c0, st) ->
      valid_date (Compra.data c0) -> 1000 <= PyDate.year (Compra.data c0) ->
      form !! "data" = Some (compra_edit_data c0) ->
      update_compra id form st = Ok (c, st') ->
      Compra.data c = Compra.data c0)
  /\ (forall v0 v,
         edit_venda id st = Ok (v0, st) ->
         valid_date (Venda.data v0) -> 1000 <= PyDate.year (Venda.data v0) ->
         form !! "data" = Some (venda_edit_data v0) ->
         update_venda id form st = Ok (v, st') ->
         Venda.data v = PyDate.mk (PyDate.year (Venda.data v0))
                          (PyDate.month (Venda.data v0))
                          (PyDate.month (Venda.data v0)))
  /\ (forall b0 b d,
         edit_boleto id st = Ok (b0, st) ->
         Boleto.vencimento b0 = Some d -> valid_date d -> 1000 <= PyDate.year d ->
         form !! "vencimento" = Some (boleto_edit_vencimento b0) ->
         update_boleto id form st = Ok (b, st') ->
         Boleto.vencimento b = Some d).
Proof.
  split; [|split].
  - intros c0 c He Hv Hy Hf Hu.
    apply get_or_404_Ok in He as [_ Hfind].
    apply update_compra_inv in Hu as (c1 & Hfind1 & Hc & _).
    rewrite Hfind in Hfind1. inversion Hfind1; subst c1.
    rewrite Hc. simpl. rewrite date_or_keep_spec, Hf, or_str_field.
    unfold compra_edit_data.
    destruct (valid_date_range _ Hv) as (Hy' & _).
    rewrite strftime_Y_m_d by lia.
    rewrite (strptime_isoformat _ Hv). reflexivity.
  - intros v0 v He Hv Hy Hf Hu.
    apply get_or_404_Ok in He as [_ Hfind].
    apply update_venda_inv in Hu as (v1 & Hfind1 & Hc & _).
    rewrite Hfind in Hfind1. inversion Hfind1; subst v1.
    rewrite Hc. simpl. rewrite date_or_keep_spec, Hf, or_str_field.
    unfold venda_edit_data. rewrite (strftime_Y_m_m _ Hv Hy). reflexivity.
  - intros b0 b d He Hd Hv Hy Hf Hu.
    apply get_or_404_Ok in He as [_ Hfind].
    apply update_boleto_inv in Hu as (b1 & Hfind1 & Hc & _).
    rewrite Hfind in Hfind1. inversion Hfind1; subst b1.
    rewrite Hc. simpl. rewrite vencimento_of_spec, Hf, or_str_field.
    unfold boleto_edit_vencimento. rewrite Hd.
    destruct (valid_date_range _ Hv) as (Hy' & _).
    rewrite strftime_Y_m_d by lia.
    apply (strptime_isoformat _ Hv).
Qed.

(** ** The CSV exports *)

Lemma count_char_app (a : ascii) (s t : string) :
  PyStr.count (String a "") (s ++ t)
  = PyStr.count (String a "") s + PyStr.count (String a "") t.
Proof.
  unfold PyStr.count. induction s as [|c s IH]; [reflexivity|].
  rewrite append_cons. simpl. rewrite IH.
  destruct (Ascii.eqb a c); simpl; lia.
Qed.

Lemma count_char_cons (a c : ascii) (s : string) :
  PyStr.count (String a "") (String c s)
  = (if Ascii.eqb a c then 1 else 0) + PyStr.count (String a "") s.
Proof.
  unfold PyStr.count. simpl. destruct (Ascii.eqb a c); reflexivity.
Qed.

Lemma of_int_chars (c : ascii) (n : Z) :
  PyStr.is_digit c = false -> Ascii.eqb c "-" = false ->
  has_char c (PyStr.of_int n) = false.
Proof.
  intros Hd Hm. unfold PyStr.of_int. destruct (n <? 0).
  - simpl. rewrite Hm. apply has_char_digits; [exact Hd | apply of_nonneg_digits].
  - apply has_char_digits; [exact Hd | apply of_nonneg_digits].
Qed.

Lemma date_isoformat_chars (c : ascii) (d : PyDate.date) :
  PyStr.is_digit c = false -> Ascii.eqb c "-" = false ->
  has_char c (PyDateText.isoformat d) = false.
Proof.
  intros Hd Hm. unfold PyDateText.isoformat.
  change ("-" ++ PyDateText.zfill 2 (PyDate.month d) ++ "-" ++ PyDateText.zfill 2 (PyDate.day d))%string
    with (String "-" (PyDateText.zfill 2 (PyDate.month d)
                      ++ String "-" (PyDateText.zfill 2 (PyDate.day d)))).
  rewrite has_char_app. simpl has_char. rewrite has_char_app. simpl has_char.
  rewrite !(has_char_digits c _ Hd (zfill_digits _ _)), Hm. reflexivity.
Qed.

Lemma datetime_isoformat_chars (c : ascii) (t : Z) :
  PyStr.is_digit c = false -> Ascii.eqb c "-" = false -> Ascii.eqb c "T" = false ->
  Ascii.eqb c ":" = false -> Ascii.eqb c "." = false ->
  has_char c (PyDateTime.isoformat t) = false.
Proof.
  intros Hd Hm HT Hc Hp. unfold PyDateTime.isoformat.
  set (us := t mod 1000000).
  assert (Hus : has_char c (if us =? 0 then "" else "." ++ PyDateText.zfill 6 us) = false).
  { destruct (us =? 0); [reflexivity|].
    change ("." ++ PyDateText.zfill 6 us)%string with (String "." (PyDateText.zfill 6 us)).
    simpl. rewrite Hp. apply has_char_digits; [exact Hd | apply zfill_digits]. }
  repeat (rewrite has_char_app; try rewrite (date_isoformat_chars c _ Hd Hm);
          try rewrite (has_char_digits c _ Hd (zfill_digits _ _)); simpl has_char).
  rewrite HT, Hc, Hus. reflexivity.
Qed.

Lemma str_or_empty_chars (c : ascii) (x : option Z) :
  PyStr.is_digit c = false -> Ascii.eqb c "-" = false ->
  has_char c (str_or_empty x) = false.
Proof.
  intros Hd Hm. destruct x as [n|]; [|reflexivity]. simpl.
  destruct (n =? 0); [reflexivity | apply of_int_chars; assumption].
Qed.

Lemma replace_comma_chars (c : ascii) (s : string) :
  Ascii.eqb c " " = false ->
  has_char c (PyStr.replace "," " " s)
  = if Ascii.eqb c "," then false else has_char c s.
Proof.
  intros Hsp. rewrite replace_char_subst.
  induction s as [|x s IH]; [destruct (Ascii.eqb c ","); reflexivity|].
  rewrite subst_char_cons.
  change (has_char c (String x s)) with (Ascii.eqb c x || has_char c s).
  match goal with
  | |- has_char c (String ?y ?t) = _ =>
      change (has_char c (String y t)) with (Ascii.eqb c y || has_char c t)
  end.
  rewrite IH. destruct (Ascii.eqb "," x) eqn:E.
  - apply Ascii.eqb_eq in E. subst x. rewrite Hsp.
    destruct (Ascii.eqb c ","); reflexivity.
  - destruct (Ascii.eqb c ",") eqn:Ec; [|reflexivity].
    apply Ascii.eqb_eq in Ec. subst c. rewrite E. reflexivity.
Qed.

Lemma join_cons (sep p q : string) (ps : list string) :
  join sep (p :: q :: ps) = (p ++ sep ++ join sep (q :: ps))%string.
Proof. reflexivity. Qed.

Lemma count_field (a : ascii) (p rest : string) :
  has_char a p = false ->
  PyStr.count (String a "") (p ++ String a "" ++ rest)
  = 1 + PyStr.count (String a "") rest.
Proof.
  intros H. rewrite count_char_app, (count_absent a "" p H).
  change (String a "" ++ rest)%string with (String a rest).
  rewrite count_char_cons, Ascii.eqb_refl. reflexivity.
Qed.

(** X15. Every line of the purchase export holds five commas and every
    line of the sale export six, whatever the product: the commas of the
    product are turned into blanks.  A line of the invoice export holds
    five commas and those of the status, which is written as it is. *)
Theorem csv_row_commas :
  (forall c, PyStr.count "," (compra_csv_row c) = 5)
  /\ (forall v, PyStr.count "," (venda_csv_row v) = 6)
  /\ (forall b, PyStr.count "," (boleto_csv_row b)
                = 5 + PyStr.count "," (Boleto.status b)).
Proof.
  assert (Hint : forall n, has_char "," (PyStr.of_int n) = false)
    by (intros n; apply of_int_chars; reflexivity).
  assert (Hrep : forall s, has_char "," (PyStr.replace "," " " s) = false)
    by (intros s; rewrite replace_comma_chars; reflexivity).
  assert (Hdate : forall d, has_char "," (PyDateText.isoformat d) = false)
    by (intros d; apply date_isoformat_chars; reflexivity).
  assert (Htime : forall t, has_char "," (PyDateTime.isoformat t) = false)
    by (intros t; apply datetime_isoformat_chars; reflexivity).
  assert (Hopt : forall x, has_char "," (str_or_empty x) = false)
    by (intros x; apply str_or_empty_chars; reflexivity).
  split; [|split].
  - intros c. unfold compra_csv_row. rewrite !join_cons.
    rewrite !count_field by auto.
    simpl join. rewrite (count_absent "," "" _ (Htime _)). reflexivity.
  - intros v. unfold venda_csv_row. rewrite !join_cons.
    rewrite !count_field by auto.
    simpl join. rewrite (count_absent "," "" _ (Htime _)). reflexivity.
  - intros b. unfold boleto_csv_row. cbv zeta. rewrite !join_cons.
    assert (Hvenc : has_char "," match Boleto.vencimento b with
                                 | Some d => PyDateText.isoformat d
                                 | None => ""
                                 end = false)
      by (destruct (Boleto.vencimento b); [apply Hdate | reflexivity]).
    rewrite !count_field by auto.
    rewrite count_char_app.
    change ("," ++ join "," [PyDateTime.isoformat (Boleto.created_at b)])%string
      with (String "," (PyDateTime.isoformat (Boleto.created_at b))).
    rewrite count_char_cons, (count_absent "," "" _ (Htime _)). simpl. lia.
Qed.

Lemma split_join (sep : ascii) (lines : list string) :
  lines <> [] ->
  List.Forall (fun l => has_char sep l = false) lines ->
  PyStr.split sep (join (String sep "") lines) = lines.
Proof.
  induction lines as [|p ps IH]; intros Hne Hall; [contradiction|].
  inversion Hall as [|? ? Hp Hps]; subst.
  destruct ps as [|q ps]; [apply split_no_sep, Hp|].
  rewrite join_cons.
  change (String sep "" ++ join (String sep "") (q :: ps))%string
    with (String sep (join (String sep "") (q :: ps))).
  rewrite (split_at_sep sep p _ Hp), IH; [reflexivity | discriminate | exact Hps].
Qed.

Lemma has_char_join (c : ascii) (sep : string) (parts : list string) :
  has_char c sep = false ->
  List.Forall (fun p => has_char c p = false) parts ->
  has_char c (join sep parts) = false.
Proof.
  intros Hsep. induction parts as [|p ps IH]; intros Hall; [reflexivity|].
  inversion Hall as [|? ? Hp Hps]; subst.
  destruct ps as [|q ps]; [exact Hp|].
  rewrite join_cons, !has_char_app, Hp, Hsep, (IH Hps). reflexivity.
Qed.

Lemma compra_csv_row_line (c : Compra.t) :
  has_char newline (Compra.produto c) = false ->
  has_char newline (compra_csv_row c) = false.
Proof.
  intros H. unfold compra_csv_row. apply has_char_join; [reflexivity|].
  repeat constructor; try (apply of_int_chars; reflexivity).
  - rewrite replace_comma_chars by reflexivity. exact H.
  - apply date_isoformat_chars; reflexivity.
  - apply datetime_isoformat_chars; reflexivity.
Qed.

Lemma venda_csv_row_line (v : Venda.t) :
  has_char newline (Venda.produto v) = false ->
  has_char newline (venda_csv_row v) = false.
Proof.
  intros H. unfold venda_csv_row. apply has_char_join; [reflexivity|].
  repeat constructor; try (apply of_int_chars; reflexivity).
  - rewrite replace_comma_chars by reflexivity. exact H.
  - apply date_isoformat_chars; reflexivity.
  - apply str_or_empty_chars; reflexivity.
  - apply datetime_isoformat_chars; reflexivity.
Qed.

Lemma boleto_csv_row_line (b : Boleto.t) :
  has_char newline (Boleto.descricao b) = false ->
  has_char newline (Boleto.status b) = false ->
  has_char newline (boleto_csv_row b) = false.
Proof.
  intros H Hs. unfold boleto_csv_row. apply has_char_join; [reflexivity|].
  repeat constructor; try (apply of_int_chars; reflexivity).
  - rewrite replace_comma_chars by reflexivity. exact H.
  - destruct (Boleto.vencimento b); [apply date_isoformat_chars|]; reflexivity.
  - exact Hs.
  - apply datetime_isoformat_chars; reflexivity.
Qed.

Lemma export_split {A : Type} (header : string) (row : A -> string)
      (before : A -> A -> bool) (table : list A) :
  has_char newline header = false ->
  List.Forall (fun r => has_char newline (row r) = false) table ->
  PyStr.split newline
    (join (String newline "") (header :: map row (order_by before table)))
  = header :: map row (order_by before table)
  /\ length (map row (order_by before table)) = length table.
Proof.
  intros Hh Hall. split.
  - apply split_join; [discriminate|].
    constructor; [exact Hh|].
    apply List.Forall_forall. intros l Hin.
    apply in_map_iff in Hin as (r & <- & Hr).
    apply (proj1 (List.Forall_forall _ _) Hall).
    apply (Permutation_in _ (order_by_perm before table)), Hr.
  - rewrite length_map. apply Permutation_length, order_by_perm.
Qed.

(** X16. The exports never fail and leave the database as it is.  When no
    product (for invoices: no description and no status) holds a line
    feed, the lines of the text are the header and one line for each row
    of the table, in the order of the list page. *)
Theorem export_lines (st : db) :
  (exists resp,
      export_compras_csv st = Ok (resp, st)
      /\ content_disposition resp = "attachment; filename=compras.csv"
      /\ (List.Forall (fun c => has_char newline (Compra.produto c) = false)
            (compras_t st) ->
          PyStr.split newline (body resp)
          = "id,produto,custo_unitario_cent,quantidade,data,created_at"
            :: map compra_csv_row (order_by compra_desc (compras_t st))
          /\ length (PyStr.split newline (body resp)) = S (length (compras_t st))))
  /\ (exists resp,
         export_vendas_csv st = Ok (resp, st)
         /\ content_disposition resp = "attachment; filename=vendas.csv"
         /\ (List.Forall (fun v => has_char newline (Venda.produto v) = false)
               (vendas_t st) ->
             PyStr.split newline (body resp)
             = "id,produto,preco_unitario_cent,quantidade,data,custo_unitario_override_cent,created_at"
               :: map venda_csv_row (order_by venda_desc (vendas_t st))
             /\ length (PyStr.split newline (body resp)) = S (length (vendas_t st))))
  /\ (exists resp,
         export_boletos_csv st = Ok (resp, st)
         /\ content_disposition resp = "attachment; filename=boletos.csv"
         /\ (List.Forall (fun b => has_char newline (Boleto.descricao b) = false
                                   /\ has_char newline (Boleto.status b) = false)
               (boletos_t st) ->
             PyStr.split newline (body resp)
             = "id,descricao,valor_centavos,vencimento,status,created_at"
               :: map boleto_csv_row (order_by boleto_desc (boletos_t st))
             /\ length (PyStr.split newline (body resp)) = S (length (boletos_t st)))).
Proof.
  split; [|split]; eexists; (split; [reflexivity|]); (split; [reflexivity|]);
    intros Hall.
  - destruct (export_split "id,produto,custo_unitario_cent,quantidade,data,created_at"
                compra_csv_row compra_desc (compras_t st) eq_refl) as [Hs Hl].
    { eapply List.Forall_impl; [|exact Hall]. intros c; apply compra_csv_row_line. }
    split; [exact Hs|].
    etransitivity; [exact (f_equal (@length string) Hs)|].
    simpl length. rewrite Hl. reflexivity.
  - destruct (export_split
                "id,produto,preco_unitario_cent,quantidade,data,custo_unitario_override_cent,created_at"
                venda_csv_row venda_desc (vendas_t st) eq_refl) as [Hs Hl].
    { eapply List.Forall_impl; [|exact Hall]. intros v; apply venda_csv_row_line. }
    split; [exact Hs|].
    etransitivity; [exact (f_equal (@length string) Hs)|].
    simpl length. rewrite Hl. reflexivity.
  - destruct (export_split "id,descricao,valor_centavos,vencimento,status,created_at"
                boleto_csv_row boleto_desc (boletos_t st) eq_refl) as [Hs Hl].
    { eapply List.Forall_impl; [|exact Hall]. intros b [H1 H2].
      apply boleto_csv_row_line; assumption. }
    split; [exact Hs|].
    etransitivity; [exact (f_equal (@length string) Hs)|].
    simpl length. rewrite Hl. reflexivity.
Qed.

(** The override column is empty for no override and for an override of
    0, and for nothing else. *)
Lemma str_or_empty_spec (x : option Z) :
  str_or_empty x = "" <-> x = None \/ x = Some 0.
Proof.
  split.
  - destruct x as [n|]; [|left; reflexivity]. simpl.
    destruct (Z.eqb_spec n 0) as [-> | Hn]; [right; reflexivity|].
    intros H. exfalso. unfold PyStr.of_int in H.
    destruct (Z.ltb_spec n 0) as [Hneg | Hpos]; [discriminate H|].
    destruct (of_nonneg_spec n Hpos) as (_ & Hne & _). contradiction.
  - intros [-> | ->]; reflexivity.
Qed.

(** X17. The sale export writes a sale with a cost override of 0 as it
    writes the same sale without override, although [custo_para_venda]
    takes the override of 0 as the cost. *)
Theorem export_hides_zero_override (v : Venda.t) (st : db) :
  Venda.custo_unitario_override_cent v = Some 0 ->
  venda_csv_row v
  = venda_csv_row (Venda.mk (Venda.id v) (Venda.produto v) (Venda.preco_unitario_cent v)
                     (Venda.quantidade v) (Venda.data v) None (Venda.created_at v))
  /\ custo_para_venda v st = Ok (0, st).
Proof.
  intros H. split; [|apply custo_para_venda_override, H].
  unfold venda_csv_row. rewrite H. reflexivity.
Qed.

(** ** The cost of a sale and the saved rates *)

(** X18. For a sale without cost override whose product holds neither [%]
    nor [_], the cost is that of the latest purchase whose product is the
    same text up to the case of the letters A-Z, and 0 when there is no
    such purchase. *)
Theorem custo_para_venda_latest (v : Venda.t) (st : db) :
  Venda.custo_unitario_override_cent v = None ->
  no_wildcard (Venda.produto v) = true ->
  exists n,
    custo_para_venda v st = Ok (n, st)
    /\ ((forall c, In c (compras_t st) ->
                   PyStr.lower (Compra.produto c) <> PyStr.lower (Venda.produto v))
        /\ n = 0
        \/ exists c,
            In c (compras_t st)
            /\ PyStr.lower (Compra.produto c) = PyStr.lower (Venda.produto v)
            /\ n = Compra.custo_unitario_cent c
            /\ forall c', In c' (compras_t st) ->
                          PyStr.lower (Compra.produto c') = PyStr.lower (Venda.produto v) ->
                          compra_order c c').
Proof.
  intros Hnone Hw. unfold custo_para_venda. rewrite Hnone.
  destruct (latest_compra_custo_spec (Venda.produto v) st) as (n & Hn & Hcases).
  exists n. split; [exact Hn|].
  destruct Hcases as [[Hno ->] | (c & Hin & Hlike & -> & Hfirst)].
  - left. split; [|reflexivity]. intros c Hin Heq.
    specialize (Hno c Hin).
    assert (Ht : ilike (Compra.produto c) (Venda.produto v) = true)
      by (apply ilike_no_wildcard; [exact Hw | symmetry; exact Heq]).
    congruence.
  - right. exists c. split; [exact Hin|]. split.
    + symmetry. apply (ilike_no_wildcard _ _ Hw), Hlike.
    + split; [reflexivity|]. intros c' Hin' Heq. apply Hfirst; [exact Hin'|].
      apply ilike_no_wildcard; [exact Hw | symmetry; exact Heq].
Qed.



(** ** The properties on the sample requests *)

Lemma create_then_row_witness :
  create_compra Sample.today 7000 Scenario.form_filtro Sample.ledger_full
  = Ok (Scenario.compra_filtro, Scenario.ledger_filtro)
  /\ compra_row (Compra.id Scenario.compra_filtro) Scenario.ledger_filtro
     = Ok (Scenario.compra_filtro, Scenario.ledger_filtro).
Proof.
  assert (H : create_compra Sample.today 7000 Scenario.form_filtro Sample.ledger_full
              = Ok (Scenario.compra_filtro, Scenario.ledger_filtro))
    by (vm_compute; reflexivity).
  split; [exact H|].
  exact (proj2 (proj2 (proj2 (proj2 (proj2
           (proj1 (create_then_row Sample.today 7000 Scenario.form_filtro
                     Sample.ledger_full) _ _ H)))))).
Defined.

Lemma delete_then_404_witness :
  delete_compra 2 Sample.ledger_full = Ok (tt, Scenario.ledger_sem_kit)
  /\ delete_compra 2 Scenario.ledger_sem_kit = Abort 404.
Proof.
  assert (H : delete_compra 2 Sample.ledger_full = Ok (tt, Scenario.ledger_sem_kit))
    by (vm_compute; reflexivity).
  split; [exact H|].
  exact (proj1 (proj2 (proj1 (delete_then_404 2 Sample.ledger_full
                                Scenario.ledger_sem_kit tt) H))).
Defined.

Lemma toggle_status_spec_witness :
  toggle_status 1 Sample.ledger_boletos
  = Ok (Scenario.boleto_luz_pago, Scenario.ledger_luz_paga)
  /\ boleto_row 1 Scenario.ledger_luz_paga
     = Ok (Scenario.boleto_luz_pago, Scenario.ledger_luz_paga).
Proof.
  assert (H : toggle_status 1 Sample.ledger_boletos
              = Ok (Scenario.boleto_luz_pago, Scenario.ledger_luz_paga))
    by (vm_compute; reflexivity).
  split; [exact H|].
  destruct (toggle_status_spec 1 Sample.ledger_boletos Scenario.ledger_luz_paga
              Scenario.boleto_luz_pago H) as (b0 & _ & Hrow & _).
  exact Hrow.
Defined.

Lemma update_twice_witness :
  update_venda 1 Sample.form_menos_tres Sample.ledger
  = Ok (Sample.venda_menos_tres, Sample.ledger_menos_tres)
  /\ update_venda 1 Sample.form_menos_tres Sample.ledger_menos_tres
     = Ok (Sample.venda_menos_tres, Sample.ledger_menos_tres).
Proof.
  assert (H : update_venda 1 Sample.form_menos_tres Sample.ledger
              = Ok (Sample.venda_menos_tres, Sample.ledger_menos_tres))
    by (vm_compute; reflexivity).
  split; [exact H|].
  exact (proj1 (proj2 (update_twice 1 Sample.form_menos_tres Sample.ledger
                         Sample.ledger_menos_tres)) _ H).
Defined.

Lemma update_frame_witness :
  update_compra 1 Scenario.form_filtro Sample.ledger
  = Ok (Scenario.compra_editada, Scenario.ledger_editado)
  /\ exists c0,
      compra_row 1 Sample.ledger = Ok (c0, Sample.ledger)
      /\ Compra.created_at Scenario.compra_editada = Compra.created_at c0.
Proof.
  assert (H : update_compra 1 Scenario.form_filtro Sample.ledger
              = Ok (Scenario.compra_editada, Scenario.ledger_editado))
    by (vm_compute; reflexivity).
  split; [exact H|].
  destruct (proj1 (update_frame 1 Scenario.form_filtro Sample.ledger
                     Scenario.ledger_editado) _ H) as (c0 & Hrow & _ & Hca & _).
  exists c0. split; [exact Hrow | exact Hca].
Defined.

Lemma reachable_well_formed_witness :
  reachable Scenario.ledger_primeira /\ well_formed Scenario.ledger_primeira.
Proof.
  assert (H : handle Sample.today 7000 (PostCompra Scenario.form_filtro)
                (mkdb [] [] [] None)
              = Ok (tt, Scenario.ledger_primeira))
    by (vm_compute; reflexivity).
  assert (R : reachable Scenario.ledger_primeira)
    by exact (reach_ok _ _ _ _ _ _ reach_empty H).
  split; [exact R | exact (reachable_well_formed _ R)].
Defined.

Lemma dashboard_totals_balance_witness :
  dashboard Sample.today (Some "2024-12") Sample.ledger_year_end
  = Ok (Scenario.painel_dezembro, Scenario.ledger_dezembro)
  /\ tot_lucro Scenario.painel_dezembro
     = tot_receita Scenario.painel_dezembro - tot_taxas Scenario.painel_dezembro
       - tot_custo Scenario.painel_dezembro.
Proof.
  assert (H : dashboard Sample.today (Some "2024-12") Sample.ledger_year_end
              = Ok (Scenario.painel_dezembro, Scenario.ledger_dezembro))
    by (vm_compute; reflexivity).
  split; [exact H|].
  exact (dashboard_totals_balance _ _ _ _ _ H).
Defined.

Lemma dashboard_ordered_read_only_witness :
  dashboard Sample.today (Some "2024-12") Sample.ledger_year_end
  = Ok (Scenario.painel_dezembro, Scenario.ledger_dezembro)
  /\ dashboard Sample.today (Some "2024-12") Scenario.ledger_dezembro
     = Ok (Scenario.painel_dezembro, Scenario.ledger_dezembro).
Proof.
  assert (H : dashboard Sample.today (Some "2024-12") Sample.ledger_year_end
              = Ok (Scenario.painel_dezembro, Scenario.ledger_dezembro))
    by (vm_compute; reflexivity).
  split; [exact H|].
  exact (proj2 (proj2 (proj2 (proj2 (proj2
           (dashboard_ordered_read_only _ _ _ _ _ H)))))).
Defined.

Lemma dashboard_rows_of_the_month_witness :
  dashboard Sample.today (Some "2024-12") Sample.ledger_year_end
  = Ok (Scenario.painel_dezembro, Scenario.ledger_dezembro)
  /\ exists y mo,
      month_bounds Sample.today (or_str (Some "2024-12") (PyDate.year_month Sample.today))
      = Ok (PyDate.mk y mo 1,
            if mo =? 12 then PyDate.mk (y + 1) 1 1 else PyDate.mk y (mo + 1) 1)
      /\ (In Sample.venda_cabo (map l_venda (linhas Scenario.painel_dezembro)) <->
          In Sample.venda_cabo (vendas_t Sample.ledger_year_end)
          /\ PyDate.year (Venda.data Sample.venda_cabo) = y
          /\ PyDate.month (Venda.data Sample.venda_cabo) = mo).
Proof.
  assert (H : dashboard Sample.today (Some "2024-12") Sample.ledger_year_end
              = Ok (Scenario.painel_dezembro, Scenario.ledger_dezembro))
    by (vm_compute; reflexivity).
  split; [exact H|].
  destruct (dashboard_rows_of_the_month _ _ _ _ _ H) as (y & mo & Hb & Hrows).
  exists y, mo. split; [exact Hb|].
  apply Hrows; simpl; lia.
Defined.

Lemma dashboard_default_month_witness :
  1 <= PyDate.year Sample.today <= 9999
  /\ 1 <= PyDate.month Sample.today <= 12
  /\ 1 <= PyDate.day Sample.today
  /\ dashboard Sample.today None Sample.ledger
     = dashboard Sample.today (Some (PyDate.year_month Sample.today)) Sample.ledger.
Proof.
  assert (Hy : 1 <= PyDate.year Sample.today <= 9999) by (simpl; lia).
  assert (Hm : 1 <= PyDate.month Sample.today <= 12) by (simpl; lia).
  assert (Hd : 1 <= PyDate.day Sample.today) by (simpl; lia).
  split; [exact Hy|]. split; [exact Hm|]. split; [exact Hd|].
  exact (proj1 (dashboard_default_month Sample.today Sample.ledger Hy Hm Hd)).
Defined.

Lemma isoformat_round_trip_witness :
  valid_date Sample.today
  /\ PyDate.strptime (PyDateText.isoformat Sample.today) = Some Sample.today.
Proof.
  assert (H : valid_date Sample.today) by (vm_compute; reflexivity).
  split; [exact H|].
  exact (proj1 (isoformat_round_trip Sample.today H)).
Defined.

Lemma edit_form_dates_witness :
  edit_venda 1 Sample.ledger = Ok (Sample.venda_chaleira, Sample.ledger)
  /\ Scenario.form_venda_reenviada !! "data"
     = Some (venda_edit_data Sample.venda_chaleira)
  /\ update_venda 1 Scenario.form_venda_reenviada Sample.ledger
     = Ok (Scenario.venda_dia_doze, Scenario.ledger_dia_doze)
  /\ Venda.data Sample.venda_chaleira = PyDate.mk 2024 12 15
  /\ Venda.data Scenario.venda_dia_doze
     = PyDate.mk (PyDate.year (Venda.data Sample.venda_chaleira))
         (PyDate.month (Venda.data Sample.venda_chaleira))
         (PyDate.month (Venda.data Sample.venda_chaleira)).
Proof.
  assert (He : edit_venda 1 Sample.ledger = Ok (Sample.venda_chaleira, Sample.ledger))
    by (vm_compute; reflexivity).
  assert (Hf : Scenario.form_venda_reenviada !! "data"
               = Some (venda_edit_data Sample.venda_chaleira))
    by (vm_compute; reflexivity).
  assert (Hu : update_venda 1 Scenario.form_venda_reenviada Sample.ledger
               = Ok (Scenario.venda_dia_doze, Scenario.ledger_dia_doze))
    by (vm_compute; reflexivity).
  assert (Hv : valid_date (Venda.data Sample.venda_chaleira))
    by (vm_compute; reflexivity).
  assert (Hy : 1000 <= PyDate.year (Venda.data Sample.venda_chaleira))
    by (simpl; lia).
  split; [exact He|]. split; [exact Hf|]. split; [exact Hu|].
  split; [reflexivity|].
  exact (proj1 (proj2 (edit_form_dates 1 Scenario.form_venda_reenviada Sample.ledger
                         Scenario.ledger_dia_doze)) _ _ He Hv Hy Hf Hu).
Defined.

Lemma export_lines_witness :
  List.Forall (fun c => has_char newline (Compra.produto c) = false)
    (compras_t Sample.ledger_full)
  /\ exists resp,
      export_compras_csv Sample.ledger_full = Ok (resp, Sample.ledger_full)
      /\ length (PyStr.split newline (body resp)) = 3%nat.
Proof.
  assert (H : List.Forall (fun c => has_char newline (Compra.produto c) = false)
                (compras_t Sample.ledger_full))
    by (repeat constructor).
  split; [exact H|].
  destruct (proj1 (export_lines Sample.ledger_full)) as (resp & Hr & _ & Hl).
  exists resp. split; [exact Hr|]. exact (proj2 (Hl H)).
Defined.

Lemma export_hides_zero_override_witness :
  Venda.custo_unitario_override_cent Sample.venda_novembro = Some 0
  /\ venda_csv_row Sample.venda_novembro
     = venda_csv_row (Venda.mk 3 "Filtro" 2500 1 (PyDate.mk 2024 11 30) None 4000).
Proof.
  assert (H : Venda.custo_unitario_override_cent Sample.venda_novembro = Some 0)
    by reflexivity.
  split; [exact H|].
  exact (proj1 (export_hides_zero_override Sample.venda_novembro Sample.ledger H)).
Defined.

Lemma custo_para_venda_latest_witness :
  Venda.custo_unitario_override_cent Sample.venda_chaleira = None
  /\ no_wildcard (Venda.produto Sample.venda_chaleira) = true
  /\ exists n,
      custo_para_venda Sample.venda_chaleira Sample.ledger_full
      = Ok (n, Sample.ledger_full).
Proof.
  assert (H1 : Venda.custo_unitario_override_cent Sample.venda_chaleira = None)
    by reflexivity.
  assert (H2 : no_wildcard (Venda.produto Sample.venda_chaleira) = true)
    by (vm_compute; reflexivity).
  split; [exact H1|]. split; [exact H2|].
  destruct (custo_para_venda_latest Sample.venda_chaleira Sample.ledger_full H1 H2)
    as (n & Hn & _).
  exists n. exact Hn.
Defined.


(** ** Reading an amount written with thousands periods and a decimal comma *)

Lemma replace_char_cons (a c : ascii) (new s : string) :
  PyStr.replace (String a "") new (String c s)
  = if Ascii.eqb a c then (new ++ PyStr.replace (String a "") new s)%string
    else String c (PyStr.replace (String a "") new s).
Proof.
  unfold PyStr.replace.
  change (PyStr.replace_from (String a "") new 0 (String c s))
    with (if Ascii.eqb a c && true
          then (new ++ PyStr.replace_from (String a "") new 0 s)%string
          else String c (PyStr.replace_from (String a "") new 0 s)).
  rewrite andb_true_r. reflexivity.
Qed.

Lemma replace_char_app (a : ascii) (new s t : string) :
  PyStr.replace (String a "") new (s ++ t)
  = (PyStr.replace (String a "") new s ++ PyStr.replace (String a "") new t)%string.
Proof.
  induction s as [|c s IH]; [reflexivity|].
  rewrite append_cons, !replace_char_cons, IH.
  destruct (Ascii.eqb a c); [rewrite append_assoc|]; reflexivity.
Qed.

Lemma count_nonneg (a : ascii) (s : string) : 0 <= PyStr.count (String a "") s.
Proof.
  induction s as [|c s IH]; [reflexivity|].
  rewrite count_char_cons. destruct (Ascii.eqb a c); lia.
Qed.

(** Without its periods, the grouped text is the text of the digits. *)
Lemma grouped_without_points (s : string) :
  all_digits s = true ->
  PyStr.replace "." "" (subst_char "," "." (PyStr.commas s)) = s.
Proof.
  induction s as [|c s IH]; intros Hall; [reflexivity|].
  simpl in Hall. apply andb_true_iff in Hall as [Hc Hs].
  assert (Hcomma : Ascii.eqb "," c = false).
  { destruct (Ascii.eqb "," c) eqn:E; [|reflexivity].
    apply Ascii.eqb_eq in E. subst c. discriminate Hc. }
  assert (Hpoint : Ascii.eqb "." c = false).
  { destruct (Ascii.eqb "." c) eqn:E; [|reflexivity].
    apply Ascii.eqb_eq in E. subst c. discriminate Hc. }
  change (PyStr.commas (String c s))
    with (String c (if negb (Nat.eqb (String.length s) 0)
                       && Nat.eqb (Nat.modulo (String.length s) 3) 0
                    then String "," (PyStr.commas s) else PyStr.commas s)).
  rewrite subst_char_cons, Hcomma, replace_char_cons, Hpoint. f_equal.
  destruct (negb _ && _).
  - rewrite subst_char_cons, Ascii.eqb_refl, replace_char_cons, Ascii.eqb_refl.
    rewrite append_nil_l. apply IH, Hs.
  - apply IH, Hs.
Qed.

Lemma replace_comma_point (sign ds cc : string) :
  has_char "," sign = false -> has_char "," ds = false -> has_char "," cc = false ->
  PyStr.replace "," "." (sign ++ ds ++ "," ++ cc) = (sign ++ ds ++ "." ++ cc)%string.
Proof.
  intros H1 H2 H3.
  change ("," ++ cc)%string with (String "," cc).
  rewrite !replace_char_app, replace_char_cons, Ascii.eqb_refl.
  rewrite !replace_absent by assumption. reflexivity.
Qed.

(** X20. [parse_valor_to_centavos] reads back every amount below 10^26
    centavos in absolute value that is written as in Brazil, with periods
    between the thousands and a comma before the cents, with the currency
    symbol or without it. *)
Theorem parse_of_amount_text (symbol : bool) (n : Z) :
  Z.abs n < 10 ^ 26 ->
  parse_valor_to_centavos (amount_text symbol n) = Ok n.
Proof.
  intros Hn. unfold amount_text.
  assert (Hr : 0 <= Z.abs n / 100) by (apply Z.div_pos; lia).
  assert (Hc : 0 <= Z.abs n mod 100 < 100) by (apply Z.mod_pos_bound; lia).
  pose proof (Z.div_mod (Z.abs n) 100 ltac:(lia)) as Hdm.
  set (reais := Z.abs n / 100) in *. set (c := Z.abs n mod 100) in *.
  destruct (of_nonneg_spec reais Hr) as (Hall & Hne & Hval & _).
  destruct (pad2_spec c ltac:(lia)) as (Hcall & Hcne & Hcval).
  pose proof (pad2_length c Hc) as Hclen.
  unfold PyStr.grouped.
  set (ds := PyStr.of_nonneg reais) in *. set (cc := PyStr.pad2 c) in *.
  clearbody ds cc.
  set (W := subst_char "," "." (PyStr.commas ds)).
  set (sign := if n <? 0 then "-" else "").
  destruct (grouped_head ds Hall Hne) as (d & rest & HW & Hd). fold W in HW.
  assert (Hdsc : forall x, PyStr.is_digit x = false -> has_char x ds = false)
    by (intros x Hx; apply has_char_digits; assumption).
  assert (Hccc : forall x, PyStr.is_digit x = false -> has_char x cc = false)
    by (intros x Hx; apply has_char_digits; assumption).
  assert (HWc : forall x, PyStr.is_digit x = false -> Ascii.eqb x "." = false ->
                          has_char x W = false).
  { intros x Hx Hp. unfold W. destruct (Ascii.eqb_spec x ",") as [-> | Hx'].
    - apply has_char_subst_gone. reflexivity.
    - apply has_char_subst_other; [exact Hp|].
      rewrite has_char_commas by (apply Ascii.eqb_neq, Hx'). apply Hdsc, Hx. }
  set (B := (W ++ "," ++ cc)%string).
  assert (HBc : forall x, PyStr.is_digit x = false -> Ascii.eqb x "." = false ->
                          Ascii.eqb x "," = false -> has_char x B = false).
  { intros x Hx Hp Hcm. unfold B.
    change ("," ++ cc)%string with (String "," cc).
    rewrite has_char_app, (HWc x Hx Hp). simpl. rewrite Hcm. apply Hccc, Hx. }
  assert (Hsign : forall x, Ascii.eqb x "-" = false -> has_char x sign = false).
  { intros x Hx. unfold sign. destruct (n <? 0); [simpl; rewrite Hx|]; reflexivity. }
  (* the text, cleaned of the symbol and of blanks *)
  assert (Hclean : PyStr.replace " " ""
                     (PyStr.replace "R$" ""
                        (PyStr.strip (sign ++ (if symbol then "R$ " else "") ++ B)))
                   = (sign ++ B)%string).
  { assert (Hstrip : PyStr.strip (sign ++ (if symbol then "R$ " else "") ++ B)
                     = (sign ++ (if symbol then "R$ " else "") ++ B)%string).
    { unfold PyStr.strip.
      assert (Hl : PyStr.lstrip (sign ++ (if symbol then "R$ " else "") ++ B)
                   = (sign ++ (if symbol then "R$ " else "") ++ B)%string).
      { unfold sign, B. rewrite HW.
        destruct (n <? 0), symbol; try reflexivity;
          rewrite ?append_nil_l, append_cons;
          apply lstrip_id, digit_not_space, Hd. }
      rewrite Hl.
      assert (Hform : (sign ++ (if symbol then "R$ " else "") ++ B)%string
                      = ((sign ++ (if symbol then "R$ " else "") ++ W ++ ",") ++ cc)%string)
        by (unfold B; rewrite !append_assoc; reflexivity).
      rewrite Hform. apply rstrip_app; [exact Hcne | apply rstrip_digits, Hcall]. }
    rewrite Hstrip. destruct symbol.
    - apply strip_currency; apply HBc; reflexivity.
    - rewrite append_nil_l.
      rewrite (replace_absent "R" "$" "" (sign ++ B))
        by (rewrite has_char_app, Hsign, HBc; reflexivity).
      apply replace_absent. rewrite has_char_app, Hsign, HBc; reflexivity. }
  unfold parse_valor_to_centavos. fold sign. fold B. rewrite Hclean. clear Hclean.
  (* one comma; periods only from four digits of reais on *)
  assert (Hcount : PyStr.count "," (sign ++ B) = 1).
  { rewrite count_char_app, (count_absent "," "" sign) by (apply Hsign; reflexivity).
    unfold B. rewrite count_field by (apply has_char_subst_gone; reflexivity).
    rewrite (count_absent "," "" cc) by (apply Hccc; reflexivity).
    reflexivity. }
  rewrite Hcount. change (1 =? 1) with true. rewrite andb_true_l.
  assert (Htext : (if 1 <=? PyStr.count "." (sign ++ B)
                   then PyStr.replace "," "." (PyStr.replace "." "" (sign ++ B))
                   else PyStr.replace "," "." (sign ++ B))
                  = (sign ++ ds ++ "." ++ cc)%string).
  { destruct (le_gt_dec (String.length ds) 3) as [Hshort | Hlong].
    - assert (EW : W = ds).
      { unfold W. rewrite (commas_short ds Hshort).
        apply subst_char_absent, Hdsc. reflexivity. }
      unfold B. rewrite EW.
      assert (Hnone : PyStr.count "." (sign ++ ds ++ "," ++ cc) = 0).
      { apply count_absent.
        change ("," ++ cc)%string with (String "," cc).
        rewrite !has_char_app, Hsign, Hdsc by reflexivity.
        simpl. apply Hccc. reflexivity. }
      rewrite Hnone. change (1 <=? 0) with false.
      apply replace_comma_point; [apply Hsign | apply Hdsc | apply Hccc]; reflexivity.
    - destruct (grouped_points ds Hall Hlong) as (g1 & g2 & r & HWp & _).
      fold W in HWp.
      assert (Hsome : 1 <= PyStr.count "." (sign ++ B)).
      { unfold B. rewrite HWp, !count_char_app, count_char_cons, Ascii.eqb_refl.
        cbv iota.
        pose proof (count_nonneg "." sign). pose proof (count_nonneg "." g1).
        pose proof (count_nonneg "." g2). pose proof (count_nonneg "." r).
        pose proof (count_nonneg "." (g2 ++ r)). pose proof (count_nonneg "." ",").
        pose proof (count_nonneg "." cc).
        lia. }
      apply Z.leb_le in Hsome. rewrite Hsome.
      assert (Hdrop : PyStr.replace "." "" (sign ++ B) = (sign ++ ds ++ "," ++ cc)%string).
      { unfold B. rewrite !replace_char_app.
        rewrite (replace_absent "." "" "" sign) by (apply Hsign; reflexivity).
        unfold W. rewrite (grouped_without_points ds Hall).
        rewrite (replace_absent "." "" "" cc) by (apply Hccc; reflexivity).
        reflexivity. }
      rewrite Hdrop.
      apply replace_comma_point; [apply Hsign | apply Hdsc | apply Hccc]; reflexivity. }
  rewrite Htext. clear Htext Hcount HBc B HWc HW W.
  (* the Decimal of the cleaned text and its hundredfold *)
  destruct ds as [|d0 ds']; [contradiction|].
  assert (Hd0 : PyStr.is_digit d0 = true)
    by (simpl in Hall; apply andb_true_iff in Hall as [H0 _]; exact H0).
  change (String d0 ds' ++ "." ++ cc)%string with (String d0 (ds' ++ "." ++ cc)).
  unfold sign. rewrite decimal_of_text; [|exact Hd0| |].
  - change (String d0 (ds' ++ "." ++ cc)) with (String d0 ds' ++ String "." cc)%string.
    rewrite (parse_number_point _ (String d0 ds') cc Hall Hcall Hne), Hval, Hcval, Hclen.
    change (10 ^ Z.of_nat 2) with 100. change (0 - Z.of_nat 2) with (-2).
    replace (0 * 10 ^ Z.of_nat (String.length (String d0 ds')) + reais) with reais by lia.
    replace (reais * 100 + c) with (Z.abs n) by lia.
    change (try_except (of_option InvalidOperation
                          (Some (PyDecimal.Finite (n <? 0) (Z.abs n) (-2))))
                       PyDecimal.zero)
      with (Ok (PyDecimal.Finite (n <? 0) (Z.abs n) (-2))).
    change (dec ← Ok (PyDecimal.Finite (n <? 0) (Z.abs n) (-2));
            p ← PyDecimal.mul_int dec 100; PyDecimal.to_int p)
      with (p ← PyDecimal.mul_int (PyDecimal.Finite (n <? 0) (Z.abs n) (-2)) 100;
            PyDecimal.to_int p).
    rewrite cents_of_decimal by lia.
    f_equal. destruct (Z.ltb_spec n 0); lia.
  - assert (Hform : String d0 (ds' ++ "." ++ cc)
                    = ((String d0 ds' ++ ".") ++ cc)%string)
      by (rewrite append_assoc; reflexivity).
    rewrite Hform. apply rstrip_app; [exact Hcne | apply rstrip_digits, Hcall].
  - change (String d0 (ds' ++ "." ++ cc)) with (String d0 ds' ++ String "." cc)%string.
    rewrite has_char_app, Hdsc by reflexivity. simpl. apply Hccc. reflexivity.
Qed.

Lemma parse_of_amount_text_witness :
  Z.abs 123456789 < 10 ^ 26
  /\ amount_text true 123456789 = "R$ 1.234.567,89"
  /\ parse_valor_to_centavos (amount_text true 123456789) = Ok 123456789.
Proof.
  assert (H : Z.abs 123456789 < 10 ^ 26) by reflexivity.
  split; [exact H|]. split; [vm_compute; reflexivity|].
  exact (parse_of_amount_text true 123456789 H).
Defined.

(** ** The outcomes of a create *)



(** ** The text models on known values *)

Example isoformat_ex :
  PyDateText.isoformat (PyDate.mk 999 1 2) = "0999-01-02"
  /\ PyDateText.strftime "%Y-%m-%d" (PyDate.mk 2024 3 5) = "2024-03-05"
  /\ PyDateText.strftime "%d/%m/%Y" (PyDate.mk 2024 3 5) = "05/03/2024"
  /\ PyDateText.strftime "%Y-%m-%m" (PyDate.mk 2024 12 15) = "2024-12-12".
Proof. repeat split; vm_compute; reflexivity. Qed.

Example datetime_isoformat_ex :
  PyDateTime.isoformat 0 = "1970-01-01T00:00:00"
  /\ PyDateTime.isoformat 1730000000000067 = "2024-10-27T03:33:20.000067"
  /\ PyDateTime.isoformat 1709164799999999 = "2024-02-28T23:59:59.999999"
  /\ PyDateTime.isoformat 951782400000000 = "2000-02-29T00:00:00"
  /\ PyDateTime.isoformat 4102444800000000 = "2100-01-01T00:00:00"
  /\ PyDateTime.isoformat (-1) = "1969-12-31T23:59:59.999999"
  /\ PyDateTime.isoformat 253402300799999999 = "9999-12-31T23:59:59.999999"
  /\ PyDateTime.isoformat (-62135596800000000) = "0001-01-01T00:00:00".
Proof. repeat split; vm_compute; reflexivity. Qed.

Example export_ex :
  venda_csv_row (Venda.mk 3 "a,b, c" 1000 2 (PyDate.mk 2024 1 5) (Some 0) 1730000000000067)
  = "3,a b  c,1000,2,2024-01-05,,2024-10-27T03:33:20.000067"
  /\ venda_csv_row (Venda.mk 3 "Cabo" 1000 2 (PyDate.mk 2024 1 5) (Some (-5)) 0)
     = "3,Cabo,1000,2,2024-01-05,-5,1970-01-01T00:00:00"
  /\ (body <$> (match export_compras_csv (mkdb [] [] [] None) with
                | Ok (r, _) => Some r
                | _ => None
                end))
     = Some "id,produto,custo_unitario_cent,quantidade,data,created_at"
  /\ amount_text true (-123456) = "-R$ 1.234,56"
  /\ amount_text false 5 = "0,05".
Proof. repeat split; vm_compute; reflexivity. Qed.

(** ** The outcomes of [month_bounds] *)




